(** * Ticket printing pipeline of wasla_management

    A shallow embedding of the printing core of the desktop application:
    ticket and report formatting, ESC/POS encoding, TCP delivery, the HTTP
    control facade and the printer address store.

    Three copies of the embedded printer service exist in the repository and
    are modelled side by side:
    - [Embedded]      src/services/embeddedPrinterService.ts
    - [ElectronMain]  the JavaScript copy appended to electron/main.ts
    - [Legacy]        unnamed/part_004, an earlier and simpler copy
    and the address store of src/services/printerService.ts
    ([PrinterIpConfigService]) with its caller [handleSaveIp]
    (unnamed/part_003) is modelled in [ConfigStore]. [ElectronFacade] is
    the HTTP facade of electron/main.ts, [Client] the calling side of
    src/services/printerService.ts, and [VirtualPrinter] the decoder of
    the simulator virtual-printer.cjs. *)

From Stdlib Require Import ZArith List String Ascii Bool Lia.
From Stdlib Require Import Floats.
From stdpp Require Import base gmap.

Import ListNotations.
Local Open Scope Z_scope.

(** ** The JavaScript runtime, as far as the service uses it *)

Module JS.

(** A JavaScript string is a sequence of UTF-16 code units. *)
Definition jsstring := list Z.

(** The string literals of the source are ASCII, one code unit per character. *)
Fixpoint lit (s : string) : jsstring :=
  match s with
  | EmptyString => []
  | String c r => Z.of_N (N_of_ascii c) :: lit r
  end.

(** [Array.prototype.join]. *)
Fixpoint join {A : Type} (sep : list A) (parts : list (list A)) : list A :=
  match parts with
  | [] => []
  | [p] => p
  | p :: rest => p ++ sep ++ join sep rest
  end.

Definition LF : Z := 10.

(** *** [Buffer.from(s, 'utf8')] *)

Definition is_high_surrogate (c : Z) : bool := (0xD800 <=? c) && (c <=? 0xDBFF).
Definition is_low_surrogate (c : Z) : bool := (0xDC00 <=? c) && (c <=? 0xDFFF).

Definition code_point (hi lo : Z) : Z :=
  0x10000 + Z.shiftl (hi - 0xD800) 10 + (lo - 0xDC00).

Definition cont (x : Z) : Z := Z.lor 0x80 (Z.land x 0x3F).

Definition utf8_scalar (cp : Z) : list Z :=
  if cp <? 0x80 then [cp]
  else if cp <? 0x800 then [Z.lor 0xC0 (Z.shiftr cp 6); cont cp]
  else if cp <? 0x10000 then
    [Z.lor 0xE0 (Z.shiftr cp 12); cont (Z.shiftr cp 6); cont cp]
  else
    [Z.lor 0xF0 (Z.shiftr cp 18); cont (Z.shiftr cp 12);
     cont (Z.shiftr cp 6); cont cp].

(** An unpaired surrogate is written as U+FFFD. *)
Definition replacement : list Z := [0xEF; 0xBF; 0xBD].

Fixpoint utf8 (s : jsstring) : list Z :=
  match s with
  | [] => []
  | c :: rest =>
      if is_high_surrogate c then
        match rest with
        | d :: rest' =>
            if is_low_surrogate d
            then utf8_scalar (code_point c d) ++ utf8 rest'
            else replacement ++ utf8 rest
        | [] => replacement
        end
      else if is_low_surrogate c then replacement ++ utf8 rest
      else utf8_scalar c ++ utf8 rest
  end.

(** *** Numbers: IEEE 754 binary64 *)

Definition number := float.

(** [ToBoolean] on a number: [0], [-0] and [NaN] are falsy. *)
Definition truthy (x : number) : bool := negb (is_nan x || is_zero x).

(** An optional field read in a boolean position ([undefined] is falsy). *)
Definition truthy_opt (o : option number) : bool :=
  match o with Some x => truthy x | None => false end.

(** [ToNumber] of a possibly absent numeric field ([undefined] gives [NaN]). *)
Definition to_number (o : option number) : number :=
  match o with Some x => x | None => nan end.

(** [x || d] on a possibly absent number. *)
Definition or_default (o : option number) (d : number) : number :=
  match o with
  | Some x => if truthy x then x else d
  | None => d
  end.

(** [Math.max(a, b)]: [NaN] if either is, [+0] above [-0]. *)
Definition Math_max (a b : number) : number :=
  if is_nan a || is_nan b then nan
  else if (a <? b)%float then b
  else if (b <? a)%float then a
  else if get_sign a then b else a.

(** Decimal digits of a natural number. *)
Fixpoint uint_digits (u : Decimal.uint) : jsstring :=
  match u with
  | Decimal.Nil => []
  | Decimal.D0 r => 48 :: uint_digits r
  | Decimal.D1 r => 49 :: uint_digits r
  | Decimal.D2 r => 50 :: uint_digits r
  | Decimal.D3 r => 51 :: uint_digits r
  | Decimal.D4 r => 52 :: uint_digits r
  | Decimal.D5 r => 53 :: uint_digits r
  | Decimal.D6 r => 54 :: uint_digits r
  | Decimal.D7 r => 55 :: uint_digits r
  | Decimal.D8 r => 56 :: uint_digits r
  | Decimal.D9 r => 57 :: uint_digits r
  end.

Definition digits (n : Z) : jsstring := uint_digits (N.to_uint (Z.to_N n)).

(** An integer inside a template literal. *)
Definition int_string (n : Z) : jsstring :=
  if n <? 0 then 45 :: digits (- n) else digits n.

(** The exact value of a finite float, as [m * 2^e] with a sign. *)
Definition magnitude_num (m : positive) (e : Z) : Z :=
  if 0 <=? e then Z.pos m * 2 ^ e else Z.pos m.
Definition magnitude_den (e : Z) : Z :=
  if 0 <=? e then 1 else 2 ^ (- e).

(** The integer a float denotes, when it denotes one. *)
Definition integer_value (x : number) : option Z :=
  match Prim2SF x with
  | S754_zero _ => Some 0
  | S754_finite s m e =>
      let n := magnitude_num m e in
      let d := magnitude_den e in
      if n mod d =? 0 then Some (if s then - (n / d) else n / d) else None
  | _ => None
  end.

(** *** [Number::toString] in radix 10

    For a finite non-zero [x] the digits are those of the shortest decimal
    [s * 10^(n-k)] (with [k] digits in [s]) that converts back to [x], the
    one nearest to [x] when several of that length do. The values that
    convert to [x] are those between the midpoints to its two neighbours,
    the midpoints included when the mantissa of [x] is even. All quantities
    below are numerators over the common denominator [iv_den]. *)

Record interval := {
  iv_x : Z; iv_lo : Z; iv_hi : Z; iv_den : Z; iv_closed : bool
}.

Definition rounding_interval (m : positive) (e : Z) : interval :=
  let q := e - 2 in
  let scale := if 0 <=? q then 2 ^ q else 1 in
  let den := if 0 <=? q then 1 else 2 ^ (- q) in
  let lower :=
    if (Z.pos m =? 2 ^ 52) && (-1074 <? e) then 4 * Z.pos m - 1
    else 4 * Z.pos m - 2 in
  {| iv_x := 4 * Z.pos m * scale;
     iv_lo := lower * scale;
     iv_hi := (4 * Z.pos m + 2) * scale;
     iv_den := den;
     iv_closed := Z.even (Z.pos m) |}.

(** The decimal exponent [n] with [10^(n-1) <= x < 10^n]. *)
Fixpoint leading_zeros (fuel : nat) (num den : Z) (j : Z) : Z :=
  match fuel with
  | O => j
  | S fuel' =>
      if den <=? num * 10 then j else leading_zeros fuel' (num * 10) den (j + 1)
  end.

Definition decimal_exponent (iv : interval) : Z :=
  if iv_den iv <=? iv_x iv
  then Z.of_nat (length (digits (iv_x iv / iv_den iv)))
  else - leading_zeros 400 (iv_x iv) (iv_den iv) 0.

(** Numerators of [s * 10^t] and of the interval, on one denominator. *)
Definition scaled (iv : interval) (t : Z) (s : Z) : Z * Z * Z * Z :=
  if 0 <=? t
  then (s * 10 ^ t * iv_den iv, iv_x iv, iv_lo iv, iv_hi iv)
  else (s * iv_den iv, iv_x iv * 10 ^ (- t), iv_lo iv * 10 ^ (- t),
        iv_hi iv * 10 ^ (- t)).

Definition converts_back (iv : interval) (t : Z) (s : Z) : bool :=
  let '(v, _, lo, hi) := scaled iv t s in
  if iv_closed iv then (lo <=? v) && (v <=? hi) else (lo <? v) && (v <? hi).

Definition distance (iv : interval) (t : Z) (s : Z) : Z :=
  let '(v, x, _, _) := scaled iv t s in Z.abs (v - x).

Definition floor_digits (iv : interval) (t : Z) : Z :=
  if 0 <=? t then iv_x iv / (iv_den iv * 10 ^ t)
  else (iv_x iv * 10 ^ (- t)) / iv_den iv.

(** The candidates with [k] digits, tried for [k] = 1, 2, ... *)
Fixpoint shortest_from (fuel : nat) (iv : interval) (n k : Z) : Z * Z * Z :=
  let t := n - k in
  let lo := floor_digits iv t in
  let hi := lo + 1 in
  let pick (s : Z) := if s =? 10 ^ k then (10 ^ (k - 1), n + 1, k) else (s, n, k) in
  match fuel with
  | O => pick lo
  | S fuel' =>
      match converts_back iv t lo, converts_back iv t hi with
      | true, true =>
          if distance iv t hi <? distance iv t lo then pick hi
          else if distance iv t lo <? distance iv t hi then pick lo
          else if Z.even lo then pick lo else pick hi
      | true, false => pick lo
      | false, true => pick hi
      | false, false => shortest_from fuel' iv n (k + 1)
      end
  end.

Definition shortest_decimal (m : positive) (e : Z) : Z * Z * Z :=
  let iv := rounding_interval m e in
  shortest_from 17 iv (decimal_exponent iv) 1.

Definition zeros (n : Z) : jsstring := repeat 48 (Z.to_nat n).

Definition layout (s n k : Z) : jsstring :=
  let ds := digits s in
  if (k <=? n) && (n <=? 21) then ds ++ zeros (n - k)
  else if (0 <? n) && (n <=? 21) then
    firstn (Z.to_nat n) ds ++ lit "." ++ skipn (Z.to_nat n) ds
  else if (-6 <? n) && (n <=? 0) then lit "0." ++ zeros (- n) ++ ds
  else
    let ex := n - 1 in
    let sign := if ex <? 0 then lit "-" else lit "+" in
    match ds with
    | [d] => [d] ++ lit "e" ++ sign ++ digits (Z.abs ex)
    | d :: r => [d] ++ lit "." ++ r ++ lit "e" ++ sign ++ digits (Z.abs ex)
    | [] => []
    end.

Definition shortest (x : number) : jsstring :=
  match Prim2SF x with
  | S754_finite s m e =>
      let '(d, n, k) := shortest_decimal m e in
      (if s then lit "-" else []) ++ layout d n k
  | _ => []
  end.

(** Integers up to 2^53 in magnitude are their own shortest decimal, so they
    print as their plain digits. *)
Definition Number_toString (x : number) : jsstring :=
  match Prim2SF x with
  | S754_nan => lit "NaN"
  | S754_zero _ => lit "0"
  | S754_infinity false => lit "Infinity"
  | S754_infinity true => lit "-Infinity"
  | S754_finite s _ _ =>
      match integer_value x with
      | Some n =>
          if Z.abs n <=? 2 ^ 53
          then (if s then lit "-" else []) ++ digits (Z.abs n)
          else shortest x
      | None => shortest x
      end
  end.

(** [String.prototype.padStart] and [padEnd] with the default filler, a
    space. *)
Definition padStart (w : nat) (s : jsstring) : jsstring :=
  repeat 32 (w - length s) ++ s.
Definition padEnd (w : nat) (s : jsstring) : jsstring :=
  s ++ repeat 32 (w - length s).

(** [Number.prototype.toFixed(fd)]: the integer [n] nearest to
    [x * 10^fd], the larger one on a tie, printed with [fd] digits after
    the point. Values of magnitude 10^21 and above, and the non-finite
    ones, print as [Number::toString] does. *)
Definition fixed_digits (fd : nat) (n : Z) : jsstring :=
  let m := digits n in
  match fd with
  | O => m
  | _ =>
      let m' := repeat 48 (S fd - length m) ++ m in
      let k := length m' in
      firstn (k - fd) m' ++ lit "." ++ skipn (k - fd) m'
  end.

Definition toFixed (fd : nat) (x : number) : jsstring :=
  match Prim2SF x with
  | S754_zero _ => fixed_digits fd 0
  | S754_finite s m e =>
      let num := magnitude_num m e in
      let den := magnitude_den e in
      if 10 ^ 21 * den <=? num then Number_toString x
      else
        let n := (2 * num * 10 ^ Z.of_nat fd + den) / (2 * den) in
        (if s then lit "-" else []) ++ fixed_digits fd n
  | _ => Number_toString x
  end.

End JS.

(** *** Strings *)

Module Str.
Import JS.

Fixpoint eqb (a b : jsstring) : bool :=
  match a, b with
  | [], [] => true
  | x :: a', y :: b' => (x =? y) && eqb a' b'
  | _, _ => false
  end.

(** [ToBoolean] on a string: only the empty string is falsy. *)
Definition truthy (s : jsstring) : bool :=
  match s with [] => false | _ => true end.

Definition truthy_opt (o : option jsstring) : bool :=
  match o with Some s => truthy s | None => false end.

(** [s || d]. *)
Definition or_default (o : option jsstring) (d : jsstring) : jsstring :=
  match o with
  | Some s => if truthy s then s else d
  | None => d
  end.

(** An optional string inside a template literal. *)
Definition template (o : option jsstring) : jsstring :=
  match o with Some s => s | None => lit "undefined" end.

(** An optional number inside a template literal. *)
Definition template_num (o : option number) : jsstring :=
  match o with Some x => Number_toString x | None => lit "undefined" end.

Fixpoint startsWith (p s : jsstring) : bool :=
  match p, s with
  | [], _ => true
  | x :: p', y :: s' => (x =? y) && startsWith p' s'
  | _ :: _, [] => false
  end.

(** [String.prototype.trim] removes white space and line terminators from
    both ends. *)
Definition is_space (c : Z) : bool :=
  ((9 <=? c) && (c <=? 13)) || (c =? 0x20) || (c =? 0xA0) || (c =? 0x1680)
  || ((0x2000 <=? c) && (c <=? 0x200A)) || (c =? 0x2028) || (c =? 0x2029)
  || (c =? 0x202F) || (c =? 0x205F) || (c =? 0x3000) || (c =? 0xFEFF).

Fixpoint trimStart (s : jsstring) : jsstring :=
  match s with
  | c :: r => if is_space c then trimStart r else s
  | [] => []
  end.

Definition trim (s : jsstring) : jsstring :=
  rev (trimStart (rev (trimStart s))).

End Str.

(** *** Dates

    A [Date] is its time value, the milliseconds since the epoch. The host
    decides the local time zone; [toLocaleDateString('fr-FR')] prints
    day/month/year and [toLocaleTimeString('fr-FR', {hour: '2-digit',
    minute: '2-digit'})] prints hours:minutes, both with two-digit fields. *)

Module DateFmt.
Import JS.

Definition Date := Z.

Record Host := { tzOffsetMinutes : Date -> Z }.

Definition utc : Host := {| tzOffsetMinutes := fun _ => 0 |}.

Definition two (n : Z) : jsstring :=
  if n <? 10 then 48 :: digits n else digits n.

(** Civil date of a day number counted from 1970-01-01. *)
Definition civil (day : Z) : Z * Z * Z :=
  let z := day + 719468 in
  let era := z / 146097 in
  let doe := z - era * 146097 in
  let yoe := (doe - doe / 1460 + doe / 36524 - doe / 146096) / 365 in
  let doy := doe - (365 * yoe + yoe / 4 - yoe / 100) in
  let mp := (5 * doy + 2) / 153 in
  let d := doy - (153 * mp + 2) / 5 + 1 in
  let m := if mp <? 10 then mp + 3 else mp - 9 in
  let y := yoe + era * 400 + (if m <=? 2 then 1 else 0) in
  (y, m, d).

Definition local_ms (h : Host) (t : Date) : Z := t + tzOffsetMinutes h t * 60000.

(** The year is printed as a year of its era: the civil year 0 is the
    year 1 before the common era, the civil year -1 the year 2. *)
Definition era_year (y : Z) : Z := if y <=? 0 then 1 - y else y.

Definition toLocaleDateString (h : Host) (t : Date) : jsstring :=
  let '(y, m, d) := civil (local_ms h t / 86400000) in
  two d ++ lit "/" ++ two m ++ lit "/" ++ digits (era_year y).

Definition toLocaleTimeString (h : Host) (t : Date) : jsstring :=
  let ms := local_ms h t mod 86400000 in
  two (ms / 3600000) ++ lit ":" ++ two (ms mod 3600000 / 60000).

End DateFmt.

(** ** Data model (the interfaces of the service files) *)

Module Model.
Import JS.

Record Endpoint := { ep_ip : jsstring; ep_port : Z }.

Record PrinterConfig := {
  pc_id : jsstring; pc_name : jsstring; pc_ip : jsstring; pc_port : Z;
  pc_width : Z; pc_timeout : Z; pc_model : jsstring; pc_enabled : bool;
  pc_isDefault : bool
}.

Record TicketData := {
  licensePlate : jsstring;
  destinationName : option jsstring;
  routeName : option jsstring;
  seatNumber : option number;
  totalAmount : number;
  stationFee : option number;
  createdBy : jsstring;
  createdAt : DateFmt.Date;
  vehicleCapacity : option number;
  basePrice : option number;
  staffFirstName : option jsstring;
  staffLastName : option jsstring;
  printerConfig : option Endpoint
}.

Record StaffRow := {
  sr_name : jsstring; sr_seats : number; sr_seatIncome : number;
  sr_dayPasses : number; sr_dayPassIncome : number; sr_income : number
}.

(** The [createdAt] of a report as the body gives it: a whole number of
    milliseconds, or a text together with the time [new Date] reads from
    it. *)
Inductive Stamp :=
| Millis (t : DateFmt.Date)
| Iso (text : jsstring) (t : DateFmt.Date).

(** [ToBoolean] on a stamp: [0] and [''] are falsy. *)
Definition stamp_truthy (s : Stamp) : bool :=
  match s with
  | Millis t => negb (t =? 0)
  | Iso text _ => Str.truthy text
  end.

(** [new Date(stamp)]. *)
Definition stamp_time (s : Stamp) : DateFmt.Date :=
  match s with
  | Millis t => t
  | Iso _ t => t
  end.

Record ReportData := {
  periodLabel : jsstring;
  totalSeatsBooked : number;
  totalSeatIncome : number;
  totalDayPassesSold : number;
  totalDayPassIncome : number;
  totalIncome : number;
  staffData : option (list StaffRow);
  rep_createdBy : option jsstring;
  rep_createdAt : option Stamp;
  rep_printerConfig : option Endpoint
}.

(** The request with another seat count. *)
Definition with_seatNumber (data : TicketData) (seats : option number)
  : TicketData :=
  {| licensePlate := licensePlate data;
     destinationName := destinationName data;
     routeName := routeName data;
     seatNumber := seats;
     totalAmount := totalAmount data;
     stationFee := stationFee data;
     createdBy := createdBy data;
     createdAt := createdAt data;
     vehicleCapacity := vehicleCapacity data;
     basePrice := basePrice data;
     staffFirstName := staffFirstName data;
     staffLastName := staffLastName data;
     printerConfig := printerConfig data |}.

End Model.

(** ** Socket events and promise outcomes

    A delivery is one call of [sendToPrinter]: one socket, one promise. The
    event loop runs one callback at a time, so a delivery is the fold of its
    handlers over the callbacks the socket and the timer queue deliver. *)

Module Net.
Import JS.

Inductive Event :=
| Connect                           (* 'connect' *)
| WriteDone (err : option jsstring) (* the callback given to socket.write *)
| TimerFired                        (* a callback armed with setTimeout *)
| SockError (message : jsstring)    (* 'error' *)
| SockTimeout                       (* 'timeout' *)
| SockClose.                        (* 'close' *)

Inductive Outcome :=
| Resolved
| Rejected (message : jsstring).

(** The closure of one [sendToPrinter] call: its two flags, the calls made
    to [resolve] and [reject] so far (oldest first), the [setTimeout]
    callbacks still armed, the chunks handed to [socket.write], and whether
    [socket.destroy] or [socket.end] was called. *)
Record Delivery := {
  isResolved : bool;
  dataWritten : bool;
  settled : list Outcome;
  timers : nat;
  wire : list (list Z);
  destroyed : bool;
  ended : bool
}.

Definition fresh : Delivery :=
  {| isResolved := false; dataWritten := false; settled := []; timers := 0;
     wire := []; destroyed := false; ended := false |}.

(** What the promise of the delivery settles to: the first call wins. *)
Definition result (d : Delivery) : option Outcome := head (settled d).

Definition settle (o : Outcome) (destroy : bool) (d : Delivery) : Delivery :=
  {| isResolved := true; dataWritten := dataWritten d;
     settled := settled d ++ [o]; timers := timers d; wire := wire d;
     destroyed := destroyed d || destroy; ended := ended d |}.

End Net.

(** ** src/services/embeddedPrinterService.ts *)

Module Embedded.
Import JS Model.

Definition rule : jsstring := lit "================================".
Definition dashes : jsstring := lit "--------------------------------".

(** [if (c) lines.push(l)]. *)
Definition push_if (c : bool) (l : jsstring) : list jsstring :=
  if c then [l] else [].

(** [if (data.field) { ... }] on an optional number. *)
Definition with_num (o : option number) (f : number -> list jsstring)
  : list jsstring :=
  match o with
  | Some x => if truthy x then f x else []
  | None => []
  end.

Definition header : list jsstring :=
  [rule; lit "  STE DHRAIFF SERVICES"; lit "     TRANSPORT"; rule; []].

Definition footer : list jsstring :=
  [[]; rule; lit "    Merci et bon voyage!"; rule; []; []; []].

(** [const seatCount = Math.max(1, data.seatNumber || 1)]. *)
Definition seatCount (data : TicketData) : number :=
  Math_max 1%float (or_default (seatNumber data) 1%float).

Definition booking_lines (dateStr timeStr : jsstring) (data : TicketData)
  : list jsstring :=
  [lit "     BILLET RESERVATION"; rule]
  ++ push_if (Str.truthy (licensePlate data))
       (lit "Vehicule: " ++ licensePlate data)
  ++ [lit "Destination: " ++ Str.or_default (destinationName data) (lit "N/A");
      lit "Sieges: " ++ Number_toString (seatCount data);
      dashes]
  ++ with_num (basePrice data) (fun p =>
       [lit "Prix base: " ++ toFixed 2 (p * seatCount data)%float ++ lit " TND"])
  ++ with_num (stationFee data) (fun f =>
       [lit "Frais: " ++ toFixed 2 (f * seatCount data)%float ++ lit " TND"])
  ++ [lit "Total: " ++ toFixed 2 (totalAmount data) ++ lit " TND";
      dashes;
      lit "Date: " ++ dateStr;
      lit "Heure: " ++ timeStr]
  ++ push_if (Str.truthy (createdBy data)) (lit "Agent: " ++ createdBy data).

Definition daypass_lines (dateStr timeStr : jsstring) (data : TicketData)
  : list jsstring :=
  [lit "      PASS JOURNEE"; rule;
   lit "Vehicule: " ++ licensePlate data]
  ++ match destinationName data with
     | Some d => push_if (Str.truthy d) (lit "Route: " ++ d)
     | None => []
     end
  ++ [dashes;
      lit "Montant: " ++ toFixed 2 (totalAmount data) ++ lit " TND";
      dashes;
      lit "Date: " ++ dateStr;
      lit "Heure: " ++ timeStr]
  ++ push_if (Str.truthy (createdBy data)) (lit "Agent: " ++ createdBy data)
  ++ [dashes; lit "   Valide toute la journee"].

Definition exitpass_lines (dateStr timeStr : jsstring) (data : TicketData)
  : list jsstring :=
  [lit "  AUTORISATION DE SORTIE"; rule;
   lit "Vehicule: " ++ licensePlate data;
   lit "Destination: " ++ Str.or_default (destinationName data) (lit "N/A");
   dashes]
  ++ match seatNumber data with
     | Some n =>
         if truthy n && (0 <? n)%float then
           [lit "Sieges: " ++ Number_toString n]
           ++ with_num (basePrice data) (fun p =>
                [lit "Prix: " ++ toFixed 2 (p * n)%float ++ lit " TND"])
         else []
     | None => []
     end
  ++ [lit "Total: " ++ toFixed 2 (totalAmount data) ++ lit " TND";
      dashes;
      lit "Date: " ++ dateStr;
      lit "Heure: " ++ timeStr]
  ++ push_if (Str.truthy (createdBy data)) (lit "Agent: " ++ createdBy data)
  ++ [dashes; lit "      Sortie autorisee"].

(** The [lines] array of [generateTicketContent] when it is joined. *)
Definition generateTicketLines (h : DateFmt.Host) (data : TicketData)
  (type : jsstring) : list jsstring :=
  let now := createdAt data in
  let dateStr := DateFmt.toLocaleDateString h now in
  let timeStr := DateFmt.toLocaleTimeString h now in
  header
  ++ (if Str.eqb type (lit "booking") then booking_lines dateStr timeStr data
      else if Str.eqb type (lit "daypass") then daypass_lines dateStr timeStr data
      else if Str.eqb type (lit "exitpass") then exitpass_lines dateStr timeStr data
      else [])
  ++ footer.

Definition generateTicketContent (h : DateFmt.Host) (data : TicketData)
  (type : jsstring) : jsstring :=
  join [LF] (generateTicketLines h data type).

(** One row of the staff table. *)
Definition staff_line (staff : StaffRow) : jsstring :=
  let name := padEnd 10 (firstn 10 (sr_name staff)) in
  let seats := padStart 6 (Number_toString (or_default (Some (sr_seats staff)) 0%float)) in
  let seatIncome :=
    padStart 10 (toFixed 2 (or_default (Some (sr_seatIncome staff)) 0%float)) in
  let passes :=
    padStart 6 (Number_toString (or_default (Some (sr_dayPasses staff)) 0%float)) in
  let passIncome :=
    padStart 10 (toFixed 2 (or_default (Some (sr_dayPassIncome staff)) 0%float)) in
  let total := padStart 10 (toFixed 2 (or_default (Some (sr_income staff)) 0%float)) in
  name ++ lit " | " ++ seats ++ lit " | " ++ seatIncome ++ lit " | " ++ passes
  ++ lit " | " ++ passIncome ++ lit " | " ++ total.

Definition staff_table (data : ReportData) : list jsstring :=
  match staffData data with
  | Some (r :: rows) =>
      [lit "PERFORMANCE DU PERSONNEL"; dashes;
       lit "Personnel | Sieges | Rev.Sieges | Passes | Rev.Passes | Total";
       dashes]
      ++ map staff_line (r :: rows)
      ++ [dashes;
          lit "TOTAL     | " ++ padStart 6 (Number_toString (totalSeatsBooked data))
          ++ lit " | " ++ padStart 10 (toFixed 2 (totalSeatIncome data))
          ++ lit " | " ++ padStart 6 (Number_toString (totalDayPassesSold data))
          ++ lit " | " ++ padStart 10 (toFixed 2 (totalDayPassIncome data))
          ++ lit " | " ++ padStart 10 (toFixed 2 (totalIncome data));
          dashes; []]
  | _ => []
  end.

(** [generateStatisticsContent]; [clock] is what [new Date()] reads, which
    [data.createdAt || new Date()] takes when [createdAt] is absent or
    falsy. *)
Definition generateStatisticsLines (h : DateFmt.Host) (clock : DateFmt.Date)
  (data : ReportData) : list jsstring :=
  let now := match rep_createdAt data with
             | Some stamp => if stamp_truthy stamp then stamp_time stamp else clock
             | None => clock
             end in
  let dateStr := DateFmt.toLocaleDateString h now in
  let timeStr := DateFmt.toLocaleTimeString h now in
  [rule; lit "  STE DHRAIFF SERVICES"; lit "     TRANSPORT"; rule; [];
   lit "   RAPPORT DE REVENUS"; dashes;
   lit "Periode: " ++ periodLabel data;
   lit "Date: " ++ dateStr ++ lit " " ++ timeStr]
  ++ push_if (Str.truthy_opt (rep_createdBy data))
       (lit "Agent: " ++ Str.template (rep_createdBy data))
  ++ [dashes; [];
      lit "RESUME DES REVENUS"; dashes;
      lit "Total Sieges: " ++ Number_toString (totalSeatsBooked data);
      lit "Revenus Sieges: " ++ toFixed 3 (totalSeatIncome data) ++ lit " TND";
      lit "Passes Jour: " ++ Number_toString (totalDayPassesSold data);
      lit "Revenus Passes: " ++ toFixed 3 (totalDayPassIncome data) ++ lit " TND";
      dashes;
      lit "REVENUS TOTAUX: " ++ toFixed 3 (totalIncome data) ++ lit " TND";
      dashes; []]
  ++ staff_table data
  ++ [lit "Document genere automatiquement"; lit "par le systeme de gestion"; []].

Definition generateStatisticsContent (h : DateFmt.Host) (clock : DateFmt.Date)
  (data : ReportData) : jsstring :=
  join [LF] (generateStatisticsLines h clock data).

(** The ESC/POS commands of [convertToESCPOS]. *)
Definition ESC_init : list Z := [0x1B; 0x40].
Definition ESC_charset : list Z := [0x1B; 0x74; 0x02].
Definition ESC_center : list Z := [0x1B; 0x61; 0x01].
Definition ESC_left : list Z := [0x1B; 0x61; 0x00].
Definition feed : list Z := [0x0A; 0x0A; 0x0A; 0x0A].
Definition GS_cut : list Z := [0x1D; 0x56; 0x00].

Definition convertToESCPOS (content : jsstring) : list Z :=
  let data := ESC_init in
  let data := data ++ ESC_charset in
  let data := data ++ ESC_center in
  let contentBuffer := utf8 content in
  let data := data ++ contentBuffer in
  let data := data ++ ESC_left in
  let data := data ++ feed in
  let data := data ++ GS_cut in
  data.

(** *** [sendToPrinter] *)

Section Delivery.
Import Net.
Variables (ip : jsstring) (port : Z) (data : list Z).

Definition endpoint_text : jsstring := ip ++ lit ":" ++ int_string port.

Definition on_connect (d : Delivery) : Delivery :=
  {| isResolved := isResolved d; dataWritten := dataWritten d;
     settled := settled d; timers := timers d; wire := wire d ++ [data];
     destroyed := destroyed d; ended := ended d |}.

Definition on_write (err : option jsstring) (d : Delivery) : Delivery :=
  match err, isResolved d with
  | Some e, false => settle (Rejected e) true d
  | _, _ =>
      {| isResolved := isResolved d; dataWritten := true;
         settled := settled d; timers := S (timers d); wire := wire d;
         destroyed := destroyed d; ended := ended d |}
  end.

(** The callback armed for 500 ms after a completed write. *)
Definition on_timer (d : Delivery) : Delivery :=
  match timers d with
  | O => d
  | S n =>
      let d' := {| isResolved := isResolved d; dataWritten := dataWritten d;
                   settled := settled d; timers := n; wire := wire d;
                   destroyed := destroyed d; ended := ended d |} in
      if isResolved d then d' else settle Resolved true d'
  end.

Definition on_error (message : jsstring) (d : Delivery) : Delivery :=
  if isResolved d then d
  else settle (Rejected (lit "Cannot connect to printer at " ++ endpoint_text
                         ++ lit " - " ++ message)) false d.

Definition on_timeout (d : Delivery) : Delivery :=
  if isResolved d then d
  else if dataWritten d then settle Resolved true d
  else settle (Rejected (lit "Printer connection timeout at " ++ endpoint_text))
         true d.

Definition on_close (d : Delivery) : Delivery :=
  if isResolved d then d
  else if dataWritten d then settle Resolved false d
  else settle (Rejected (lit "Connection closed before data could be sent"))
         false d.

Definition step (d : Delivery) (ev : Event) : Delivery :=
  match ev with
  | Connect => on_connect d
  | WriteDone err => on_write err d
  | TimerFired => on_timer d
  | SockError m => on_error m d
  | SockTimeout => on_timeout d
  | SockClose => on_close d
  end.

(** The delivery after the callbacks [evs] have run, in that order. *)
Definition sendToPrinter (evs : list Event) : Delivery :=
  fold_left step evs fresh.

End Delivery.

(** *** The HTTP facade *)

(** The service object: the fields the class declares ([server] is
    represented by [isRunning]). *)
Record Service := { svc_port : Z; svc_isRunning : bool }.

(** [new EmbeddedPrinterService(port)]; a falsy [port] keeps 8105. *)
Definition new_service (port : option Z) : Service :=
  {| svc_port := match port with
                 | Some p => if p =? 0 then 8105 else p
                 | None => 8105
                 end;
     svc_isRunning := false |}.

Definition getDefaultConfig (svc : Service) : PrinterConfig :=
  {| pc_id := lit "printer1"; pc_name := lit "Local Printer";
     pc_ip := lit "localhost"; pc_port := 9100; pc_width := 48;
     pc_timeout := 5000; pc_model := lit "ESC/POS"; pc_enabled := true;
     pc_isDefault := true |}.

(** An awaited promise: still pending, fulfilled, or rejected. *)
Inductive Completion (A : Type) :=
| Pending
| Returned (a : A)
| Thrown (message : jsstring).
Arguments Pending {A}.
Arguments Returned {A} a.
Arguments Thrown {A} message.

Definition awaited (d : Net.Delivery) : Completion unit :=
  match Net.result d with
  | None => Pending
  | Some Net.Resolved => Returned tt
  | Some (Net.Rejected m) => Thrown m
  end.

(** [testConnection]: the first of 'connect', 'error' and 'timeout' decides. *)
Fixpoint testConnection (evs : list Net.Event) : Completion bool :=
  match evs with
  | [] => Pending
  | Net.Connect :: _ => Returned true
  | Net.SockError _ :: _ => Returned false
  | Net.SockTimeout :: _ => Returned false
  | _ :: rest => testConnection rest
  end.

Inductive Payload :=
| Empty
| Health
| Config (c : PrinterConfig)
| Message (m : jsstring)
| TestResult (connected : bool) (error : jsstring)
| Error (m : jsstring).

Record Response := { status : Z; payload : Payload }.

Record Request := { method : jsstring; pathname : jsstring; body : jsstring }.

(** What the world contributes while one request is served: the clock and
    the callbacks of the socket the request opens. *)
Record World := { clock : DateFmt.Date; socket_events : list Net.Event }.

Section Facade.
(** [JSON.parse] of a body read as a ticket or as a report; [inl] is the
    message of the exception thrown. *)
Variable parseTicket : jsstring -> jsstring + TicketData.
Variable parseReport : jsstring -> jsstring + ReportData.
Variable host : DateFmt.Host.

Definition target (svc : Service) (o : option Endpoint) : Endpoint :=
  match o with
  | Some e => e
  | None => {| ep_ip := pc_ip (getDefaultConfig svc);
               ep_port := pc_port (getDefaultConfig svc) |}
  end.

Definition printTicket (svc : Service) (w : World) (ticketData : TicketData)
  (ticketType : jsstring) : Net.Delivery :=
  let config := target svc (printerConfig ticketData) in
  let content := generateTicketContent host ticketData ticketType in
  let escPosData := convertToESCPOS content in
  sendToPrinter (ep_ip config) (ep_port config) escPosData (socket_events w).

Definition printStatisticsReport (svc : Service) (w : World)
  (reportData : ReportData) : Net.Delivery :=
  let config := target svc (rep_printerConfig reportData) in
  let content := generateStatisticsContent host (clock w) reportData in
  let escPosData := convertToESCPOS content in
  sendToPrinter (ep_ip config) (ep_port config) escPosData (socket_events w).

Definition ok (p : Payload) : Completion Response :=
  Returned {| status := 200; payload := p |}.

Definition print_route (svc : Service) (w : World) (req : Request)
  (type done : jsstring) : Completion Response :=
  match parseTicket (body req) with
  | inl m => Thrown m
  | inr ticketData =>
      match awaited (printTicket svc w ticketData type) with
      | Pending => Pending
      | Thrown m => Thrown m
      | Returned _ => ok (Message done)
      end
  end.

Definition path_is (req : Request) (p : string) : bool :=
  Str.eqb (pathname req) (lit p).
Definition path_under (req : Request) (p : string) : bool :=
  Str.startsWith (lit p) (pathname req).
Definition method_is (req : Request) (m : string) : bool :=
  Str.eqb (method req) (lit m).

Definition handleRoutes (svc : Service) (w : World) (req : Request)
  : Completion Response :=
  if path_is req "/health" && method_is req "GET" then ok Health
  else if path_under req "/api/printer/config/" && method_is req "GET" then
    ok (Config (getDefaultConfig svc))
  else if path_under req "/api/printer/config/" && method_is req "PUT" then
    ok (Message (lit "printer configuration updated successfully"))
  else if path_under req "/api/printer/test/" && method_is req "POST" then
    match testConnection (socket_events w) with
    | Pending => Pending
    | Thrown m => Thrown m
    | Returned connected =>
        ok (TestResult connected
              (if connected then [] else lit "Could not connect to printer"))
    end
  else if path_is req "/api/printer/print/booking" && method_is req "POST" then
    print_route svc w req (lit "booking")
      (lit "booking ticket printed successfully")
  else if path_is req "/api/printer/print/daypass" && method_is req "POST" then
    print_route svc w req (lit "daypass")
      (lit "day pass ticket printed successfully")
  else if path_is req "/api/printer/print/exitpass" && method_is req "POST" then
    print_route svc w req (lit "exitpass")
      (lit "exit pass ticket printed successfully")
  else if path_is req "/api/printer/print/statistics" && method_is req "POST" then
    match parseReport (body req) with
    | inl m => Thrown m
    | inr reportData =>
        match awaited (printStatisticsReport svc w reportData) with
        | Pending => Pending
        | Thrown m => Thrown m
        | Returned _ => ok (Message (lit "statistics report printed successfully"))
        end
    end
  else Returned {| status := 404; payload := Error (lit "Not found") |}.

(** [handleRequest] threads the service object and answers: [None] while
    the response is still awaited. *)
Definition handleRequest (svc : Service) (w : World) (req : Request)
  : Service * option Response :=
  if Str.eqb (method req) (lit "OPTIONS") then
    (svc, Some {| status := 200; payload := Empty |})
  else
    match handleRoutes svc w req with
    | Pending => (svc, None)
    | Returned r => (svc, Some r)
    | Thrown m =>
        (svc, Some {| status := 500;
                      payload := Error (if Str.truthy m then m
                                        else lit "Internal server error") |})
    end.

(** Requests served one after another. *)
Fixpoint serve (svc : Service) (reqs : list (World * Request))
  : Service * list (option Response) :=
  match reqs with
  | [] => (svc, [])
  | (w, req) :: rest =>
      let '(svc', r) := handleRequest svc w req in
      let '(svc'', rs) := serve svc' rest in
      (svc'', r :: rs)
  end.

End Facade.

(** *** Concurrent requests

    Each print request that reaches [sendToPrinter] opens a socket of its
    own at once; the callbacks of the open sockets then run in whatever
    order the event loop delivers them. The service keeps no table of
    deliveries: [jobs] is the set of closures alive in the process. *)

Record Job := { job_target : Endpoint; job_data : list Z; job_state : Net.Delivery }.

Inductive Input :=
| Submit (target : Endpoint) (data : list Z)
| Callback (job : nat) (ev : Net.Event).

Definition advance (ev : Net.Event) (j : Job) : Job :=
  {| job_target := job_target j; job_data := job_data j;
     job_state := step (ep_ip (job_target j)) (ep_port (job_target j))
                    (job_data j) (job_state j) ev |}.

Definition dispatch (jobs : list Job) (i : Input) : list Job :=
  match i with
  | Submit target data =>
      jobs ++ [{| job_target := target; job_data := data; job_state := Net.fresh |}]
  | Callback n ev => alter (advance ev) n jobs
  end.

Definition run (inputs : list Input) : list Job := fold_left dispatch inputs [].

(** A delivery is under way from its submission until its promise settles. *)
Definition in_flight (j : Job) : bool := negb (Net.isResolved (job_state j)).

(** The submission [printTicket] makes for a request. *)
Definition submit_ticket (host : DateFmt.Host) (svc : Service)
  (ticketData : TicketData) (ticketType : jsstring) : Input :=
  Submit (target svc (printerConfig ticketData))
    (convertToESCPOS (generateTicketContent host ticketData ticketType)).

End Embedded.

(** ** The copy of the service in electron/main.ts

    Same layout and the same encoder; the booking ticket prints the seat
    count and the destination as received, and a completed write ends the
    socket and resolves after 200 ms without destroying it. *)

Module ElectronMain.
Import JS Model.

Definition booking_lines (dateStr timeStr : jsstring) (data : TicketData)
  : list jsstring :=
  [lit "     BILLET RESERVATION"; Embedded.rule]
  ++ Embedded.push_if (Str.truthy (licensePlate data))
       (lit "Vehicule: " ++ licensePlate data)
  ++ [lit "Destination: " ++ Str.template (destinationName data);
      lit "Sieges: " ++ Str.template_num (seatNumber data);
      Embedded.dashes]
  ++ Embedded.with_num (basePrice data) (fun p =>
       [lit "Prix base: " ++ toFixed 2 (p * to_number (seatNumber data))%float
        ++ lit " TND"])
  ++ Embedded.with_num (stationFee data) (fun f =>
       [lit "Frais: " ++ toFixed 2 (f * to_number (seatNumber data))%float
        ++ lit " TND"])
  ++ [lit "Total: " ++ toFixed 2 (totalAmount data) ++ lit " TND";
      Embedded.dashes;
      lit "Date: " ++ dateStr;
      lit "Heure: " ++ timeStr]
  ++ Embedded.push_if (Str.truthy (createdBy data))
       (lit "Agent: " ++ createdBy data).

Definition daypass_lines (dateStr timeStr : jsstring) (data : TicketData)
  : list jsstring :=
  [lit "      PASS JOURNEE"; Embedded.rule;
   lit "Vehicule: " ++ licensePlate data]
  ++ match destinationName data with
     | Some d => Embedded.push_if (Str.truthy d) (lit "Route: " ++ d)
     | None => []
     end
  ++ [Embedded.dashes;
      lit "Montant: " ++ toFixed 2 (totalAmount data) ++ lit " TND";
      Embedded.dashes;
      lit "Date: " ++ dateStr;
      lit "Heure: " ++ timeStr]
  ++ Embedded.push_if (Str.truthy (createdBy data))
       (lit "Agent: " ++ createdBy data)
  ++ [Embedded.dashes; lit "   Valide toute la journee"].

Definition exitpass_lines (dateStr timeStr : jsstring) (data : TicketData)
  : list jsstring :=
  [lit "  AUTORISATION DE SORTIE"; Embedded.rule;
   lit "Vehicule: " ++ licensePlate data;
   lit "Destination: " ++ Str.template (destinationName data);
   Embedded.dashes]
  ++ match seatNumber data with
     | Some n =>
         if truthy n && (0 <? n)%float then
           [lit "Sieges: " ++ Number_toString n]
           ++ Embedded.with_num (basePrice data) (fun p =>
                [lit "Prix: " ++ toFixed 2 (p * n)%float ++ lit " TND"])
         else []
     | None => []
     end
  ++ [lit "Total: " ++ toFixed 2 (totalAmount data) ++ lit " TND";
      Embedded.dashes;
      lit "Date: " ++ dateStr;
      lit "Heure: " ++ timeStr]
  ++ Embedded.push_if (Str.truthy (createdBy data))
       (lit "Agent: " ++ createdBy data)
  ++ [Embedded.dashes; lit "      Sortie autorisee"].

Definition generateTicketLines (h : DateFmt.Host) (data : TicketData)
  (type : jsstring) : list jsstring :=
  let now := createdAt data in
  let dateStr := DateFmt.toLocaleDateString h now in
  let timeStr := DateFmt.toLocaleTimeString h now in
  Embedded.header
  ++ (if Str.eqb type (lit "booking") then booking_lines dateStr timeStr data
      else if Str.eqb type (lit "daypass") then daypass_lines dateStr timeStr data
      else if Str.eqb type (lit "exitpass") then exitpass_lines dateStr timeStr data
      else [])
  ++ Embedded.footer.

Definition generateTicketContent (h : DateFmt.Host) (data : TicketData)
  (type : jsstring) : jsstring :=
  join [LF] (generateTicketLines h data type).

Definition convertToESCPOS (content : jsstring) : list Z :=
  let data := [0x1B; 0x40] in
  let data := data ++ [0x1B; 0x74; 0x02] in
  let data := data ++ [0x1B; 0x61; 0x01] in
  let contentBuffer := utf8 content in
  let data := data ++ contentBuffer in
  let data := data ++ [0x1B; 0x61; 0x00] in
  let data := data ++ [0x0A; 0x0A; 0x0A; 0x0A] in
  let data := data ++ [0x1D; 0x56; 0x00] in
  data.

Section Delivery.
Import Net.
Variables (ip : jsstring) (port : Z) (data : list Z).

Definition on_write (err : option jsstring) (d : Delivery) : Delivery :=
  match err, isResolved d with
  | Some e, false => settle (Rejected e) true d
  | _, _ =>
      {| isResolved := isResolved d; dataWritten := true;
         settled := settled d; timers := S (timers d); wire := wire d;
         destroyed := destroyed d; ended := true |}
  end.

(** The callback armed for 200 ms after a completed write. *)
Definition on_timer (d : Delivery) : Delivery :=
  match timers d with
  | O => d
  | S n =>
      let d' := {| isResolved := isResolved d; dataWritten := dataWritten d;
                   settled := settled d; timers := n; wire := wire d;
                   destroyed := destroyed d; ended := ended d |} in
      if isResolved d then d' else settle Resolved false d'
  end.

Definition step (d : Delivery) (ev : Event) : Delivery :=
  match ev with
  | Connect => Embedded.on_connect data d
  | WriteDone err => on_write err d
  | TimerFired => on_timer d
  | SockError m => Embedded.on_error ip port m d
  | SockTimeout => Embedded.on_timeout ip port d
  | SockClose => Embedded.on_close d
  end.

Definition sendToPrinter (evs : list Event) : Delivery :=
  fold_left step evs fresh.

End Delivery.

End ElectronMain.

(** ** The HTTP facade of the copy in electron/main.ts

    The routes of the TypeScript service without the statistics route; each
    print route catches its own exceptions and answers 500 itself. *)

Module ElectronFacade.
Import JS Model Embedded.

Section Facade.
Variable parseTicket : jsstring -> jsstring + TicketData.
Variable host : DateFmt.Host.

Definition printTicket (svc : Service) (w : World) (ticketData : TicketData)
  (ticketType : jsstring) : Net.Delivery :=
  let config := target svc (printerConfig ticketData) in
  let content := ElectronMain.generateTicketContent host ticketData ticketType in
  let escPosData := ElectronMain.convertToESCPOS content in
  ElectronMain.sendToPrinter (ep_ip config) (ep_port config) escPosData
    (socket_events w).

(** The [catch] of a print route. *)
Definition failed (m : jsstring) : Completion Response :=
  Returned {| status := 500;
              payload := Error (if Str.truthy m then m
                                else lit "Failed to print ticket") |}.

Definition print_route (svc : Service) (w : World) (req : Request)
  (type done : jsstring) : Completion Response :=
  match parseTicket (body req) with
  | inl m => failed m
  | inr ticketData =>
      match awaited (printTicket svc w ticketData type) with
      | Pending => Pending
      | Thrown m => failed m
      | Returned _ => ok (Message done)
      end
  end.

Definition handleRoutes (svc : Service) (w : World) (req : Request)
  : Completion Response :=
  if path_is req "/health" && method_is req "GET" then ok Health
  else if path_under req "/api/printer/config/" && method_is req "GET" then
    ok (Config (getDefaultConfig svc))
  else if path_under req "/api/printer/config/" && method_is req "PUT" then
    ok (Message (lit "printer configuration updated successfully"))
  else if path_under req "/api/printer/test/" && method_is req "POST" then
    match testConnection (socket_events w) with
    | Pending => Pending
    | Thrown m => Thrown m
    | Returned connected =>
        ok (TestResult connected
              (if connected then [] else lit "Could not connect to printer"))
    end
  else if path_is req "/api/printer/print/booking" && method_is req "POST" then
    print_route svc w req (lit "booking")
      (lit "booking ticket printed successfully")
  else if path_is req "/api/printer/print/daypass" && method_is req "POST" then
    print_route svc w req (lit "daypass")
      (lit "day pass ticket printed successfully")
  else if path_is req "/api/printer/print/exitpass" && method_is req "POST" then
    print_route svc w req (lit "exitpass")
      (lit "exit pass ticket printed successfully")
  else Returned {| status := 404; payload := Error (lit "Not found") |}.

Definition handleRequest (svc : Service) (w : World) (req : Request)
  : Service * option Response :=
  if Str.eqb (method req) (lit "OPTIONS") then
    (svc, Some {| status := 200; payload := Empty |})
  else
    match handleRoutes svc w req with
    | Pending => (svc, None)
    | Returned r => (svc, Some r)
    | Thrown m =>
        (svc, Some {| status := 500;
                      payload := Error (if Str.truthy m then m
                                        else lit "Internal server error") |})
    end.

End Facade.
End ElectronFacade.

(** ** The earlier copy of the service, unnamed/part_004 *)

Module Legacy.
Import JS Model.

Definition e_acute : jsstring := [0xE9].
Definition e_grave : jsstring := [0xE8].
Definition E_acute : jsstring := [0xC9].

(** The per-seat fee literal [0.15], as the nearest binary64 value. *)
Definition fee_per_seat : number := 0x1.3333333333333p-3%float.

(** [typeof o === 'number' ? o : d]. *)
Definition number_or (o : option number) (d : number) : number :=
  match o with Some x => x | None => d end.

Definition seatCount (data : TicketData) : number :=
  Math_max 1%float (or_default (seatNumber data) 1%float).

Definition stamp (dateStr timeStr : jsstring) (data : TicketData)
  : list jsstring :=
  [lit "Date: " ++ dateStr ++ lit " " ++ timeStr;
   lit "Agent: " ++ createdBy data].

Definition daypass_lines (dateStr timeStr : jsstring) (data : TicketData)
  : list jsstring :=
  [[]; lit "   PASS JOURN" ++ E_acute ++ lit "E"; Embedded.dashes;
   lit "Vehicule: " ++ licensePlate data]
  ++ Embedded.push_if (Str.truthy_opt (routeName data))
       (lit "Route: " ++ Str.template (routeName data))
  ++ [lit "Montant: " ++ toFixed 2 (totalAmount data) ++ lit " TND"]
  ++ stamp dateStr timeStr data
  ++ [Embedded.dashes;
      lit "Valide toute la journ" ++ e_acute ++ lit "e!"].

Definition exitpass_pricing (data : TicketData) : list jsstring :=
  match basePrice data, seatNumber data with
  | Some p, Some n =>
      if truthy p && truthy n then
        match vehicleCapacity data with
        | Some c =>
            if truthy c && (n =? c)%float then
              [lit "Capacit" ++ e_acute ++ lit " v" ++ e_acute ++ lit "hicule: "
               ++ Number_toString c ++ lit " si" ++ e_grave ++ lit "ges";
               lit "Frais de service: " ++ toFixed 2 (fee_per_seat * c)%float
               ++ lit " TND"]
            else
              [lit "Si" ++ e_grave ++ lit "ges r" ++ e_acute ++ lit "serv"
               ++ e_acute ++ lit "s: " ++ Number_toString n;
               lit "Prix de base: " ++ toFixed 2 (p * n)%float ++ lit " TND"]
        | None =>
            [lit "Si" ++ e_grave ++ lit "ges r" ++ e_acute ++ lit "serv"
             ++ e_acute ++ lit "s: " ++ Number_toString n;
             lit "Prix de base: " ++ toFixed 2 (p * n)%float ++ lit " TND"]
        end
      else []
  | _, _ => []
  end.

Definition exitpass_lines (dateStr timeStr : jsstring) (data : TicketData)
  : list jsstring :=
  [[]; lit "   AUTORISATION SORTIE"; Embedded.dashes;
   lit "Vehicule: " ++ licensePlate data]
  ++ Embedded.push_if (Str.truthy_opt (destinationName data))
       (lit "Destination: " ++ Str.template (destinationName data))
  ++ exitpass_pricing data
  ++ [lit "Montant Total: " ++ toFixed 2 (totalAmount data) ++ lit " TND"]
  ++ stamp dateStr timeStr data
  ++ [Embedded.dashes; lit "Sortie autoris" ++ e_acute ++ lit "e!"].

Definition booking_lines (dateStr timeStr : jsstring) (data : TicketData)
  : list jsstring :=
  let stationFeePerSeat := number_or (stationFee data) fee_per_seat in
  let basePricePerSeat := number_or (basePrice data) 0%float in
  let baseTotal := (basePricePerSeat * seatCount data)%float in
  let stationFeeTotal := (stationFeePerSeat * seatCount data)%float in
  let total :=
    if truthy (totalAmount data) then totalAmount data
    else (baseTotal + stationFeeTotal)%float in
  [[]; lit "      BILLET CLIENT"; Embedded.dashes]
  ++ Embedded.push_if (Str.truthy_opt (destinationName data))
       (lit "Destination: " ++ Str.template (destinationName data))
  ++ [lit "Nombre de si" ++ e_grave ++ lit "ges: "
      ++ Number_toString (seatCount data);
      lit "Prix par si" ++ e_grave ++ lit "ge: " ++ toFixed 2 basePricePerSeat
      ++ lit " TND";
      lit "Total billets: " ++ toFixed 2 baseTotal ++ lit " TND";
      lit "Frais station (" ++ toFixed 3 stationFeePerSeat ++ lit " TND x "
      ++ Number_toString (seatCount data) ++ lit ")";
      lit "Total frais: " ++ toFixed 3 stationFeeTotal ++ lit " TND";
      Embedded.dashes;
      lit "Montant TTC: " ++ toFixed 3 total ++ lit " TND"]
  ++ stamp dateStr timeStr data
  ++ [lit "Bon voyage !"].

Definition generateTicketLines (h : DateFmt.Host) (data : TicketData)
  (type : jsstring) : list jsstring :=
  let now := createdAt data in
  let dateStr := DateFmt.toLocaleDateString h now in
  let timeStr := DateFmt.toLocaleTimeString h now in
  [Embedded.rule; lit "  STE DHRAIFF SERVICES"; lit "     TRANSPORT";
   Embedded.rule]
  ++ (if Str.eqb type (lit "daypass") then daypass_lines dateStr timeStr data
      else if Str.eqb type (lit "exitpass") then exitpass_lines dateStr timeStr data
      else if Str.eqb type (lit "booking") then booking_lines dateStr timeStr data
      else [])
  ++ Embedded.push_if
       (Str.truthy_opt (staffFirstName data) && Str.truthy_opt (staffLastName data))
       (lit "Agent: " ++ Str.template (staffFirstName data) ++ lit " "
        ++ Str.template (staffLastName data))
  ++ [[]; []; []].

Definition generateTicketContent (h : DateFmt.Host) (data : TicketData)
  (type : jsstring) : jsstring :=
  join [LF] (generateTicketLines h data type).

Definition convertToESCPOS (content : jsstring) : list Z :=
  let data := [0x1B; 0x40] in
  let data := data ++ utf8 content in
  let data := data ++ [0x0A; 0x0A; 0x0A] in
  let data := data ++ [0x1D; 0x56; 0x00] in
  data.

Section Delivery.
Import Net.
Variables (ip : jsstring) (port : Z) (data : list Z).

Definition on_connect (d : Delivery) : Delivery :=
  {| isResolved := isResolved d; dataWritten := dataWritten d;
     settled := settled d; timers := timers d; wire := wire d ++ [data];
     destroyed := destroyed d; ended := ended d |}.

Definition on_error (message : jsstring) (d : Delivery) : Delivery :=
  if isResolved d then d else settle (Rejected message) false d.

Definition on_timeout (d : Delivery) : Delivery :=
  let d' := {| isResolved := isResolved d; dataWritten := dataWritten d;
               settled := settled d; timers := timers d; wire := wire d;
               destroyed := true; ended := ended d |} in
  if isResolved d then d'
  else settle (Rejected (lit "Printer connection timeout")) false d'.

Definition on_close (d : Delivery) : Delivery :=
  if isResolved d then d else settle Resolved false d.

(** [socket.write(data)] is given no callback and no timer is armed. *)
Definition step (d : Delivery) (ev : Event) : Delivery :=
  match ev with
  | Connect => on_connect d
  | WriteDone _ => d
  | TimerFired => d
  | SockError m => on_error m d
  | SockTimeout => on_timeout d
  | SockClose => on_close d
  end.

Definition sendToPrinter (evs : list Event) : Delivery :=
  fold_left step evs fresh.

End Delivery.

End Legacy.

(** ** The printer address store: [PrinterIpConfigService] in
    src/services/printerService.ts, and its caller in unnamed/part_003 *)

Module ConfigStore.
Import JS.

Record PrinterIpConfig := { ip : jsstring; port : Z }.

(** A property read from a parsed value: missing, a string, a number (an
    integer, as ports are), or a value of another kind. *)
Inductive Val :=
| Undefined
| Text (s : jsstring)
| Number (n : Z)
| Another.

(** What [JSON.parse] can make of a text besides a configuration: a number,
    a string or a boolean; an array; an object whose [ip] is no string or
    whose [port] is no number. The module is strict code, so assigning a
    property of a scalar throws a TypeError; [complaint] is its text. *)
Inductive Alien :=
| Scalar (complaint : jsstring)
| Array
| Object (ip_field port_field : Val).

(** A value [getConfig] may return: a configuration, or whatever else the
    stored text parsed to. *)
Inductive Value :=
| Config (c : PrinterIpConfig)
| NotConfig (v : Alien).

(** An object with a string [ip] and a number [port] is a configuration. *)
Definition value_of (v : Alien) : Value :=
  match v with
  | Object (Text i) (Number p) => Config {| ip := i; port := p |}
  | _ => NotConfig v
  end.

(** [config.ip] and [config.port]. *)
Definition ip_of (v : Value) : Val :=
  match v with
  | Config c => Text (ip c)
  | NotConfig (Object i _) => i
  | NotConfig _ => Undefined
  end.
Definition port_of (v : Value) : Val :=
  match v with
  | Config c => Number (port c)
  | NotConfig (Object _ p) => p
  | NotConfig _ => Undefined
  end.

(** What [localStorage] holds under a key is text; the service only reads it
    through [JSON.parse], so a stored text is represented by what parsing
    makes of it: a configuration object; an exception ([Unparsable]: no
    JSON, or [null], whose [ip] cannot be read; the empty text, which is
    not parsed at all, is answered alike); or another value. The text
    written by [JSON.stringify(config)] parses back to [config]. *)
Inductive Item :=
| Json (c : PrinterIpConfig)
| Unparsable
| Other (v : Alien).

(** [JSON.parse(stored)]; [None] when reading the result throws. *)
Definition parsed (it : Item) : option Value :=
  match it with
  | Json c => Some (Config c)
  | Unparsable => None
  | Other v => Some (value_of v)
  end.

(** What [JSON.stringify] writes for a value, as it parses back. *)
Definition written (v : Value) : Item :=
  match v with
  | Config c => Json c
  | NotConfig a => Other a
  end.

(** The service object and the browser storage it works on.
    [DEFAULT_CONFIG] is a field holding one object: the reference is
    [readonly], the object's properties are not. *)
Record State := {
  DEFAULT_CONFIG : PrinterIpConfig;
  localStorage : gmap (list Z) Item
}.

Definition STORAGE_KEY : jsstring := lit "management-desktop-printer-ip".

Definition initial_default : PrinterIpConfig :=
  {| ip := lit "192.168.192.12"; port := 9100 |}.

(** A freshly constructed service over the storage left by earlier runs. *)
Definition start (storage : gmap (list Z) Item) : State :=
  {| DEFAULT_CONFIG := initial_default; localStorage := storage |}.

(** The object a call returns: the service's own default object, or a
    value made by [JSON.parse]. *)
Inductive Ref :=
| TheDefault
| Parsed (v : Value).

Definition deref (st : State) (r : Ref) : Value :=
  match r with
  | TheDefault => Config (DEFAULT_CONFIG st)
  | Parsed v => v
  end.

Definition saveConfig (st : State) (config : Value) : State :=
  {| DEFAULT_CONFIG := DEFAULT_CONFIG st;
     localStorage := <[STORAGE_KEY := written config]> (localStorage st) |}.

(** [config.ip === '192.168.192.168']. *)
Definition is_old_host (v : Val) : bool :=
  match v with
  | Text s => Str.eqb s (lit "192.168.192.168")
  | _ => false
  end.

Definition getConfig (st : State) : State * Ref :=
  match localStorage st !! STORAGE_KEY with
  | Some stored =>
      match parsed stored with
      | Some config =>
          if is_old_host (ip_of config)
          then (saveConfig st (Config (DEFAULT_CONFIG st)), TheDefault)
          else (st, Parsed config)
      | None => (st, TheDefault)
      end
  | None => (st, TheDefault)
  end.

(** [get()] as a caller sees it: the state afterwards and the value of the
    object returned. *)
Definition get (st : State) : State * Value :=
  let '(st', r) := getConfig st in (st', deref st' r).

(** [config.ip = ip] and [config.port = port] on a parsed value that is no
    configuration: a scalar throws; an array takes the property, which
    [JSON.stringify] then leaves out; an object takes it. *)
Definition put_ip (new_ip : jsstring) (v : Alien) : jsstring + Value :=
  match v with
  | Scalar complaint => inl complaint
  | Array => inr (NotConfig Array)
  | Object _ p => inr (value_of (Object (Text new_ip) p))
  end.
Definition put_port (new_port : Z) (v : Alien) : jsstring + Value :=
  match v with
  | Scalar complaint => inl complaint
  | Array => inr (NotConfig Array)
  | Object i _ => inr (value_of (Object i (Number new_port)))
  end.

(** The assignment on the object returned: on the default object it
    changes the service's default itself. [inl] is the exception thrown. *)
Definition assign (st : State) (r : Ref) (f : PrinterIpConfig -> PrinterIpConfig)
  (g : Alien -> jsstring + Value) : jsstring + State * Value :=
  match r with
  | TheDefault =>
      inr ({| DEFAULT_CONFIG := f (DEFAULT_CONFIG st);
              localStorage := localStorage st |}, Config (f (DEFAULT_CONFIG st)))
  | Parsed (Config c) => inr (st, Config (f c))
  | Parsed (NotConfig v) =>
      match g v with
      | inl complaint => inl complaint
      | inr config => inr (st, config)
      end
  end.

(** A call of a setter: the state it leaves, and the exception it throws,
    if any (nothing is saved then). *)
Definition setPrinterIp_call (st : State) (new_ip : jsstring)
  : State * option jsstring :=
  let '(st1, r) := getConfig st in
  match assign st1 r (fun c => {| ip := new_ip; port := port c |})
          (put_ip new_ip) with
  | inl complaint => (st1, Some complaint)
  | inr (st2, config) => (saveConfig st2 config, None)
  end.

Definition setPrinterPort_call (st : State) (new_port : Z)
  : State * option jsstring :=
  let '(st1, r) := getConfig st in
  match assign st1 r (fun c => {| ip := ip c; port := new_port |})
          (put_port new_port) with
  | inl complaint => (st1, Some complaint)
  | inr (st2, config) => (saveConfig st2 config, None)
  end.

(** The store after [setPrinterIp(ip)] and [setPrinterPort(port)]. *)
Definition setPrinterIp (st : State) (new_ip : jsstring) : State :=
  fst (setPrinterIp_call st new_ip).

Definition setPrinterPort (st : State) (new_port : Z) : State :=
  fst (setPrinterPort_call st new_port).

Definition resetToDefault (st : State) : State :=
  saveConfig st (Config (DEFAULT_CONFIG st)).

(** What is stored under the key, if it is a configuration. *)
Definition stored (st : State) : option Item := localStorage st !! STORAGE_KEY.

(** *** Validation *)

Inductive regex :=
| Void
| Eps
| Range (lo hi : Z)
| Seq (a b : regex)
| Alt (a b : regex)
| Opt (a : regex).

Fixpoint nullable (r : regex) : bool :=
  match r with
  | Void => false
  | Eps => true
  | Range _ _ => false
  | Seq a b => nullable a && nullable b
  | Alt a b => nullable a || nullable b
  | Opt _ => true
  end.

Fixpoint deriv (c : Z) (r : regex) : regex :=
  match r with
  | Void => Void
  | Eps => Void
  | Range lo hi => if (lo <=? c) && (c <=? hi) then Eps else Void
  | Seq a b =>
      if nullable a then Alt (Seq (deriv c a) b) (deriv c b)
      else Seq (deriv c a) b
  | Alt a b => Alt (deriv c a) (deriv c b)
  | Opt a => deriv c a
  end.

(** [/^r$/.test(s)]. *)
Fixpoint test (r : regex) (s : jsstring) : bool :=
  match s with
  | [] => nullable r
  | c :: s' => test (deriv c r) s'
  end.

Definition chr (c : string) : regex :=
  match lit c with
  | [x] => Range x x
  | _ => Void
  end.
Definition range (lo hi : string) : regex :=
  match lit lo, lit hi with
  | [x], [y] => Range x y
  | _, _ => Void
  end.

(** [25[0-5]|2[0-4][0-9]|[01]?[0-9][0-9]?] *)
Definition octet : regex :=
  Alt (Seq (chr "2") (Seq (chr "5") (range "0" "5")))
      (Alt (Seq (chr "2") (Seq (range "0" "4") (range "0" "9")))
           (Seq (Opt (range "0" "1")) (Seq (range "0" "9") (Opt (range "0" "9"))))).

Definition dotted : regex := Seq octet (chr ".").

Definition ipRegex : regex := Seq dotted (Seq dotted (Seq dotted octet)).

Definition isValidIp (s : jsstring) : bool := test ipRegex s.

Definition isValidPort (p : Z) : bool := (0 <? p) && (p <=? 65535).

(** *** [handleSaveIp] of the settings dialog *)

Inductive Feedback :=
| Failed (message : jsstring)
| Saved (message : jsstring).

Definition handleSaveIp (st : State) (newIp : jsstring) : State * Feedback :=
  if negb (Str.truthy (Str.trim newIp)) then
    (st, Failed (lit "L'adresse IP ne peut pas " ++ [0xEA] ++ lit "tre vide"))
  else if negb (isValidIp (Str.trim newIp)) then
    (st, Failed (lit "Format d'adresse IP invalide"))
  else
    match setPrinterIp_call st (Str.trim newIp) with
    | (st', None) =>
        (st',
         Saved (lit "Adresse IP de l'imprimante mise " ++ [0xE0]
                ++ lit " jour avec succ" ++ [0xE8] ++ lit "s !"))
    | (st', Some err) =>
        (st',
         Failed ([0xC9] ++ lit "chec de la mise " ++ [0xE0]
                 ++ lit " jour de l'IP de l'imprimante : " ++ err))
    end.

(** [getPrinterIp()] and [getPrinterPort()]: the fields of [getConfig()]. *)
Definition getPrinterIp (st : State) : State * Val :=
  let '(st', c) := get st in (st', ip_of c).
Definition getPrinterPort (st : State) : State * Val :=
  let '(st', c) := get st in (st', port_of c).

End ConfigStore.

(** ** The client side: src/services/printerService.ts

    [PrinterIpConfigService.testPrinterConnection] and the branding helper
    of [PrinterService]. *)

Module Client.
Import JS Model.

(** What [await fetch(...)] gives: a response, a rejection (the network
    failed), or nothing yet. *)
Inductive Fetched :=
| Answer (r : Embedded.Response)
| Refused (message : jsstring)
| Waiting.

(** [{ connected, error }]. *)
Record TestOutcome := { connected : bool; error : option jsstring }.

(** [response.ok]. *)
Definition response_ok (r : Embedded.Response) : bool :=
  (200 <=? Embedded.status r) && (Embedded.status r <=? 299).

(** [await testResp.json()] read as [{ connected: !!status.connected,
    error: status.error }]; an empty body does not parse. *)
Definition read_status (p : Embedded.Payload) : option TestOutcome :=
  match p with
  | Embedded.Empty => None
  | Embedded.TestResult c e => Some {| connected := c; error := Some e |}
  | Embedded.Error m => Some {| connected := false; error := Some m |}
  | _ => Some {| connected := false; error := None |}
  end.

Definition http_failure (what : string) (r : Embedded.Response) : TestOutcome :=
  {| connected := false;
     error := Some (lit what ++ lit " (HTTP " ++ int_string (Embedded.status r)
                    ++ lit ")") |}.

(** The object [testPrinterConnection] sends to the service: [ip] and
    [port] as read from the value [getConfig] returned. *)
Record BackendConfig := {
  bc_id : jsstring;
  bc_name : jsstring;
  bc_ip : ConfigStore.Val;
  bc_port : ConfigStore.Val;
  bc_width : Z;
  bc_timeout : Z;
  bc_model : jsstring;
  bc_enabled : bool;
  bc_isDefault : bool
}.

Section TestPrinterConnection.
(** [JSON.stringify], the message of the exception [json()] throws, and the
    network. *)
Variable stringify : BackendConfig -> jsstring.
Variable json_error : jsstring.
Variable fetch : Embedded.Request -> Fetched.

Definition backendConfig (config : ConfigStore.Value) : BackendConfig :=
  {| bc_id := lit "printer1"; bc_name := lit "Local Thermal Printer";
     bc_ip := ConfigStore.ip_of config; bc_port := ConfigStore.port_of config;
     bc_width := 48; bc_timeout := 5000; bc_model := lit "ESC/POS";
     bc_enabled := true; bc_isDefault := true |}.

(** [None] while the promise is pending; it never rejects. *)
Definition testPrinterConnection (st : ConfigStore.State)
  : ConfigStore.State * option TestOutcome :=
  let '(st', config) := ConfigStore.get st in
  match fetch {| Embedded.method := lit "PUT";
                 Embedded.pathname := lit "/api/printer/config/printer1";
                 Embedded.body := stringify (backendConfig config) |} with
  | Waiting => (st', None)
  | Refused m => (st', Some {| connected := false; error := Some m |})
  | Answer putResp =>
      if negb (response_ok putResp) then
        (st', Some (http_failure "Failed to save printer config" putResp))
      else
        match fetch {| Embedded.method := lit "POST";
                       Embedded.pathname := lit "/api/printer/test/printer1";
                       Embedded.body := [] |} with
        | Waiting => (st', None)
        | Refused m => (st', Some {| connected := false; error := Some m |})
        | Answer testResp =>
            if negb (response_ok testResp) then
              (st', Some (http_failure "Printer test failed" testResp))
            else
              match read_status (Embedded.payload testResp) with
              | Some status => (st', Some status)
              | None =>
                  (st', Some {| connected := false; error := Some json_error |})
              end
        end
  end.

End TestPrinterConnection.

(** The optional branding fields of a ticket. *)
Record Branding := {
  brandName : option jsstring;
  brandLogo : option jsstring;
  companyName : option jsstring;
  companyLogo : option jsstring
}.

Definition defaultBrandName : jsstring := lit "STE".
Definition defaultBrandLogoPath : jsstring := lit "/icons/ste_260.png".

(** [a || b] on optional strings. *)
Definition or_else (a : option jsstring) (b : jsstring) : jsstring :=
  Str.or_default a b.

Definition withBranding (data : Branding) : Branding :=
  {| brandName := Some (or_else (brandName data) defaultBrandName);
     brandLogo := Some (or_else (brandLogo data) defaultBrandLogoPath);
     companyName :=
       Some (or_else (companyName data)
               (or_else (brandName data) defaultBrandName));
     companyLogo :=
       Some (or_else (companyLogo data)
               (or_else (brandLogo data) defaultBrandLogoPath)) |}.

End Client.

(** ** The printer simulator, src/virtual-printer.cjs

    [decodeESCPOS] reads the bytes a delivery wrote and lists what a printer
    would do with them: one entry per command it knows, one per line of
    text. *)

Module VirtualPrinter.
Import JS.

(** [`[ESC a - Alignment: ${alignText}]`]; [align] is [buffer[i + 2]],
    absent past the end of the buffer. *)
Definition alignment (align : option Z) : jsstring :=
  lit "[ESC a - Alignment: "
  ++ match align with
     | Some 0 => lit "LEFT"
     | Some 1 => lit "CENTER"
     | _ => lit "RIGHT"
     end
  ++ lit "]".

(** After the loop: [if (text.trim()) lines.push(text)]. *)
Definition finish (lines : list jsstring) (text : jsstring) : list jsstring :=
  if Str.truthy (Str.trim text) then lines ++ [text] else lines.

(** The loop of [decodeESCPOS] from index [i] on, [buffer] being the bytes
    from [i]; [i += 2] past the end of the buffer leaves the loop. *)
Fixpoint decode (buffer : list Z) (lines : list jsstring) (text : jsstring)
  : list jsstring :=
  match buffer with
  | [] => finish lines text
  | byte :: rest =>
      if byte =? 0x1B then
        match rest with
        | cmd :: rest1 =>
            if cmd =? 0x40 then
              decode rest1 (lines ++ [lit "[ESC @ - Initialize Printer]"]) text
            else if cmd =? 0x61 then
              match rest1 with
              | align :: rest2 =>
                  decode rest2 (lines ++ [alignment (Some align)]) text
              | [] => finish (lines ++ [alignment None]) text
              end
            else if cmd =? 0x74 then
              match rest1 with
              | _ :: rest2 =>
                  decode rest2 (lines ++ [lit "[ESC t - Set Code Table]"]) text
              | [] => finish (lines ++ [lit "[ESC t - Set Code Table]"]) text
              end
            else decode rest lines text
        | [] => finish lines text
        end
      else if byte =? 0x1D then
        match rest with
        | cmd :: rest1 =>
            if cmd =? 0x56 then
              match rest1 with
              | _ :: rest2 =>
                  decode rest2 (lines ++ [lit "[GS V - Cut Paper]"]) text
              | [] => finish (lines ++ [lit "[GS V - Cut Paper]"]) text
              end
            else decode rest lines text
        | [] => finish lines text
        end
      else if byte =? 0x0A then
        if Str.truthy (Str.trim text)
        then decode rest (lines ++ [text] ++ [[]]) []
        else decode rest (lines ++ [[]]) text
      else if (0x20 <=? byte) && (byte <=? 0x7E) then
        decode rest lines (text ++ [byte])
      else if 0x80 <=? byte then
        decode rest lines (text ++ [byte])
      else decode rest lines text
  end.

Definition decodeESCPOS (buffer : list Z) : list jsstring := decode buffer [] [].

End VirtualPrinter.

(** * Vocabulary of the properties, and the requests of the examples *)

Section Vocabulary.
Import JS Model Net.

(** The buffer the specification describes: the seven parts in order, with
    [feeds] trailing line feeds. *)
Definition spec_envelope (feeds : nat) (lines : list JS.jsstring) : list Z :=
  [0x1B; 0x40] ++ [0x1B; 0x74; 0x02] ++ [0x1B; 0x61; 0x01]
  ++ JS.join [JS.LF] (map JS.utf8 lines)
  ++ [0x1B; 0x61; 0x00] ++ repeat JS.LF feeds ++ [0x1D; 0x56; 0x00].

(** The buffer of the earlier copy: initialize, text, feeds, cut. *)
Definition bare_envelope (feeds : nat) (lines : list JS.jsstring) : list Z :=
  [0x1B; 0x40] ++ JS.join [JS.LF] (map JS.utf8 lines)
  ++ repeat JS.LF feeds ++ [0x1D; 0x56; 0x00].

(** A buffer that starts with initialize and stops with the cut command. *)
Definition framed (buffer : list Z) : Prop :=
  exists middle, buffer = [0x1B; 0x40] ++ middle ++ [0x1D; 0x56; 0x00].

(** [line] ends with [suffix]. *)
Definition ends_with (suffix line : JS.jsstring) : bool :=
  Str.eqb (skipn (length line - length suffix) line) suffix.

(** What the specification asks of a booking for three seats at 5.0 with a
    fee of 0.15 per seat: the two line items, and the payable [total] shown
    to three decimals on some line. *)
Definition claimed_booking_lines (lines : list JS.jsstring) (total : JS.number)
  : Prop :=
  In (JS.lit "Prix base: 15.00 TND") lines
  /\ In (JS.lit "Frais: 0.45 TND") lines
  /\ exists line, In line lines
       /\ ends_with (JS.toFixed 3 total ++ JS.lit " TND") line = true.

(** The booking of the example, with a payable total of 15.45. *)
Definition example_booking : Model.TicketData :=
  {| Model.licensePlate := JS.lit "123 TUN 4567";
     Model.destinationName := Some (JS.lit "Tunis");
     Model.routeName := Some (JS.lit "Tunis");
     Model.seatNumber := Some 3%float;
     Model.totalAmount := 0x1.ee66666666666p+3%float;
     Model.stationFee := Some Legacy.fee_per_seat;
     Model.createdBy := JS.lit "Agent";
     Model.createdAt := 1700000000000;
     Model.vehicleCapacity := None;
     Model.basePrice := Some 5%float;
     Model.staffFirstName := None;
     Model.staffLastName := None;
     Model.printerConfig := None |}.

(** One call to [resolve] or [reject] has been made exactly when the flag
    is set. *)
Definition coherent (d : Delivery) : Prop :=
  length (settled d) = if isResolved d then 1%nat else 0%nat.

(** What "settles exactly once" asks of a delivery [d] and its handlers:
    - one settling call when the flag is set, none before;
    - once the flag is set, a further callback changes neither the flag nor
      the calls made, and 'error', 'timeout' and 'close' change nothing at
      all;
    - 'error', 'timeout', 'close' and a failed write leave the delivery
      settled; a completed write leaves it settled or with a timer armed,
      and an armed timer that fires leaves it settled. *)
Definition settles_once (step : Delivery -> Event -> Delivery) (d : Delivery)
  : Prop :=
  coherent d
  /\ (forall ev,
        if isResolved d
        then settled (step d ev) = settled d /\ isResolved (step d ev) = true
             /\ match ev with
                | SockError _ | SockTimeout | SockClose => step d ev = d
                | _ => True
                end
        else (length (settled (step d ev)) <= 1)%nat)
  /\ (forall ev,
        match ev with
        | Connect => True
        | WriteDone (Some _) | SockError _ | SockTimeout | SockClose =>
            isResolved (step d ev) = true
        | WriteDone None =>
            isResolved (step d ev) = true \/ (0 < timers (step d ev))%nat
        | TimerFired =>
            timers d = 0%nat \/ isResolved (step d ev) = true
        end).

(** The callbacks that settle a delivery still unsettled whenever they
    run: a failed write, 'error', 'timeout' and 'close'. *)
Definition settling (ev : Event) : bool :=
  match ev with
  | WriteDone (Some _) | SockError _ | SockTimeout | SockClose => true
  | _ => false
  end.

(** 'error', 'timeout' and 'close'. *)
Definition socket_event (ev : Event) : bool :=
  match ev with
  | SockError _ | SockTimeout | SockClose => true
  | _ => false
  end.

(** What "settles exactly once" asks of the deliveries [send evs], whatever
    callbacks [evs] have run:
    - one settling call has been made when the flag is set, none before;
    - a failed write, 'error', 'timeout' or 'close' among the callbacks
      means the flag is set;
    - once the flag is set, whatever callbacks run next, the settling calls
      stay the ones made and the flag stays set;
    - once the flag is set, 'error', 'timeout' and 'close' change nothing at
      all;
    - a completed write followed by its timer sets the flag. *)
Definition settles_exactly_once (send : list Event -> Delivery) : Prop :=
  forall evs : list Event,
    coherent (send evs)
    /\ (existsb settling evs = true -> isResolved (send evs) = true)
    /\ (isResolved (send evs) = true ->
        forall more : list Event,
          settled (send (evs ++ more)) = settled (send evs)
          /\ isResolved (send (evs ++ more)) = true)
    /\ (isResolved (send evs) = true ->
        forall ev : Event,
          socket_event ev = true -> send (evs ++ [ev]) = send evs)
    /\ isResolved (send (evs ++ [WriteDone None; TimerFired])) = true.

(** The write callback has run. *)
Definition write_reported (ev : Event) : bool :=
  match ev with WriteDone _ => true | _ => false end.

(** The reason given when the socket times out before the write callback. *)
Definition timeout_reason (ip : JS.jsstring) (port : Z) : JS.jsstring :=
  JS.lit "Printer connection timeout at " ++ ip ++ JS.lit ":" ++ JS.int_string port.

(** Every chunk a delivery has written is its own buffer. *)
Definition own_buffer_only (j : Embedded.Job) : Prop :=
  Forall (eq (Embedded.job_data j)) (wire (Embedded.job_state j)).

(** The path /api/printer/config/{id}. *)
Definition config_path (id : jsstring) : jsstring :=
  lit "/api/printer/config/" ++ id.

(** PUT /api/printer/config/{id} with a body. *)
Definition put_config (id body : jsstring) : Embedded.Request :=
  {| Embedded.method := lit "PUT"; Embedded.pathname := config_path id;
     Embedded.body := body |}.

(** GET /api/printer/config/{id}. *)
Definition get_config (id : jsstring) : Embedded.Request :=
  {| Embedded.method := lit "GET"; Embedded.pathname := config_path id;
     Embedded.body := [] |}.

(** An endpoint stored earlier. *)
Definition example_stored : ConfigStore.PrinterIpConfig :=
  {| ConfigStore.ip := JS.lit "10.0.0.5"; ConfigStore.port := 9100 |}.

(** A report that carries no [createdAt]. *)
Definition example_report : Model.ReportData :=
  {| Model.periodLabel := JS.lit "Novembre 2023";
     Model.totalSeatsBooked := 12%float;
     Model.totalSeatIncome := 60%float;
     Model.totalDayPassesSold := 2%float;
     Model.totalDayPassIncome := 4%float;
     Model.totalIncome := 64%float;
     Model.staffData := None;
     Model.rep_createdBy := Some (JS.lit "Agent");
     Model.rep_createdAt := None;
     Model.rep_printerConfig := None |}.

(** The report with another [createdAt]. *)
Definition with_createdAt (report : Model.ReportData) (stamp : option Model.Stamp)
  : Model.ReportData :=
  {| Model.periodLabel := Model.periodLabel report;
     Model.totalSeatsBooked := Model.totalSeatsBooked report;
     Model.totalSeatIncome := Model.totalSeatIncome report;
     Model.totalDayPassesSold := Model.totalDayPassesSold report;
     Model.totalDayPassIncome := Model.totalDayPassIncome report;
     Model.totalIncome := Model.totalIncome report;
     Model.staffData := Model.staffData report;
     Model.rep_createdBy := Model.rep_createdBy report;
     Model.rep_createdAt := stamp;
     Model.rep_printerConfig := Model.rep_printerConfig report |}.

(** The report carries a [createdAt] that is not falsy. *)
Definition stamped (report : Model.ReportData) : bool :=
  match Model.rep_createdAt report with
  | Some stamp => Model.stamp_truthy stamp
  | None => false
  end.

(** The 'connect' events among the callbacks: each one writes the buffer. *)
Definition connects (evs : list Net.Event) : list Net.Event :=
  List.filter (fun ev => match ev with Net.Connect => true | _ => false end) evs.

(** A host one hour east of Greenwich. *)
Definition one_hour_east : DateFmt.Host :=
  {| DateFmt.tzOffsetMinutes := fun _ => 60 |}.

(** The example report with the [createdAt] a caller sends. *)
Definition stamped_report : Model.ReportData :=
  with_createdAt example_report
    (Some (Model.Iso (JS.lit "2023-11-14T22:13:20.000Z") 1700000000000)).

(** Two worlds that differ in their clocks and in what the socket does. *)
Definition midnight : Embedded.World :=
  {| Embedded.clock := 0; Embedded.socket_events := [Net.Connect] |}.

(** One day later. *)
Definition next_day : Embedded.World :=
  {| Embedded.clock := 86400000;
     Embedded.socket_events := [Net.Connect; Net.WriteDone None] |}.

(** A booking of the example with another seat count. *)
Definition booking_with_seats (seats : option JS.number) : Model.TicketData :=
  Model.with_seatNumber example_booking seats.

(** The values [toFixed] prints in plain decimal form: zero and the finite
    values of magnitude below 10^21. *)
Definition plain (x : JS.number) : bool :=
  match Prim2SF x with
  | S754_zero _ => true
  | S754_finite _ m e =>
      negb (10 ^ 21 * JS.magnitude_den e <=? JS.magnitude_num m e)
  | _ => false
  end.

(** The lines of a text: the pieces between its line feeds. *)
Definition text_lines (s : jsstring) : list jsstring :=
  fold_right (fun c ls =>
                if c =? LF then [] :: ls
                else match ls with
                     | l :: rest => (c :: l) :: rest
                     | [] => [[c]]
                     end) [[]] s.

(** A text without a line feed. *)
Definition one_line (s : jsstring) : bool := forallb (fun c => negb (c =? LF)) s.

(** The lines of a text after its first: those that follow a line feed. *)
Definition inner_lines (s : jsstring) : list jsstring := tl (text_lines s).

(** A line that comes from inside the plate, the destination or the agent
    of a ticket request. *)
Definition from_free_text (data : TicketData) (line : jsstring) : Prop :=
  In line (inner_lines (licensePlate data))
  \/ match destinationName data with
     | Some d => In line (inner_lines d)
     | None => False
     end
  \/ In line (inner_lines (createdBy data)).

(** Every line of [content] that starts with "Sieges: " comes from inside
    a free text of the request. *)
Definition seat_lines_are_injected (data : TicketData) (content : jsstring)
  : Prop :=
  forall line, In line (text_lines content) ->
    Str.startsWith (lit "Sieges: ") line = true -> from_free_text data line.

(** Plate, destination and agent of a request have no line feed. *)
Definition free_text_on_one_line (data : TicketData) : bool :=
  one_line (licensePlate data)
  && match destinationName data with Some d => one_line d | None => true end
  && one_line (createdBy data).

(** The request [data] with another plate. *)
Definition with_licensePlate (data : TicketData) (plate : jsstring)
  : TicketData :=
  {| licensePlate := plate;
     destinationName := destinationName data;
     routeName := routeName data;
     seatNumber := seatNumber data;
     totalAmount := totalAmount data;
     stationFee := stationFee data;
     createdBy := createdBy data;
     createdAt := createdAt data;
     vehicleCapacity := vehicleCapacity data;
     basePrice := basePrice data;
     staffFirstName := staffFirstName data;
     staffLastName := staffLastName data;
     printerConfig := printerConfig data |}.
End Vocabulary.

(** * Vocabulary of the further properties *)

Section DeliveryVocabulary.
Import JS Net.

(** Why a delivery to [ip]:[port] may have failed, given the callbacks
    [seen]: the write callback reported the error, or one of the three
    socket events ran and the reason is the text built for it. *)
Definition explained (ip : jsstring) (port : Z) (seen : list Event)
  (message : jsstring) : Prop :=
  In (WriteDone (Some message)) seen
  \/ (exists e, In (SockError e) seen
        /\ message = lit "Cannot connect to printer at "
                     ++ Embedded.endpoint_text ip port ++ lit " - " ++ e)
  \/ (In SockTimeout seen /\ message = timeout_reason ip port)
  \/ (In SockClose seen
        /\ message = lit "Connection closed before data could be sent").

(** The callbacks that settle nothing by themselves. *)
Definition quiet (ev : Event) : bool :=
  match ev with
  | Connect | WriteDone None | TimerFired => true
  | _ => false
  end.

(** What the callbacks [seen] must contain for a delivery to have settled
    as [o], or to be still pending. *)
Definition accounted (ip : jsstring) (port : Z) (seen : list Event)
  (o : option Outcome) : Prop :=
  match o with
  | None => Forall (fun ev => quiet ev = true) seen
  | Some Resolved => In (WriteDone None) seen
  | Some (Rejected m) => explained ip port seen m
  end.

(** The invariant behind [accounted]: an unsettled delivery has made no
    settling call and has its written flag set only after a completed
    write; a timer is armed only once the flag is set. *)
Definition outcome_inv (ip : jsstring) (port : Z) (seen : list Event)
  (d : Delivery) : Prop :=
  (if isResolved d then settled d <> []
   else settled d = []
        /\ (dataWritten d = true -> In (WriteDone None) seen))
  /\ (timers d <> 0%nat -> dataWritten d = true)
  /\ accounted ip port seen (result d).

(** The first of 'error', 'timeout' and 'close' among the callbacks, read as
    the earlier copy reads them. *)
Fixpoint first_ending (evs : list Event) : option Outcome :=
  match evs with
  | [] => None
  | SockError m :: _ => Some (Rejected m)
  | SockTimeout :: _ => Some (Rejected (lit "Printer connection timeout"))
  | SockClose :: _ => Some Resolved
  | _ :: rest => first_ending rest
  end.

(** What the caller and the printer can tell of a delivery: the flags, the
    settling calls, the timers armed and the chunks written. *)
Definition same_course (a b : Delivery) : Prop :=
  isResolved a = isResolved b /\ dataWritten a = dataWritten b
  /\ settled a = settled b /\ timers a = timers b /\ wire a = wire b.

(** The same, leaving the chunks aside. *)
Definition same_settling (a b : Delivery) : Prop :=
  isResolved a = isResolved b /\ dataWritten a = dataWritten b
  /\ settled a = settled b /\ timers a = timers b.

End DeliveryVocabulary.

Section FacadeVocabulary.
Import JS Model.

(** The shapes of an answer:
    - a body [{error}] goes with 404 (the text "Not found") or with 500 (a
      text that is never empty), and with no other status;
    - the result of a connection test goes with 200 and carries an error
      text of its own: empty when connected, "Could not connect to printer"
      when not;
    - every other body goes with 200. *)
Definition well_formed_answer (r : Embedded.Response) : Prop :=
  match Embedded.payload r with
  | Embedded.Error m =>
      (Embedded.status r = 404 /\ m = lit "Not found")
      \/ (Embedded.status r = 500 /\ Str.truthy m = true)
  | Embedded.TestResult connected error =>
      Embedded.status r = 200
      /\ error = (if connected then []
                  else lit "Could not connect to printer")
  | Embedded.Empty | Embedded.Health | Embedded.Config _
  | Embedded.Message _ => Embedded.status r = 200
  end.

Definition answered_well (o : option Embedded.Response) : Prop :=
  match o with Some r => well_formed_answer r | None => True end.

(** POST on a path below /api/printer/print/. *)
Definition asks_to_print (req : Embedded.Request) : bool :=
  Embedded.method_is req "POST" && Embedded.path_under req "/api/printer/print/".

(** The answer reports success. *)
Definition reports_success (o : option Embedded.Response) : bool :=
  match o with
  | Some r => Embedded.status r =? 200
  | None => false
  end.

(** Every exception the request can meet carries a message: the one of
    [JSON.parse] and the ones of the write callback. *)
Definition errors_have_text (parseTicket : jsstring -> jsstring + TicketData)
  (w : Embedded.World) (req : Embedded.Request) : bool :=
  match parseTicket (Embedded.body req) with
  | inl m => Str.truthy m
  | inr _ => true
  end
  && forallb (fun ev => match ev with
                        | Net.WriteDone (Some m) => Str.truthy m
                        | _ => true
                        end) (Embedded.socket_events w).

(** POST /api/printer/print/statistics. *)
Definition asks_for_statistics (req : Embedded.Request) : bool :=
  Embedded.path_is req "/api/printer/print/statistics"
  && Embedded.method_is req "POST".

(** POST /api/printer/print/{kind} with a body. *)
Definition print_request (kind : string) (body : jsstring) : Embedded.Request :=
  {| Embedded.method := lit "POST";
     Embedded.pathname := lit "/api/printer/print/" ++ lit kind;
     Embedded.body := body |}.

(** A printer that accepts the connection and the buffer. *)
Definition printer_answers : Embedded.World :=
  {| Embedded.clock := 0;
     Embedded.socket_events := [Net.Connect; Net.WriteDone None; Net.TimerFired] |}.

(** No printer behind the address. *)
Definition printer_refuses : Embedded.World :=
  {| Embedded.clock := 0;
     Embedded.socket_events := [Net.SockError (lit "connect ECONNREFUSED");
                                Net.SockClose] |}.

(** A body that parses as the ticket [t] (as the report [r]). *)
Definition parses_as (t : TicketData) : jsstring -> jsstring + TicketData :=
  fun _ => inr t.
Definition parses_as_report (r : ReportData) : jsstring -> jsstring + ReportData :=
  fun _ => inr r.

(** The network when the service of embeddedPrinterService.ts answers, in
    the world [w]. *)
Definition fetch_from_embedded
  (parseTicket : jsstring -> jsstring + TicketData)
  (parseReport : jsstring -> jsstring + ReportData)
  (host : DateFmt.Host) (svc : Embedded.Service) (w : Embedded.World)
  (req : Embedded.Request) : Client.Fetched :=
  match snd (Embedded.handleRequest parseTicket parseReport host svc w req) with
  | Some r => Client.Answer r
  | None => Client.Waiting
  end.

(** All four branding fields are present and not empty. *)
Definition branded (b : Client.Branding) : Prop :=
  Str.truthy_opt (Client.brandName b) = true
  /\ Str.truthy_opt (Client.brandLogo b) = true
  /\ Str.truthy_opt (Client.companyName b) = true
  /\ Str.truthy_opt (Client.companyLogo b) = true.

End FacadeVocabulary.

Section AddressVocabulary.
Import JS ConfigStore.

(** The host that [getConfig] replaces. *)
Definition stale_host : jsstring := lit "192.168.192.168".

(** Whether a property assigned on the value shows in what is saved: not
    on a scalar (the assignment throws) and not on an array
    ([JSON.stringify] writes the elements only). *)
Definition keeps_properties (v : Value) : bool :=
  match v with
  | NotConfig (Scalar _) | NotConfig Array => false
  | _ => true
  end.

(** The exception an assignment on the value throws, if any. *)
Definition throws_on_assignment (v : Value) : option jsstring :=
  match v with
  | NotConfig (Scalar complaint) => Some complaint
  | _ => None
  end.

(** The two messages of the settings dialog after a valid input. *)
Definition update_succeeded : jsstring :=
  lit "Adresse IP de l'imprimante mise " ++ [0xE0] ++ lit " jour avec succ"
  ++ [0xE8] ++ lit "s !".
Definition update_failed : jsstring :=
  [0xC9] ++ lit "chec de la mise " ++ [0xE0]
  ++ lit " jour de l'IP de l'imprimante : ".

(** A new service over a store holding the text 123, and one holding the
    text of an empty array. *)
Definition stored_number : State :=
  start {[ STORAGE_KEY :=
             Other (Scalar (lit "TypeError: Cannot create property 'ip' on number '123'")) ]}.
Definition stored_array : State := start {[ STORAGE_KEY := Other Array ]}.

(** A decimal digit. *)
Definition digit (c : Z) : bool := (48 <=? c) && (c <=? 57).

(** The number a digit string denotes. *)
Definition decimal_value (s : jsstring) : Z :=
  fold_left (fun v c => 10 * v + (c - 48)) s 0.

(** One to three decimal digits denoting at most 255. *)
Definition decimal_octet (s : jsstring) : bool :=
  (1 <=? length s)%nat && (length s <=? 3)%nat && forallb digit s
  && (decimal_value s <=? 255).

(** Four decimal octets separated by dots. *)
Definition dotted_quad (s : jsstring) : Prop :=
  exists a b c d,
    s = a ++ lit "." ++ b ++ lit "." ++ c ++ lit "." ++ d
    /\ decimal_octet a = true /\ decimal_octet b = true
    /\ decimal_octet c = true /\ decimal_octet d = true.

(** A pattern without character classes matches the empty string only. *)
Fixpoint classless (r : regex) : bool :=
  match r with
  | Void | Eps => true
  | Range _ _ => false
  | Seq a b | Alt a b => classless a && classless b
  | Opt a => classless a
  end.

(** A pattern that matches nothing. *)
Fixpoint dead (r : regex) : bool :=
  match r with
  | Void => true
  | Seq a _ => dead a
  | Alt a b => dead a && dead b
  | _ => false
  end.

End AddressVocabulary.

Section BytesVocabulary.
Import JS Model.

(** A string of UTF-16 code units. *)
Definition code_units (s : jsstring) : Prop := Forall (fun c => 0 <= c < 65536) s.

(** A byte of the encoded text is a byte, and when it is below 0x80 it is a
    character of the text itself. *)
Definition byte_of (s : jsstring) (b : Z) : Prop :=
  0 <= b <= 255 /\ (b < 128 -> In b s).

(** A line the simulator can show: code units that are neither control
    characters nor DEL, and, unless the line is empty, something other than
    white space among its bytes. *)
Definition printable_line (l : jsstring) : Prop :=
  code_units l
  /\ Forall (fun c => 0x20 <= c /\ c <> 0x7F) l
  /\ (l = [] \/ Str.truthy (Str.trim (utf8 l)) = true).

(** What the simulator lists for a line followed by a line feed: the bytes
    of the line as characters, then an empty entry. *)
Definition shown (l : jsstring) : list jsstring :=
  if Str.truthy (Str.trim (utf8 l)) then [utf8 l; []] else [[]].

(** The bytes the simulator appends to the text of the current line. *)
Definition kept (b : Z) : Prop := (0x20 <= b <= 0x7E) \/ 0x80 <= b.

(** The cells of a staff row fit their columns. *)
Definition cells_fit (staff : StaffRow) : Prop :=
  (length (Number_toString (or_default (Some (sr_seats staff)) 0%float)) <= 6
   /\ length (toFixed 2 (or_default (Some (sr_seatIncome staff)) 0%float)) <= 10
   /\ length (Number_toString (or_default (Some (sr_dayPasses staff)) 0%float)) <= 6
   /\ length (toFixed 2 (or_default (Some (sr_dayPassIncome staff)) 0%float)) <= 10
   /\ length (toFixed 2 (or_default (Some (sr_income staff)) 0%float)) <= 10)%nat.

End BytesVocabulary.

(** * Properties *)

(** ** The protocol encoder *)

Section Encoder.
Import JS.

Lemma utf8_low_head (c : Z) (rest : jsstring) :
  is_high_surrogate c = false ->
  utf8 (c :: rest) =
  (if is_low_surrogate c then replacement else utf8_scalar c) ++ utf8 rest.
Proof.
  intros Hc. cbn [utf8]. rewrite Hc. now destruct (is_low_surrogate c).
Qed.

Lemma utf8_pair (c d : Z) (rest : jsstring) :
  is_high_surrogate c = true -> is_low_surrogate d = true ->
  utf8 (c :: d :: rest) = utf8_scalar (code_point c d) ++ utf8 rest.
Proof. intros Hc Hd. cbn [utf8]. now rewrite Hc, Hd. Qed.

Lemma utf8_unpaired (c d : Z) (rest : jsstring) :
  is_high_surrogate c = true -> is_low_surrogate d = false ->
  utf8 (c :: d :: rest) = replacement ++ utf8 (d :: rest).
Proof. intros Hc Hd. cbn [utf8]. now rewrite Hc, Hd. Qed.

Lemma utf8_high_last (c : Z) :
  is_high_surrogate c = true -> utf8 [c] = replacement.
Proof. intros Hc. cbn [utf8]. now rewrite Hc. Qed.

(** A line feed never completes a surrogate pair, so encoding commutes with
    splitting at a line feed. *)
Lemma utf8_lf_split (a b : jsstring) :
  utf8 (a ++ LF :: b) = utf8 a ++ LF :: utf8 b.
Proof.
  assert (H : forall n (a : jsstring), (length a <= n)%nat ->
            utf8 (a ++ LF :: b) = utf8 a ++ LF :: utf8 b).
  { induction n as [|n IH]; intros [|c rest] Hlen; simpl in Hlen;
      try reflexivity; try lia.
    destruct (is_high_surrogate c) eqn:Hc.
    - destruct rest as [|d rest'].
      + change ([c] ++ LF :: b) with (c :: LF :: b).
        rewrite utf8_unpaired, utf8_high_last by (assumption || reflexivity).
        reflexivity.
      + change ((c :: d :: rest') ++ LF :: b) with (c :: d :: (rest' ++ LF :: b)).
        destruct (is_low_surrogate d) eqn:Hd.
        * rewrite !utf8_pair by assumption.
          rewrite (IH rest') by (simpl in Hlen; lia).
          now rewrite <- app_assoc.
        * rewrite !utf8_unpaired by assumption.
          change (d :: rest' ++ LF :: b) with ((d :: rest') ++ LF :: b).
          rewrite (IH (d :: rest')) by (simpl in *; lia).
          now rewrite <- app_assoc.
    - change ((c :: rest) ++ LF :: b) with (c :: (rest ++ LF :: b)).
      rewrite !utf8_low_head by assumption.
      rewrite (IH rest) by lia. now rewrite <- app_assoc. }
  apply (H (length a)); lia.
Qed.

(** The bytes of the joined lines are the lines' bytes joined. *)
Lemma utf8_join (lines : list jsstring) :
  utf8 (join [LF] lines) = join [LF] (map utf8 lines).
Proof.
  induction lines as [|l [|l' rest] IH]; try reflexivity.
  change (join [LF] (l :: l' :: rest)) with (l ++ LF :: join [LF] (l' :: rest)).
  rewrite utf8_lf_split, IH. reflexivity.
Qed.

End Encoder.

(** C1, counterexample: the encoder of unnamed/part_004 sends neither the
    character table nor the alignment commands; for the single line "A" its
    buffer is not the seven-part envelope, whatever the number of feeds. *)
Lemma C1_legacy_encoder_omits_commands :
  ~ exists feeds : nat,
      Legacy.convertToESCPOS (JS.join [JS.LF] [JS.lit "A"])
      = spec_envelope feeds [JS.lit "A"].
Proof.
  intros [feeds H]. vm_compute in H. congruence.
Qed.

(** C1, amended: for every line sequence the encoders of
    embeddedPrinterService.ts and electron/main.ts produce exactly
    initialize, character table 2, centre, the UTF-8 bytes of the lines
    joined by single line feeds, left alignment, four line feeds and the
    cut; the encoder of unnamed/part_004 produces initialize, the same
    text bytes, three line feeds and the cut. Every buffer of the three
    begins with 1B 40 and ends with 1D 56 00. *)
Theorem C1_encoder_envelope (lines : list JS.jsstring) :
  (Embedded.convertToESCPOS (JS.join [JS.LF] lines) = spec_envelope 4 lines
   /\ ElectronMain.convertToESCPOS (JS.join [JS.LF] lines) = spec_envelope 4 lines
   /\ Legacy.convertToESCPOS (JS.join [JS.LF] lines) = bare_envelope 3 lines)
  /\ framed (Embedded.convertToESCPOS (JS.join [JS.LF] lines))
  /\ framed (ElectronMain.convertToESCPOS (JS.join [JS.LF] lines))
  /\ framed (Legacy.convertToESCPOS (JS.join [JS.LF] lines)).
Proof.
  assert (E : Embedded.convertToESCPOS (JS.join [JS.LF] lines)
              = spec_envelope 4 lines).
  { unfold Embedded.convertToESCPOS, spec_envelope. cbv zeta.
    rewrite utf8_join. unfold Embedded.ESC_init, Embedded.ESC_charset,
      Embedded.ESC_center, Embedded.ESC_left, Embedded.feed, Embedded.GS_cut.
    rewrite <- !app_assoc. reflexivity. }
  assert (M : ElectronMain.convertToESCPOS (JS.join [JS.LF] lines)
              = spec_envelope 4 lines).
  { unfold ElectronMain.convertToESCPOS, spec_envelope. cbv zeta.
    rewrite utf8_join, <- !app_assoc. reflexivity. }
  assert (L : Legacy.convertToESCPOS (JS.join [JS.LF] lines)
              = bare_envelope 3 lines).
  { unfold Legacy.convertToESCPOS, bare_envelope. cbv zeta.
    rewrite utf8_join, <- !app_assoc. reflexivity. }
  split; [now split|].
  rewrite E, M, L. unfold framed, spec_envelope, bare_envelope.
  split; [|split].
  - exists ([0x1B; 0x74; 0x02] ++ [0x1B; 0x61; 0x01]
            ++ JS.join [JS.LF] (map JS.utf8 lines)
            ++ [0x1B; 0x61; 0x00] ++ repeat JS.LF 4).
    rewrite <- !app_assoc. reflexivity.
  - exists ([0x1B; 0x74; 0x02] ++ [0x1B; 0x61; 0x01]
            ++ JS.join [JS.LF] (map JS.utf8 lines)
            ++ [0x1B; 0x61; 0x00] ++ repeat JS.LF 4).
    rewrite <- !app_assoc. reflexivity.
  - exists (JS.join [JS.LF] (map JS.utf8 lines) ++ repeat JS.LF 3).
    rewrite <- !app_assoc. reflexivity.
Qed.

(** ** The ticket formatter *)

Section Formatter.
Import JS Model.

Lemma Str_eqb_eq (a b : jsstring) : Str.eqb a b = true <-> a = b.
Proof.
  revert b. induction a as [|x a IH]; intros [|y b]; simpl; split;
    try congruence; try reflexivity.
  - intros H. apply andb_true_iff in H as [Hx Hr].
    apply Z.eqb_eq in Hx. apply IH in Hr. congruence.
  - intros H. injection H as -> ->. rewrite Z.eqb_refl. now apply IH.
Qed.

Lemma not_In_by_eqb (x : jsstring) (l : list jsstring) :
  existsb (Str.eqb x) l = false -> ~ In x l.
Proof.
  intros H Hin. assert (existsb (Str.eqb x) l = true); [|congruence].
  apply existsb_exists. exists x. split; [assumption|now apply Str_eqb_eq].
Qed.

Lemma with_num_truthy (x : number) (f : number -> list jsstring) :
  truthy x = true -> Embedded.with_num (Some x) f = f x.
Proof. intros H. unfold Embedded.with_num. now rewrite H. Qed.

End Formatter.

Ltac no_line_ends_with :=
  let line := fresh "line" in
  let Hin := fresh "Hin" in
  let Hend := fresh "Hend" in
  intros (_ & _ & line & Hin & Hend);
  match type of Hin with
  | In _ ?lines =>
      assert (Hall : forallb (fun l =>
                negb (ends_with (JS.toFixed 3 (Model.totalAmount example_booking)
                                 ++ JS.lit " TND") l)) lines = true)
        by (vm_compute; reflexivity);
      rewrite forallb_forall in Hall; specialize (Hall _ Hin);
      rewrite Hend in Hall; discriminate Hall
  end.

(** C2, counterexample: for the booking of the example no copy of the
    formatter prints what the claim asks. The formatters of
    embeddedPrinterService.ts and electron/main.ts show the total to two
    decimals ("Total: 15.45 TND"); the formatter of unnamed/part_004 shows
    it to three but has no "Prix base:" line. *)
Lemma C2_no_copy_prints_claimed_lines :
  ~ claimed_booking_lines
      (Embedded.generateTicketLines DateFmt.utc example_booking (JS.lit "booking"))
      (Model.totalAmount example_booking)
  /\ ~ claimed_booking_lines
      (ElectronMain.generateTicketLines DateFmt.utc example_booking (JS.lit "booking"))
      (Model.totalAmount example_booking)
  /\ ~ claimed_booking_lines
      (Legacy.generateTicketLines DateFmt.utc example_booking (JS.lit "booking"))
      (Model.totalAmount example_booking).
Proof.
  split; [|split].
  - no_line_ends_with.
  - no_line_ends_with.
  - intros (Hbase & _). revert Hbase. apply not_In_by_eqb.
    vm_compute. reflexivity.
Qed.

Ltac find_line :=
  lazymatch goal with
  | |- In _ (_ ++ _) => apply in_or_app; first [left; find_line | right; find_line]
  | |- In _ (_ :: _) => first [left; reflexivity | right; find_line]
  end.

(** C2, amended: for every booking of three seats at 5.0 with a fee of 0.15
    per seat, the formatters of embeddedPrinterService.ts and
    electron/main.ts print "Prix base: 15.00 TND", "Frais: 0.45 TND" and the
    payable total to two decimals ("Total: ... TND"); the formatter of
    unnamed/part_004 prints "Total billets: 15.00 TND",
    "Total frais: 0.450 TND" and the payable total to three decimals
    ("Montant TTC: ... TND"), computed from the line items when the request
    carries a zero total. *)
Theorem C2_booking_amounts (h : DateFmt.Host) (data : Model.TicketData) :
  Model.seatNumber data = Some 3%float ->
  Model.basePrice data = Some 5%float ->
  Model.stationFee data = Some Legacy.fee_per_seat ->
  (In (JS.lit "Prix base: 15.00 TND")
      (Embedded.generateTicketLines h data (JS.lit "booking"))
   /\ In (JS.lit "Frais: 0.45 TND")
      (Embedded.generateTicketLines h data (JS.lit "booking"))
   /\ In (JS.lit "Total: " ++ JS.toFixed 2 (Model.totalAmount data) ++ JS.lit " TND")
      (Embedded.generateTicketLines h data (JS.lit "booking")))
  /\ (In (JS.lit "Prix base: 15.00 TND")
      (ElectronMain.generateTicketLines h data (JS.lit "booking"))
   /\ In (JS.lit "Frais: 0.45 TND")
      (ElectronMain.generateTicketLines h data (JS.lit "booking"))
   /\ In (JS.lit "Total: " ++ JS.toFixed 2 (Model.totalAmount data) ++ JS.lit " TND")
      (ElectronMain.generateTicketLines h data (JS.lit "booking")))
  /\ (In (JS.lit "Total billets: 15.00 TND")
      (Legacy.generateTicketLines h data (JS.lit "booking"))
   /\ In (JS.lit "Total frais: 0.450 TND")
      (Legacy.generateTicketLines h data (JS.lit "booking"))
   /\ In (JS.lit "Montant TTC: "
          ++ JS.toFixed 3
               (if JS.truthy (Model.totalAmount data) then Model.totalAmount data
                else (5 * 3 + Legacy.fee_per_seat * 3)%float)
          ++ JS.lit " TND")
      (Legacy.generateTicketLines h data (JS.lit "booking"))).
Proof.
  intros Hseats Hbase Hfee.
  assert (Hcount : Embedded.seatCount data = 3%float)
    by (unfold Embedded.seatCount; rewrite Hseats; reflexivity).
  assert (Hcount' : Legacy.seatCount data = 3%float)
    by (unfold Legacy.seatCount; rewrite Hseats; reflexivity).
  unfold Embedded.generateTicketLines, ElectronMain.generateTicketLines,
    Legacy.generateTicketLines.
  change (Str.eqb (JS.lit "booking") (JS.lit "booking")) with true.
  change (Str.eqb (JS.lit "booking") (JS.lit "daypass")) with false.
  change (Str.eqb (JS.lit "booking") (JS.lit "exitpass")) with false.
  cbv iota zeta.
  unfold Embedded.booking_lines, ElectronMain.booking_lines, Legacy.booking_lines.
  rewrite Hbase, Hfee, Hcount, Hcount', Hseats.
  rewrite !with_num_truthy by reflexivity.
  cbv zeta. unfold Legacy.number_or, JS.to_number.
  repeat split; find_line.
Qed.

(** The hypotheses of [C2_booking_amounts] hold of the example booking. *)
Lemma C2_booking_amounts_witness :
  In (JS.lit "Montant TTC: 15.450 TND")
     (Legacy.generateTicketLines DateFmt.utc example_booking (JS.lit "booking")).
Proof.
  exact (proj2 (proj2 (proj2 (proj2
    (C2_booking_amounts DateFmt.utc example_booking eq_refl eq_refl eq_refl))))).
Defined.

(** ** The delivery channel *)

Section DeliveryFacts.
Import JS Net.
Variables (ip : jsstring) (port : Z) (data : list Z).

Ltac split_flags d :=
  let Hr := fresh "Hr" in
  let Hw := fresh "Hw" in
  let Ht := fresh "Ht" in
  destruct (isResolved d) eqn:Hr, (dataWritten d) eqn:Hw, (timers d) eqn:Ht;
  cbn; rewrite ?Hr, ?Hw, ?Ht, ?length_app; cbn.

Ltac handler_cases d := split_flags d; try lia; try reflexivity.

Lemma embedded_step_coherent (d : Delivery) (ev : Event) :
  coherent d -> coherent (Embedded.step ip port data d ev).
Proof.
  unfold coherent. intros H.
  destruct ev as [|[e|]| | | |];
    unfold Embedded.step, Embedded.on_connect, Embedded.on_write,
      Embedded.on_timer, Embedded.on_error, Embedded.on_timeout,
      Embedded.on_close, settle;
    revert H; handler_cases d.
Qed.

Lemma main_step_coherent (d : Delivery) (ev : Event) :
  coherent d -> coherent (ElectronMain.step ip port data d ev).
Proof.
  unfold coherent. intros H.
  destruct ev as [|[e|]| | | |];
    unfold ElectronMain.step, Embedded.on_connect, ElectronMain.on_write,
      ElectronMain.on_timer, Embedded.on_error, Embedded.on_timeout,
      Embedded.on_close, settle;
    revert H; handler_cases d.
Qed.

Lemma legacy_step_coherent (d : Delivery) (ev : Event) :
  coherent d -> coherent (Legacy.step data d ev).
Proof.
  unfold coherent. intros H.
  destruct ev as [|[e|]| | | |];
    unfold Legacy.step, Legacy.on_connect, Legacy.on_error, Legacy.on_timeout,
      Legacy.on_close, settle;
    revert H; handler_cases d.
Qed.

(** A fold of a step function from [fresh] keeps what every step keeps. *)
Lemma run_invariant (step : Delivery -> Event -> Delivery) (P : Delivery -> Prop) :
  P fresh -> (forall d ev, P d -> P (step d ev)) ->
  forall evs, P (fold_left step evs fresh).
Proof.
  intros H0 Hstep evs. revert H0. generalize fresh.
  induction evs as [|ev evs IH]; intros d Hd; cbn; [exact Hd|].
  apply IH, Hstep, Hd.
Qed.

Lemma embedded_coherent (evs : list Event) :
  coherent (Embedded.sendToPrinter ip port data evs).
Proof.
  apply (run_invariant (Embedded.step ip port data) coherent);
    [reflexivity|]. intros; now apply embedded_step_coherent.
Qed.

Lemma main_coherent (evs : list Event) :
  coherent (ElectronMain.sendToPrinter ip port data evs).
Proof.
  apply (run_invariant (ElectronMain.step ip port data) coherent);
    [reflexivity|]. intros; now apply main_step_coherent.
Qed.

Lemma legacy_coherent (evs : list Event) :
  coherent (Legacy.sendToPrinter data evs).
Proof.
  apply (run_invariant (Legacy.step data) coherent);
    [reflexivity|]. intros; now apply legacy_step_coherent.
Qed.

Lemma embedded_settles_once (d : Delivery) :
  coherent d -> settles_once (Embedded.step ip port data) d.
Proof.
  intros H. split; [exact H|]. unfold coherent in H. split.
  - intros ev. destruct ev as [|[e|]| | | |];
      unfold Embedded.step, Embedded.on_connect, Embedded.on_write,
        Embedded.on_timer, Embedded.on_error, Embedded.on_timeout,
        Embedded.on_close, settle;
      revert H; split_flags d; intros; try lia; auto.
  - intros ev. destruct ev as [|[e|]| | | |]; try exact I;
      unfold Embedded.step, Embedded.on_write, Embedded.on_timer,
        Embedded.on_error, Embedded.on_timeout, Embedded.on_close, settle;
      split_flags d; auto; right; lia.
Qed.

Lemma main_settles_once (d : Delivery) :
  coherent d -> settles_once (ElectronMain.step ip port data) d.
Proof.
  intros H. split; [exact H|]. unfold coherent in H. split.
  - intros ev. destruct ev as [|[e|]| | | |];
      unfold ElectronMain.step, Embedded.on_connect, ElectronMain.on_write,
        ElectronMain.on_timer, Embedded.on_error, Embedded.on_timeout,
        Embedded.on_close, settle;
      revert H; split_flags d; intros; try lia; auto.
  - intros ev. destruct ev as [|[e|]| | | |]; try exact I;
      unfold ElectronMain.step, ElectronMain.on_write, ElectronMain.on_timer,
        Embedded.on_error, Embedded.on_timeout, Embedded.on_close, settle;
      split_flags d; auto; right; lia.
Qed.

End DeliveryFacts.

Section Settling.
Import JS Net.
Variable step : Delivery -> Event -> Delivery.
Hypothesis step_coherent : forall d ev, coherent d -> coherent (step d ev).
Hypothesis step_settles_once : forall d, coherent d -> settles_once step d.

Lemma settled_stays (more : list Event) :
  forall d, coherent d -> isResolved d = true ->
    settled (fold_left step more d) = settled d
    /\ isResolved (fold_left step more d) = true.
Proof.
  induction more as [|ev more IH]; intros d Hc Hr; cbn; [now split|].
  destruct (step_settles_once d Hc) as (_ & Hkeep & _).
  specialize (Hkeep ev). rewrite Hr in Hkeep. destruct Hkeep as (Hs & Hf & _).
  destruct (IH (step d ev) (step_coherent d ev Hc) Hf) as (Hs' & Hf').
  split; [now rewrite Hs'|exact Hf'].
Qed.

Lemma settling_settles (evs : list Event) :
  forall d, coherent d -> existsb settling evs = true ->
    isResolved (fold_left step evs d) = true.
Proof.
  induction evs as [|ev evs IH]; intros d Hc He; cbn in *; [discriminate|].
  destruct (settling ev) eqn:Hev; cbn in He.
  - apply settled_stays; [now apply step_coherent|].
    destruct (step_settles_once d Hc) as (_ & _ & Hend).
    specialize (Hend ev).
    destruct ev as [|[e|]| | | |]; try discriminate Hev; exact Hend.
  - apply IH; [now apply step_coherent|exact He].
Qed.

Lemma run_settles_exactly_once :
  settles_exactly_once (fun evs => fold_left step evs fresh).
Proof.
  intros evs. cbv beta.
  assert (Hc : coherent (fold_left step evs fresh))
    by (apply (run_invariant step coherent); [reflexivity|exact step_coherent]).
  split; [exact Hc|]. split; [|split; [|split]].
  - apply settling_settles. reflexivity.
  - intros Hr more. rewrite fold_left_app. now apply settled_stays.
  - intros Hr ev Hev. rewrite fold_left_app. cbn.
    destruct (step_settles_once _ Hc) as (_ & Hkeep & _).
    specialize (Hkeep ev). rewrite Hr in Hkeep. destruct Hkeep as (_ & _ & Hsame).
    destruct ev; try discriminate Hev; exact Hsame.
  - rewrite fold_left_app. cbn.
    set (d := fold_left step evs fresh) in *.
    pose proof (step_coherent d (WriteDone None) Hc) as Hc'.
    destruct (step_settles_once d Hc) as (_ & _ & Hw).
    specialize (Hw (WriteDone None)). cbn in Hw.
    destruct (step_settles_once _ Hc') as (_ & Hkeep & Ht).
    specialize (Hkeep TimerFired). specialize (Ht TimerFired). cbn in Ht.
    destruct Hw as [Hw|Hw].
    + rewrite Hw in Hkeep. apply Hkeep.
    + destruct Ht as [Ht|Ht]; [lia|exact Ht].
Qed.

End Settling.



Section Timeouts.
Import JS Net.
Variables (ip : jsstring) (port : Z) (data : list Z).

Lemma fold_left_snoc {A B : Type} (f : A -> B -> A) (l : list B) (x : B) (a : A) :
  fold_left f (l ++ [x]) a = f (fold_left f l a) x.
Proof. now rewrite fold_left_app. Qed.

Lemma embedded_flag_stays (d : Delivery) (ev : Event) :
  isResolved (Embedded.step ip port data d ev) = false -> isResolved d = false.
Proof.
  destruct (isResolved d) eqn:Hr; [|reflexivity].
  destruct ev as [|[e|]| | | |];
    unfold Embedded.step, Embedded.on_connect, Embedded.on_write,
      Embedded.on_timer, Embedded.on_error, Embedded.on_timeout,
      Embedded.on_close, settle;
    rewrite ?Hr; destruct (timers d); cbn; rewrite ?Hr; auto.
Qed.

Lemma main_flag_stays (d : Delivery) (ev : Event) :
  isResolved (ElectronMain.step ip port data d ev) = false -> isResolved d = false.
Proof.
  destruct (isResolved d) eqn:Hr; [|reflexivity].
  destruct ev as [|[e|]| | | |];
    unfold ElectronMain.step, Embedded.on_connect, ElectronMain.on_write,
      ElectronMain.on_timer, Embedded.on_error, Embedded.on_timeout,
      Embedded.on_close, settle;
    rewrite ?Hr; destruct (timers d); cbn; rewrite ?Hr; auto.
Qed.

Ltac split_flags' d :=
  let Hr := fresh "Hr" in
  let Hw := fresh "Hw" in
  let Ht := fresh "Ht" in
  destruct (isResolved d) eqn:Hr, (dataWritten d) eqn:Hw, (timers d) eqn:Ht;
  cbn; rewrite ?Hr, ?Hw, ?Ht; cbn.

Lemma embedded_step_dataWritten (d : Delivery) (ev : Event) :
  isResolved (Embedded.step ip port data d ev) = false ->
  dataWritten (Embedded.step ip port data d ev)
  = dataWritten d || write_reported ev.
Proof.
  destruct ev as [|[e|]| | | |];
    unfold Embedded.step, Embedded.on_connect, Embedded.on_write,
      Embedded.on_timer, Embedded.on_error, Embedded.on_timeout,
      Embedded.on_close, settle;
    split_flags' d; intros; congruence.
Qed.

Lemma main_step_dataWritten (d : Delivery) (ev : Event) :
  isResolved (ElectronMain.step ip port data d ev) = false ->
  dataWritten (ElectronMain.step ip port data d ev)
  = dataWritten d || write_reported ev.
Proof.
  destruct ev as [|[e|]| | | |];
    unfold ElectronMain.step, Embedded.on_connect, ElectronMain.on_write,
      ElectronMain.on_timer, Embedded.on_error, Embedded.on_timeout,
      Embedded.on_close, settle;
    split_flags' d; intros; congruence.
Qed.

(** While the delivery is unsettled, [dataWritten] records whether the
    write callback has run. *)
Lemma embedded_dataWritten (evs : list Event) :
  isResolved (Embedded.sendToPrinter ip port data evs) = false ->
  dataWritten (Embedded.sendToPrinter ip port data evs)
  = existsb write_reported evs.
Proof.
  unfold Embedded.sendToPrinter.
  induction evs as [|ev evs IH] using rev_ind; [reflexivity|].
  rewrite fold_left_snoc, existsb_app. intros Hr.
  rewrite (embedded_step_dataWritten _ _ Hr).
  rewrite (IH (embedded_flag_stays _ _ Hr)). cbn.
  now rewrite orb_false_r.
Qed.

Lemma main_dataWritten (evs : list Event) :
  isResolved (ElectronMain.sendToPrinter ip port data evs) = false ->
  dataWritten (ElectronMain.sendToPrinter ip port data evs)
  = existsb write_reported evs.
Proof.
  unfold ElectronMain.sendToPrinter.
  induction evs as [|ev evs IH] using rev_ind; [reflexivity|].
  rewrite fold_left_snoc, existsb_app. intros Hr.
  rewrite (main_step_dataWritten _ _ Hr).
  rewrite (IH (main_flag_stays _ _ Hr)). cbn.
  now rewrite orb_false_r.
Qed.

(** An unsettled delivery has settled nothing yet. *)
Lemma unsettled_nil (d : Delivery) :
  coherent d -> isResolved d = false -> settled d = [].
Proof.
  unfold coherent. intros H Hr. rewrite Hr in H.
  now destruct (settled d).
Qed.

End Timeouts.

(** C4, counterexample: in unnamed/part_004 the whole buffer is handed to
    [socket.write] on 'connect', and a socket timeout after that still
    rejects with the timeout reason. *)
Lemma C4_legacy_timeout_after_write_fails :
  Net.wire (Legacy.sendToPrinter (Legacy.convertToESCPOS (JS.lit "A"))
              [Net.Connect])
  = [Legacy.convertToESCPOS (JS.lit "A")]
  /\ Net.result (Legacy.sendToPrinter (Legacy.convertToESCPOS (JS.lit "A"))
                   [Net.Connect; Net.SockTimeout])
     = Some (Net.Rejected (JS.lit "Printer connection timeout"))
  /\ Net.result (Legacy.sendToPrinter (Legacy.convertToESCPOS (JS.lit "A"))
                   [Net.Connect; Net.SockTimeout])
     <> Some Net.Resolved.
Proof.
  split; [reflexivity|]. split; [reflexivity|]. discriminate.
Qed.

(** C4, amended: in embeddedPrinterService.ts and electron/main.ts a socket
    timeout that finds the delivery unsettled rejects with the timeout
    reason when the write callback has not run yet, and resolves when it
    has; in unnamed/part_004 a socket timeout that finds the delivery
    unsettled always rejects with the timeout reason, written or not. *)
Theorem C4_timeout_outcome
  (ip : JS.jsstring) (port : Z) (data : list Z) (evs : list Net.Event) :
  (Net.isResolved (Embedded.sendToPrinter ip port data evs) = false ->
   Net.result (Embedded.sendToPrinter ip port data (evs ++ [Net.SockTimeout]))
   = Some (if existsb write_reported evs then Net.Resolved
           else Net.Rejected (timeout_reason ip port)))
  /\ (Net.isResolved (ElectronMain.sendToPrinter ip port data evs) = false ->
      Net.result (ElectronMain.sendToPrinter ip port data (evs ++ [Net.SockTimeout]))
      = Some (if existsb write_reported evs then Net.Resolved
              else Net.Rejected (timeout_reason ip port)))
  /\ (Net.isResolved (Legacy.sendToPrinter data evs) = false ->
      Net.result (Legacy.sendToPrinter data (evs ++ [Net.SockTimeout]))
      = Some (Net.Rejected (JS.lit "Printer connection timeout"))).
Proof.
  split; [|split]; intros Hr.
  - rewrite <- (embedded_dataWritten ip port data evs Hr).
    pose proof (unsettled_nil _ (embedded_coherent ip port data evs) Hr) as Hs.
    unfold Embedded.sendToPrinter in *. rewrite fold_left_snoc.
    set (d := fold_left _ evs Net.fresh) in *.
    unfold Embedded.step, Embedded.on_timeout, Net.settle, Net.result.
    rewrite Hr. destruct (Net.dataWritten d); cbn; now rewrite Hs.
  - rewrite <- (main_dataWritten ip port data evs Hr).
    pose proof (unsettled_nil _ (main_coherent ip port data evs) Hr) as Hs.
    unfold ElectronMain.sendToPrinter in *. rewrite fold_left_snoc.
    set (d := fold_left _ evs Net.fresh) in *.
    unfold ElectronMain.step, Embedded.on_timeout, Net.settle, Net.result.
    rewrite Hr. destruct (Net.dataWritten d); cbn; now rewrite Hs.
  - pose proof (unsettled_nil _ (legacy_coherent data evs) Hr) as Hs.
    unfold Legacy.sendToPrinter in *. rewrite fold_left_snoc.
    set (d := fold_left _ evs Net.fresh) in *.
    unfold Legacy.step, Legacy.on_timeout, Net.settle, Net.result.
    cbn. rewrite Hr. cbn. now rewrite Hs.
Qed.

(** [C4_timeout_outcome] at work: a timeout right after 'connect' fails, a
    timeout after the write callback succeeds. *)
Lemma C4_timeout_outcome_witness :
  Net.result (Embedded.sendToPrinter (JS.lit "localhost") 9100 [0x1B; 0x40]
                ([Net.Connect] ++ [Net.SockTimeout]))
  = Some (Net.Rejected (JS.lit "Printer connection timeout at localhost:9100"))
  /\ Net.result (ElectronMain.sendToPrinter (JS.lit "localhost") 9100 [0x1B; 0x40]
                   ([Net.Connect; Net.WriteDone None] ++ [Net.SockTimeout]))
     = Some Net.Resolved
  /\ Net.result (Legacy.sendToPrinter [0x1B; 0x40]
                   ([Net.Connect] ++ [Net.SockTimeout]))
     = Some (Net.Rejected (JS.lit "Printer connection timeout")).
Proof.
  split; [|split].
  - exact (proj1 (C4_timeout_outcome (JS.lit "localhost") 9100 [0x1B; 0x40]
                    [Net.Connect]) eq_refl).
  - exact (proj1 (proj2 (C4_timeout_outcome (JS.lit "localhost") 9100 [0x1B; 0x40]
                    [Net.Connect; Net.WriteDone None])) eq_refl).
  - exact (proj2 (proj2 (C4_timeout_outcome (JS.lit "localhost") 9100 [0x1B; 0x40]
                    [Net.Connect])) eq_refl).
Defined.

(** ** Concurrent print requests *)

Section Dispatch.
Import JS Model Net.

Lemma step_own_buffer (j : Embedded.Job) (ev : Event) :
  own_buffer_only j -> own_buffer_only (Embedded.advance ev j).
Proof.
  unfold own_buffer_only, Embedded.advance. cbn. intros H.
  set (d := Embedded.job_state j) in *.
  destruct ev as [|[e|]| | | |];
    unfold Embedded.step, Embedded.on_connect, Embedded.on_write,
      Embedded.on_timer, Embedded.on_error, Embedded.on_timeout,
      Embedded.on_close, settle;
    destruct (isResolved d), (dataWritten d), (timers d); cbn; auto;
    apply Forall_app; split; auto.
Qed.

Lemma alter_Forall {A : Type} (P : A -> Prop) (f : A -> A) (l : list A) (i : nat) :
  (forall x, P x -> P (f x)) -> Forall P l -> Forall P (alter f i l).
Proof.
  intros Hf Hl. revert i. induction Hl as [|x l Hx Hl IH]; intros [|i]; cbn;
    constructor; auto.
Qed.

Lemma dispatch_own_buffer (jobs : list Embedded.Job) (i : Embedded.Input) :
  Forall own_buffer_only jobs -> Forall own_buffer_only (Embedded.dispatch jobs i).
Proof.
  intros H. destruct i as [target data|n ev]; cbn.
  - apply Forall_app. split; [assumption|].
    constructor; [|constructor]. unfold own_buffer_only. cbn. constructor.
  - apply alter_Forall; [|assumption]. intros j. apply step_own_buffer.
Qed.

Lemma run_own_buffer (inputs : list Embedded.Input) :
  Forall own_buffer_only (Embedded.run inputs).
Proof.
  unfold Embedded.run.
  assert (H : forall jobs, Forall own_buffer_only jobs ->
                Forall own_buffer_only (fold_left Embedded.dispatch inputs jobs)).
  { induction inputs as [|i inputs IH]; intros jobs Hj; cbn; [assumption|].
    apply IH, dispatch_own_buffer, Hj. }
  apply H. constructor.
Qed.

End Dispatch.

(** C3, counterexample: two booking requests for the default endpoint, the
    second submitted while the first is still under way. Both sockets
    connect and both buffers are written before either delivery has
    finished: the second did not wait for the first. *)
Lemma C3_second_delivery_does_not_wait :
  map (fun j => (Embedded.job_target j, Embedded.in_flight j,
                 Net.wire (Embedded.job_state j)))
      (Embedded.run
         [Embedded.submit_ticket DateFmt.utc (Embedded.new_service None)
            example_booking (JS.lit "booking");
          Embedded.submit_ticket DateFmt.utc (Embedded.new_service None)
            (Model.with_seatNumber example_booking (Some 1%float))
            (JS.lit "booking");
          Embedded.Callback 0 Net.Connect;
          Embedded.Callback 1 Net.Connect])
  = [({| Model.ep_ip := JS.lit "localhost"; Model.ep_port := 9100 |}, true,
      [Embedded.convertToESCPOS
         (Embedded.generateTicketContent DateFmt.utc example_booking
            (JS.lit "booking"))]);
     ({| Model.ep_ip := JS.lit "localhost"; Model.ep_port := 9100 |}, true,
      [Embedded.convertToESCPOS
         (Embedded.generateTicketContent DateFmt.utc
            (Model.with_seatNumber example_booking (Some 1%float))
            (JS.lit "booking"))])].
Proof. reflexivity. Qed.

(** C3, amended: the service keeps no queue per endpoint. A print request
    opens its own connection as soon as it is submitted, whatever
    deliveries are under way and for whichever endpoint, so deliveries to
    one endpoint can overlap; each connection carries only the buffer of
    its own request. *)
Theorem C3_deliveries_start_at_once
  (inputs : list Embedded.Input) (target : Model.Endpoint) (data : list Z) :
  Embedded.run (inputs ++ [Embedded.Submit target data])
  = Embedded.run inputs
    ++ [{| Embedded.job_target := target; Embedded.job_data := data;
           Embedded.job_state := Net.fresh |}]
  /\ Forall (fun j => Forall (eq (Embedded.job_data j))
                        (Net.wire (Embedded.job_state j)))
       (Embedded.run inputs).
Proof.
  split.
  - unfold Embedded.run. now rewrite fold_left_app.
  - apply run_own_buffer.
Qed.

(** ** The control facade *)

Section FacadeFacts.
Import JS Model.
Variable parseTicket : jsstring -> jsstring + TicketData.
Variable parseReport : jsstring -> jsstring + ReportData.
Variable host : DateFmt.Host.

Lemma startsWith_app (p s : jsstring) : Str.startsWith p (p ++ s) = true.
Proof.
  induction p as [|c p IH]; [reflexivity|]. cbn. now rewrite Z.eqb_refl, IH.
Qed.

Lemma handle_put (svc : Embedded.Service) (w : Embedded.World) (id body : jsstring) :
  Embedded.handleRequest parseTicket parseReport host svc w (put_config id body)
  = (svc, Some {| Embedded.status := 200;
                  Embedded.payload :=
                    Embedded.Message
                      (lit "printer configuration updated successfully") |}).
Proof.
  unfold Embedded.handleRequest, Embedded.handleRoutes, Embedded.path_is,
    Embedded.path_under, Embedded.method_is, put_config, config_path.
  cbn [Embedded.method Embedded.pathname].
  rewrite startsWith_app. reflexivity.
Qed.

Lemma handle_get (svc : Embedded.Service) (w : Embedded.World) (id : jsstring) :
  Embedded.handleRequest parseTicket parseReport host svc w (get_config id)
  = (svc, Some {| Embedded.status := 200;
                  Embedded.payload :=
                    Embedded.Config (Embedded.getDefaultConfig svc) |}).
Proof.
  unfold Embedded.handleRequest, Embedded.handleRoutes, Embedded.path_is,
    Embedded.path_under, Embedded.method_is, get_config, config_path.
  cbn [Embedded.method Embedded.pathname].
  rewrite startsWith_app. reflexivity.
Qed.

Lemma serve_puts (svc : Embedded.Service)
  (puts : list (Embedded.World * (jsstring * jsstring))) :
  Embedded.serve parseTicket parseReport host svc
    (map (fun p => (fst p, put_config (fst (snd p)) (snd (snd p)))) puts)
  = (svc,
     map (fun _ => Some {| Embedded.status := 200;
                           Embedded.payload :=
                             Embedded.Message
                               (lit "printer configuration updated successfully") |})
         puts).
Proof.
  induction puts as [|[w [id body]] puts IH]; [reflexivity|].
  cbn [map Embedded.serve fst snd]. rewrite handle_put, IH. reflexivity.
Qed.

End FacadeFacts.

(** C9: on the facade of embeddedPrinterService.ts, after any sequence of
    PUT /api/printer/config/{id} requests, whatever their ids and bodies,
    each PUT has been answered with success and a GET
    /api/printer/config/{id} still answers the fixed default configuration
    (ip "localhost", port 9100, width 48, timeout 5000): nothing a PUT
    submits is stored. *)
Theorem C9_get_config_ignores_puts
  (parseTicket : JS.jsstring -> JS.jsstring + Model.TicketData)
  (parseReport : JS.jsstring -> JS.jsstring + Model.ReportData)
  (host : DateFmt.Host) (svc : Embedded.Service)
  (puts : list (Embedded.World * (JS.jsstring * JS.jsstring)))
  (w : Embedded.World) (id : JS.jsstring) :
  Forall (fun r => r = Some {| Embedded.status := 200;
                               Embedded.payload :=
                                 Embedded.Message
                                   (JS.lit "printer configuration updated successfully") |})
    (snd (Embedded.serve parseTicket parseReport host svc
            (map (fun p => (fst p, put_config (fst (snd p)) (snd (snd p)))) puts)))
  /\ snd (Embedded.handleRequest parseTicket parseReport host
            (fst (Embedded.serve parseTicket parseReport host svc
                    (map (fun p => (fst p, put_config (fst (snd p)) (snd (snd p))))
                       puts)))
            w (get_config id))
     = Some {| Embedded.status := 200;
               Embedded.payload :=
                 Embedded.Config
                   {| Model.pc_id := JS.lit "printer1";
                      Model.pc_name := JS.lit "Local Printer";
                      Model.pc_ip := JS.lit "localhost";
                      Model.pc_port := 9100;
                      Model.pc_width := 48;
                      Model.pc_timeout := 5000;
                      Model.pc_model := JS.lit "ESC/POS";
                      Model.pc_enabled := true;
                      Model.pc_isDefault := true |} |}.
Proof.
  rewrite serve_puts. cbn [fst snd]. split.
  - apply List.Forall_forall. intros r Hr. apply in_map_iff in Hr as [_ [<- _]].
    reflexivity.
  - rewrite handle_get. reflexivity.
Qed.

(** ** The printer address store *)

Section StoreFacts.
Import JS ConfigStore.

Lemma stored_saveConfig (st : State) (config : PrinterIpConfig) :
  stored (saveConfig st (Config config)) = Some (Json config).
Proof. unfold stored, saveConfig. cbn. apply lookup_insert_eq. Qed.

Lemma handleSaveIp_rejects (st : State) (newIp : jsstring) :
  isValidIp (Str.trim newIp) = false ->
  exists message, handleSaveIp st newIp = (st, Failed message).
Proof.
  intros H. unfold handleSaveIp. rewrite H.
  destruct (Str.truthy (Str.trim newIp)); cbn; eauto.
Qed.

Lemma isValidPort_range (p : Z) : isValidPort p = true <-> 1 <= p <= 65535.
Proof. unfold isValidPort. rewrite andb_true_iff, Z.ltb_lt, Z.leb_le. lia. Qed.

(** [get()] of a service whose default object still has its initial
    contents. *)
Lemma get_with_initial_default (st : State) :
  DEFAULT_CONFIG st = initial_default ->
  match stored st with
  | Some (Json config) =>
      if Str.eqb (ip config) (lit "192.168.192.168")
      then get st = (saveConfig st (Config initial_default), Config initial_default)
      else get st = (st, Config config)
  | Some (Other v) =>
      if is_old_host (ip_of (value_of v))
      then get st = (saveConfig st (Config initial_default), Config initial_default)
      else get st = (st, value_of v)
  | _ => get st = (st, Config initial_default)
  end.
Proof.
  intros Hd. unfold get, getConfig, stored.
  destruct (localStorage st !! STORAGE_KEY) as [[config| |v]|];
    cbn [parsed ip_of is_old_host];
    [destruct (Str.eqb (ip config) (lit "192.168.192.168"))
    | | destruct (is_old_host (ip_of (value_of v))) | ];
    cbn [deref saveConfig DEFAULT_CONFIG]; now rewrite ?Hd.
Qed.

(** [setPrinterIp] on an empty store writes into the default object. *)
Lemma setPrinterIp_on_empty (new_ip : jsstring) :
  setPrinterIp (start ∅) new_ip
  = {| DEFAULT_CONFIG := {| ip := new_ip; port := 9100 |};
       localStorage := {[ STORAGE_KEY := Json {| ip := new_ip; port := 9100 |} ]} |}.
Proof.
  unfold setPrinterIp, setPrinterIp_call, getConfig, start. cbn [localStorage].
  rewrite lookup_empty. unfold assign, saveConfig. cbn.
  now rewrite insert_empty.
Qed.

End StoreFacts.

(** C5, counterexample: with [example_stored] in the store, saving the host
    "999.999.999.999" with port 70000 fails no validation and replaces the
    stored endpoint, and so do [setPrinterIp] with that host and
    [setPrinterPort] with that port; both values are ones the validators
    reject. *)
Lemma C5_invalid_endpoint_is_stored :
  ConfigStore.isValidIp (JS.lit "999.999.999.999") = false
  /\ ConfigStore.isValidPort 70000 = false
  /\ ConfigStore.stored
       (ConfigStore.saveConfig
          (ConfigStore.start {[ ConfigStore.STORAGE_KEY := ConfigStore.Json example_stored ]})
          (ConfigStore.Config
             {| ConfigStore.ip := JS.lit "999.999.999.999";
                ConfigStore.port := 70000 |}))
     = Some (ConfigStore.Json
               {| ConfigStore.ip := JS.lit "999.999.999.999";
                  ConfigStore.port := 70000 |})
  /\ ConfigStore.stored
       (ConfigStore.setPrinterIp
          (ConfigStore.start {[ ConfigStore.STORAGE_KEY := ConfigStore.Json example_stored ]})
          (JS.lit "999.999.999.999"))
     = Some (ConfigStore.Json
               {| ConfigStore.ip := JS.lit "999.999.999.999";
                  ConfigStore.port := 9100 |})
  /\ ConfigStore.stored
       (ConfigStore.setPrinterPort
          (ConfigStore.start {[ ConfigStore.STORAGE_KEY := ConfigStore.Json example_stored ]})
          70000)
     = Some (ConfigStore.Json
               {| ConfigStore.ip := JS.lit "10.0.0.5"; ConfigStore.port := 70000 |}).
Proof.
  split; [reflexivity|]. split; [reflexivity|]. split; [|split].
  - apply stored_saveConfig.
  - unfold ConfigStore.setPrinterIp, ConfigStore.setPrinterIp_call,
      ConfigStore.getConfig, ConfigStore.start.
    cbn [ConfigStore.localStorage]. rewrite lookup_singleton_eq.
    cbn [ConfigStore.parsed ConfigStore.ip_of ConfigStore.is_old_host].
    change (Str.eqb (ConfigStore.ip example_stored) (JS.lit "192.168.192.168"))
      with false.
    cbn [ConfigStore.assign fst]. apply stored_saveConfig.
  - unfold ConfigStore.setPrinterPort, ConfigStore.setPrinterPort_call,
      ConfigStore.getConfig, ConfigStore.start.
    cbn [ConfigStore.localStorage]. rewrite lookup_singleton_eq.
    cbn [ConfigStore.parsed ConfigStore.ip_of ConfigStore.is_old_host].
    change (Str.eqb (ConfigStore.ip example_stored) (JS.lit "192.168.192.168"))
      with false.
    cbn [ConfigStore.assign fst]. apply stored_saveConfig.
Qed.

(** C5, amended: the store's [saveConfig] validates nothing: whatever
    endpoint it is given is what is stored afterwards. Validation is the
    caller's: [handleSaveIp] of the settings dialog rejects every host that
    fails [isValidIp] (a dotted quad of octets 0 to 255; "999.999.999.999"
    fails, and so does every host name) and leaves the store as it was;
    [isValidPort] accepts exactly the ports 1 to 65535. *)
Theorem C5_validation_is_the_callers
  (st : ConfigStore.State) (config : ConfigStore.PrinterIpConfig)
  (newIp : JS.jsstring) (p : Z) :
  ConfigStore.stored (ConfigStore.saveConfig st (ConfigStore.Config config))
  = Some (ConfigStore.Json config)
  /\ (ConfigStore.isValidIp (Str.trim newIp) = false ->
      exists message,
        ConfigStore.handleSaveIp st newIp = (st, ConfigStore.Failed message))
  /\ ConfigStore.isValidIp (JS.lit "999.999.999.999") = false
  /\ ConfigStore.isValidIp (JS.lit "localhost") = false
  /\ (ConfigStore.isValidPort p = true <-> 1 <= p <= 65535).
Proof.
  split; [apply stored_saveConfig|].
  split; [apply handleSaveIp_rejects|].
  split; [reflexivity|]. split; [reflexivity|].
  apply isValidPort_range.
Qed.

(** [C5_validation_is_the_callers] at work: the dialog rejects
    " 999.999.999.999 " and the store keeps [example_stored]. *)
Lemma C5_validation_is_the_callers_witness :
  exists message,
    ConfigStore.handleSaveIp
      (ConfigStore.start {[ ConfigStore.STORAGE_KEY := ConfigStore.Json example_stored ]})
      (JS.lit " 999.999.999.999 ")
    = (ConfigStore.start {[ ConfigStore.STORAGE_KEY := ConfigStore.Json example_stored ]},
       ConfigStore.Failed message).
Proof.
  exact (proj1 (proj2
    (C5_validation_is_the_callers
       (ConfigStore.start {[ ConfigStore.STORAGE_KEY := ConfigStore.Json example_stored ]})
       example_stored (JS.lit " 999.999.999.999 ") 9100)) eq_refl).
Defined.

(** C6, the failing run: a new service over an empty store; the operator
    enters 192.168.192.168. [setPrinterIp] writes that host into the
    object [getConfig] returned, which is the service's default object
    itself. The next [get()] finds the stale host stored, "migrates" to the
    default object, and so stores and returns 192.168.192.168 again, not
    192.168.192.12. *)
Theorem C6_migration_returns_stale_host :
  ConfigStore.get
    (ConfigStore.setPrinterIp (ConfigStore.start ∅) (JS.lit "192.168.192.168"))
  = ({| ConfigStore.DEFAULT_CONFIG :=
          {| ConfigStore.ip := JS.lit "192.168.192.168"; ConfigStore.port := 9100 |};
        ConfigStore.localStorage :=
          {[ ConfigStore.STORAGE_KEY :=
               ConfigStore.Json {| ConfigStore.ip := JS.lit "192.168.192.168";
                                   ConfigStore.port := 9100 |} ]} |},
     ConfigStore.Config
       {| ConfigStore.ip := JS.lit "192.168.192.168"; ConfigStore.port := 9100 |}).
Proof.
  rewrite setPrinterIp_on_empty.
  unfold ConfigStore.get, ConfigStore.getConfig.
  cbn [ConfigStore.localStorage]. rewrite lookup_singleton_eq.
  cbn [ConfigStore.parsed ConfigStore.ip_of ConfigStore.is_old_host ConfigStore.ip].
  change (Str.eqb (JS.lit "192.168.192.168") (JS.lit "192.168.192.168")) with true.
  cbn [ConfigStore.deref ConfigStore.saveConfig ConfigStore.DEFAULT_CONFIG
       ConfigStore.localStorage].
  unfold ConfigStore.saveConfig. cbn [ConfigStore.DEFAULT_CONFIG ConfigStore.localStorage].
  now rewrite insert_singleton_eq.
Qed.

(** ** Determinism of format and encode *)

Section Determinism.
Import JS Model Net.

(** Whatever the socket does, the only bytes [sendToPrinter] writes are the
    buffer it was given. *)
Lemma embedded_wire_own (ip : jsstring) (port : Z) (data : list Z)
  (evs : list Event) :
  Forall (eq data) (wire (Embedded.sendToPrinter ip port data evs)).
Proof.
  apply (run_invariant (Embedded.step ip port data)
           (fun d => Forall (eq data) (wire d))); [constructor|].
  intros d ev H.
  destruct ev as [|[e|]| | | |];
    unfold Embedded.step, Embedded.on_connect, Embedded.on_write,
      Embedded.on_timer, Embedded.on_error, Embedded.on_timeout,
      Embedded.on_close, settle;
    destruct (isResolved d), (dataWritten d), (timers d); cbn; auto;
    apply Forall_app; split; auto.
Qed.

Lemma written_is_buffer (ip : jsstring) (port : Z) (data chunk : list Z)
  (evs : list Event) :
  In chunk (wire (Embedded.sendToPrinter ip port data evs)) -> chunk = data.
Proof.
  intros H. pose proof (embedded_wire_own ip port data evs) as Hall.
  rewrite List.Forall_forall in Hall. symmetry. now apply Hall.
Qed.

(** Each 'connect' callback writes the buffer once, and nothing else is
    written. *)
Lemma wire_per_connect (ip : jsstring) (port : Z) (data : list Z)
  (evs : list Event) :
  wire (Embedded.sendToPrinter ip port data evs)
  = map (fun _ => data) (connects evs).
Proof.
  unfold Embedded.sendToPrinter.
  assert (H : forall d,
    wire (fold_left (Embedded.step ip port data) evs d)
    = wire d ++ map (fun _ => data) (connects evs)).
  { induction evs as [|ev evs IH]; intros d; cbn [fold_left].
    - cbn. now rewrite app_nil_r.
    - rewrite IH. destruct d as [r w s t wi de en].
      destruct ev as [|[e|]| | | |]; destruct r, w, t;
        cbn -[lit int_string]; rewrite <- ?app_assoc; reflexivity. }
  apply (H fresh).
Qed.

End Determinism.

(** C7, counterexample: the same report, without a [createdAt], formatted
    and encoded at midnight of 1970-01-01 and one day later: the buffers
    differ (in the "Date:" line). *)
Lemma C7_report_without_timestamp_follows_the_clock :
  Embedded.convertToESCPOS
    (Embedded.generateStatisticsContent DateFmt.utc 0 example_report)
  <> Embedded.convertToESCPOS
       (Embedded.generateStatisticsContent DateFmt.utc 86400000 example_report).
Proof.
  intros H. apply Str_eqb_eq in H. vm_compute in H. discriminate H.
Qed.

(** C7, amended: on one host, what is written for a ticket request is
    its formatted and encoded text, once per 'connect', whatever the clock
    and whatever else the socket does; so it is for a statistics report
    whose [createdAt] is not falsy. A report whose [createdAt] is absent
    or falsy (0, the empty text) is written as the same report stamped
    with the time of formatting would be. And the bytes depend on the
    host: its time zone decides the date and time printed. *)
Theorem C7_same_request_same_bytes
  (host : DateFmt.Host) (svc : Embedded.Service) (w : Embedded.World)
  (ticket : Model.TicketData) (type : JS.jsstring)
  (report : Model.ReportData) (c : DateFmt.Date) :
  Net.wire (Embedded.printTicket host svc w ticket type)
  = map (fun _ => Embedded.convertToESCPOS
                    (Embedded.generateTicketContent host ticket type))
      (connects (Embedded.socket_events w))
  /\ (stamped report = true ->
      Net.wire (Embedded.printStatisticsReport host svc w report)
      = map (fun _ => Embedded.convertToESCPOS
                        (Embedded.generateStatisticsContent host c report))
          (connects (Embedded.socket_events w)))
  /\ (stamped report = false -> Embedded.clock w <> 0 ->
      Net.wire (Embedded.printStatisticsReport host svc w report)
      = map (fun _ => Embedded.convertToESCPOS
                        (Embedded.generateStatisticsContent host c
                           (with_createdAt report
                              (Some (Model.Millis (Embedded.clock w))))))
          (connects (Embedded.socket_events w)))
  /\ Embedded.convertToESCPOS
       (Embedded.generateTicketContent DateFmt.utc example_booking
          (JS.lit "booking"))
     <> Embedded.convertToESCPOS
          (Embedded.generateTicketContent one_hour_east example_booking
             (JS.lit "booking")).
Proof.
  split; [apply wire_per_connect|].
  split; [|split].
  - intros Hs.
    assert (E : Embedded.generateStatisticsContent host (Embedded.clock w) report
                = Embedded.generateStatisticsContent host c report).
    { unfold Embedded.generateStatisticsContent,
        Embedded.generateStatisticsLines.
      unfold stamped in Hs.
      destruct (Model.rep_createdAt report) as [stamp|]; [|discriminate Hs].
      now rewrite Hs. }
    unfold Embedded.printStatisticsReport. cbv zeta.
    now rewrite wire_per_connect, E.
  - intros Hs Hc.
    assert (E : Embedded.generateStatisticsContent host (Embedded.clock w) report
                = Embedded.generateStatisticsContent host c
                    (with_createdAt report
                       (Some (Model.Millis (Embedded.clock w))))).
    { unfold Embedded.generateStatisticsContent,
        Embedded.generateStatisticsLines, Embedded.staff_table, with_createdAt.
      cbn [Model.rep_createdAt Model.stamp_truthy Model.stamp_time
           Model.periodLabel Model.totalSeatsBooked Model.totalSeatIncome
           Model.totalDayPassesSold Model.totalDayPassIncome Model.totalIncome
           Model.staffData Model.rep_createdBy].
      apply Z.eqb_neq in Hc. rewrite Hc. cbn [negb].
      unfold stamped in Hs.
      destruct (Model.rep_createdAt report) as [stamp|];
        [now rewrite Hs | reflexivity]. }
    unfold Embedded.printStatisticsReport. cbv zeta.
    now rewrite wire_per_connect, E.
  - intros H. apply Str_eqb_eq in H. vm_compute in H. discriminate H.
Qed.

(** [C7_same_request_same_bytes] at work: the stamped report formatted a
    day after midnight is written as it would be at midnight. *)
Lemma C7_same_request_same_bytes_witness :
  Net.wire (Embedded.printStatisticsReport DateFmt.utc (Embedded.new_service None)
              next_day stamped_report)
  = map (fun _ => Embedded.convertToESCPOS
                    (Embedded.generateStatisticsContent DateFmt.utc 0
                       stamped_report))
      (connects (Embedded.socket_events next_day)).
Proof.
  exact (proj1 (proj2
    (C7_same_request_same_bytes DateFmt.utc (Embedded.new_service None)
       next_day example_booking (JS.lit "booking") stamped_report 0)) eq_refl).
Defined.

(** ** The printed seat count *)

(** C8, the failing runs: the formatter of electron/main.ts prints the seat
    count of a booking as received. A count of 0 prints "Sieges: 0" and
    prices zero seats; an absent count prints "Sieges: undefined" and
    "Prix base: NaN TND". The formatter of embeddedPrinterService.ts prints
    "Sieges: 1" for both. *)
Theorem C8_main_prints_seat_count_as_received :
  (In (JS.lit "Sieges: 0")
      (ElectronMain.generateTicketLines DateFmt.utc
         (booking_with_seats (Some 0%float)) (JS.lit "booking"))
   /\ In (JS.lit "Prix base: 0.00 TND")
      (ElectronMain.generateTicketLines DateFmt.utc
         (booking_with_seats (Some 0%float)) (JS.lit "booking")))
  /\ (In (JS.lit "Sieges: undefined")
      (ElectronMain.generateTicketLines DateFmt.utc
         (booking_with_seats None) (JS.lit "booking"))
   /\ In (JS.lit "Prix base: NaN TND")
      (ElectronMain.generateTicketLines DateFmt.utc
         (booking_with_seats None) (JS.lit "booking")))
  /\ (In (JS.lit "Sieges: 1")
      (Embedded.generateTicketLines DateFmt.utc
         (booking_with_seats (Some 0%float)) (JS.lit "booking"))
   /\ In (JS.lit "Sieges: 1")
      (Embedded.generateTicketLines DateFmt.utc
         (booking_with_seats None) (JS.lit "booking"))).
Proof.
  repeat split; vm_compute; tauto.
Qed.

Section SeatCount.
Import JS Model.

Lemma digits2_pos_bound (m : positive) :
  Z.pos m < 2 ^ Z.pos (SpecFloat.digits2_pos m).
Proof.
  induction m as [m IH|m IH|]; cbn [SpecFloat.digits2_pos].
  - rewrite Pos2Z.inj_succ.
    pose proof (Z.pow_succ_r 2 (Z.pos (SpecFloat.digits2_pos m))). lia.
  - rewrite Pos2Z.inj_succ.
    pose proof (Z.pow_succ_r 2 (Z.pos (SpecFloat.digits2_pos m))). lia.
  - reflexivity.
Qed.

Lemma magnitude_quotient_nonneg (m : positive) (e : Z) :
  0 <= magnitude_num m e / magnitude_den e.
Proof.
  unfold magnitude_num, magnitude_den.
  destruct (0 <=? e) eqn:He.
  - apply Z.leb_le in He. rewrite Z.div_1_r.
    apply Z.mul_nonneg_nonneg; [lia|]. apply Z.pow_nonneg; lia.
  - apply Z.leb_gt in He. apply Z.div_pos; [lia|].
    apply Z.pow_pos_nonneg; lia.
Qed.

(** The mantissa of a float fits in 53 bits. *)
Lemma valid_mantissa (x : number) (s : bool) (m : positive) (e : Z) :
  Prim2SF x = S754_finite s m e -> Z.pos m < 2 ^ 53.
Proof.
  intros E. pose proof (Prim2SF_valid x) as Hv. rewrite E in Hv.
  cbn in Hv. unfold SpecFloat.bounded, SpecFloat.canonical_mantissa,
    SpecFloat.fexp in Hv.
  apply andb_true_iff in Hv as [Hc _]. apply Z.eqb_eq in Hc.
  pose proof (digits2_pos_bound m) as Hm.
  assert (Z.pos (SpecFloat.digits2_pos m) <= 53) by (unfold prec in Hc; lia).
  eapply Z.lt_le_trans; [exact Hm|]. apply Z.pow_le_mono_r; lia.
Qed.

Lemma finite_not_nan (x : number) (s : bool) (m : positive) (e : Z) :
  Prim2SF x = S754_finite s m e -> is_nan x = false.
Proof.
  intros E. unfold is_nan. rewrite FloatAxioms.eqb_spec, E.
  unfold SFeqb, SFcompare. rewrite Z.compare_refl.
  change (Pos.compare_cont Eq m m) with (Pos.compare m m).
  rewrite Pos.compare_refl. now destruct s.
Qed.

Lemma finite_not_zero (x : number) (s : bool) (m : positive) (e : Z) :
  Prim2SF x = S754_finite s m e -> is_zero x = false.
Proof.
  intros E. unfold is_zero. rewrite FloatAxioms.eqb_spec, E.
  change (Prim2SF zero) with (S754_zero false). now destruct s.
Qed.

Lemma Prim2SF_one : Prim2SF 1%float = S754_finite false 4503599627370496 (-52).
Proof. reflexivity. Qed.

(** [Math.max(1, x || 1)] for a float that denotes a positive integer. *)
Lemma seat_count_of_positive_integer (x : number) (n : Z) :
  integer_value x = Some n -> 0 < n ->
  Math_max 1%float (or_default (Some x) 1%float) = x
  \/ (Math_max 1%float (or_default (Some x) 1%float) = 1%float /\ n = 1).
Proof.
  unfold integer_value. intros Hn Hpos.
  destruct (Prim2SF x) as [s|s| |s m e] eqn:E; try discriminate.
  { injection Hn as <-. lia. }
  pose proof (valid_mantissa x s m e E) as Hm.
  destruct (magnitude_num m e mod magnitude_den e =? 0) eqn:Hmod;
    [|discriminate].
  injection Hn as Hn.
  pose proof (magnitude_quotient_nonneg m e) as Hq.
  destruct s; [lia|].
  unfold or_default, truthy.
  rewrite (finite_not_nan x _ _ _ E), (finite_not_zero x _ _ _ E). cbn [orb negb].
  unfold Math_max. rewrite (finite_not_nan x _ _ _ E).
  change (is_nan 1%float) with false. cbn [orb].
  rewrite !FloatAxioms.ltb_spec, E, Prim2SF_one. unfold SFltb, SFcompare.
  destruct (Z.compare_spec (-52) e) as [He|He|He].
  - subst e. rewrite Z.compare_refl.
    unfold magnitude_num, magnitude_den in Hn.
    change (0 <=? -52) with false in Hn. cbv iota in Hn.
    change (2 ^ (- -52)) with 4503599627370496 in Hn.
    change (Pos.compare_cont Eq 4503599627370496 m)
      with (Pos.compare 4503599627370496 m).
    destruct (Pos.compare_spec 4503599627370496 m) as [Hc|Hc|Hc].
    + subst m. rewrite Pos.compare_refl. right. split; [reflexivity|].
      subst n. reflexivity.
    + now left.
    + exfalso. apply Pos2Z.pos_lt_pos in Hc.
      assert (Hz : Z.pos m / 4503599627370496 = 0)
        by (apply Z.div_small; split; [apply Pos2Z.is_nonneg|exact Hc]).
      rewrite Hz in Hn. clear - Hn Hpos. lia.
  - now left.
  - exfalso. unfold magnitude_num, magnitude_den in Hn.
    assert (He' : (0 <=? e) = false) by (apply Z.leb_gt; lia).
    rewrite He' in Hn.
    assert (Hz : Z.pos m / 2 ^ (- e) = 0).
    { apply Z.div_small. split; [lia|].
      eapply Z.lt_le_trans; [exact Hm|]. apply Z.pow_le_mono_r; lia. }
    rewrite Hz in Hn. clear - Hn Hpos. lia.
Qed.

Lemma toString_of_positive_integer (x : number) (n : Z) :
  integer_value x = Some n -> 0 < n <= 2 ^ 53 ->
  Number_toString x = digits n.
Proof.
  intros Hn [Hpos Hle]. unfold Number_toString. rewrite Hn.
  unfold integer_value in Hn.
  destruct (Prim2SF x) as [s|s| |s m e] eqn:E; try discriminate.
  { injection Hn as <-. lia. }
  destruct (magnitude_num m e mod magnitude_den e =? 0); [|discriminate].
  injection Hn as Hn.
  pose proof (magnitude_quotient_nonneg m e) as Hq.
  destruct s; [lia|].
  rewrite Z.abs_eq by lia.
  assert (Hb : (n <=? 2 ^ 53) = true) by (apply Z.leb_le; lia).
  now rewrite Hb.
Qed.

(** [Math.max(1, x || 1)] for a float that is zero or negative. *)
Lemma seat_count_of_non_positive (x : number) :
  (x <=? 0)%float = true ->
  Math_max 1%float (or_default (Some x) 1%float) = 1%float.
Proof.
  rewrite FloatAxioms.leb_spec. change (Prim2SF 0%float) with (S754_zero false).
  intros Hle. unfold or_default, truthy, is_nan, is_zero, Math_max.
  destruct (Prim2SF x) as [s|s| |s m e] eqn:E.
  - rewrite !FloatAxioms.eqb_spec, E. change (Prim2SF zero) with (S754_zero false).
    cbn. reflexivity.
  - destruct s; [|discriminate Hle].
    rewrite !FloatAxioms.eqb_spec, E. change (Prim2SF zero) with (S754_zero false).
    cbn [SFeqb SFcompare negb orb].
    unfold is_nan. rewrite !FloatAxioms.eqb_spec, !FloatAxioms.ltb_spec, E, Prim2SF_one.
    reflexivity.
  - discriminate Hle.
  - destruct s; [|discriminate Hle].
    assert (Hnan : (x =? x)%float = true).
    { pose proof (finite_not_nan x _ _ _ E) as H. unfold is_nan in H.
      now destruct (x =? x)%float. }
    assert (Hzero : (x =? zero)%float = false)
      by (apply (finite_not_zero x _ _ _ E)).
    rewrite Hnan, Hzero. cbn [negb orb].
    unfold is_nan. rewrite Hnan. change (1 =? 1)%float with true. cbn [negb orb].
    rewrite !FloatAxioms.ltb_spec, E, Prim2SF_one. reflexivity.
Qed.

End SeatCount.

(** The seat count of a booking, as embeddedPrinterService.ts prints it:
    a count that is a positive integer (up to 2^53) is printed as it is;
    an absent, zero or negative count is printed as 1. *)
Theorem embedded_booking_seat_count (h : DateFmt.Host) (data : Model.TicketData) :
  (forall x n,
      Model.seatNumber data = Some x -> JS.integer_value x = Some n ->
      0 < n <= 2 ^ 53 ->
      In (JS.lit "Sieges: " ++ JS.digits n)
         (Embedded.generateTicketLines h data (JS.lit "booking")))
  /\ (Model.seatNumber data = None
      \/ (exists x, Model.seatNumber data = Some x /\ (x <=? 0)%float = true) ->
      In (JS.lit "Sieges: 1")
         (Embedded.generateTicketLines h data (JS.lit "booking"))).
Proof.
  assert (Hline : forall s,
            JS.Number_toString (Embedded.seatCount data) = s ->
            In (JS.lit "Sieges: " ++ s)
               (Embedded.generateTicketLines h data (JS.lit "booking"))).
  { intros s <-. unfold Embedded.generateTicketLines.
    change (Str.eqb (JS.lit "booking") (JS.lit "booking")) with true.
    cbv iota zeta. unfold Embedded.booking_lines.
    apply in_or_app. right. apply in_or_app. left.
    apply in_or_app. right. apply in_or_app. right.
    apply in_or_app. left. right. left. reflexivity. }
  split.
  - intros x n Hx Hn Hrange. apply Hline. unfold Embedded.seatCount. rewrite Hx.
    destruct (seat_count_of_positive_integer x n Hn (proj1 Hrange))
      as [-> | [-> ->]].
    + now apply toString_of_positive_integer.
    + reflexivity.
  - intros [Hx | [x [Hx Hle]]]; apply Hline; unfold Embedded.seatCount;
      rewrite Hx.
    + reflexivity.
    + now rewrite seat_count_of_non_positive.
Qed.

(** [embedded_booking_seat_count] at work: seven seats print as 7, an
    absent count prints as 1. *)
Lemma embedded_booking_seat_count_witness :
  In (JS.lit "Sieges: 7")
     (Embedded.generateTicketLines DateFmt.utc
        (booking_with_seats (Some 7%float)) (JS.lit "booking"))
  /\ In (JS.lit "Sieges: 1")
     (Embedded.generateTicketLines DateFmt.utc
        (booking_with_seats None) (JS.lit "booking")).
Proof.
  split.
  - refine (proj1 (embedded_booking_seat_count DateFmt.utc
                     (booking_with_seats (Some 7%float)))
              7%float 7 eq_refl eq_refl _).
    lia.
  - exact (proj2 (embedded_booking_seat_count DateFmt.utc (booking_with_seats None))
             (or_introl eq_refl)).
Defined.

(** What the formatter prints of a number or of a date has no line feed. *)
Section OneLine.
Import JS.

Lemma one_line_app (a b : jsstring) :
  one_line (a ++ b) = one_line a && one_line b.
Proof. apply forallb_app. Qed.

Lemma one_line_firstn (n : nat) (s : jsstring) :
  one_line s = true -> one_line (firstn n s) = true.
Proof.
  revert n. induction s as [|c s IH]; intros [|n] H; cbn in *; auto.
  apply andb_true_iff in H as [Hc Hs]. rewrite Hc. cbn. now apply IH.
Qed.

Lemma one_line_skipn (n : nat) (s : jsstring) :
  one_line s = true -> one_line (skipn n s) = true.
Proof.
  revert n. induction s as [|c s IH]; intros [|n] H; cbn in *; auto.
  apply andb_true_iff in H as [Hc Hs]. now apply IH.
Qed.

Lemma one_line_repeat (c : Z) (n : nat) :
  c <> LF -> one_line (repeat c n) = true.
Proof.
  intros Hc. apply forallb_forall. intros x Hx.
  apply repeat_spec in Hx. subst x. apply negb_true_iff, Z.eqb_neq, Hc.
Qed.

Lemma one_line_uint_digits (u : Decimal.uint) : one_line (uint_digits u) = true.
Proof. induction u; cbn; auto. Qed.

Lemma one_line_digits (n : Z) : one_line (digits n) = true.
Proof. apply one_line_uint_digits. Qed.

Lemma one_line_two (n : Z) : one_line (DateFmt.two n) = true.
Proof.
  unfold DateFmt.two. destruct (n <? 10); [cbn|]; apply one_line_digits.
Qed.

Ltac one_line_parts :=
  repeat first
    [ rewrite one_line_app
    | rewrite one_line_digits
    | rewrite one_line_two
    | rewrite one_line_firstn by one_line_parts
    | rewrite one_line_skipn by one_line_parts
    | rewrite one_line_repeat by discriminate
    | apply andb_true_iff; split
    | reflexivity ].

Lemma one_line_layout (s n k : Z) : one_line (layout s n k) = true.
Proof.
  unfold layout, zeros.
  pose proof (one_line_digits s) as Hd.
  destruct ((k <=? n) && (n <=? 21)); [one_line_parts|].
  destruct ((0 <? n) && (n <=? 21)); [one_line_parts|].
  destruct ((-6 <? n) && (n <=? 0)); [one_line_parts|].
  destruct (digits s) as [|d [|d' r]]; [reflexivity| |].
  - cbn in Hd. rewrite andb_true_r in Hd.
    destruct (n - 1 <? 0); cbn [app]; cbn [one_line forallb];
      rewrite Hd; cbn; apply one_line_digits.
  - change (d :: d' :: r) with ([d] ++ d' :: r) in Hd.
    rewrite one_line_app in Hd. apply andb_true_iff in Hd as [H1 H2].
    destruct (n - 1 <? 0); rewrite !one_line_app, H1, H2; cbn;
      apply one_line_digits.
Qed.

Lemma one_line_shortest (x : number) : one_line (shortest x) = true.
Proof.
  unfold shortest. destruct (Prim2SF x) as [| | |s m e]; try reflexivity.
  destruct (shortest_decimal m e) as [[d n] k].
  rewrite one_line_app, one_line_layout. now destruct s.
Qed.

Lemma one_line_Number_toString (x : number) :
  one_line (Number_toString x) = true.
Proof.
  unfold Number_toString.
  pose proof (one_line_shortest x) as Hs.
  destruct (Prim2SF x) as [|[|]| |s m e]; try reflexivity.
  destruct (integer_value x) as [n|]; [|exact Hs].
  destruct (Z.abs n <=? 2 ^ 53); [|exact Hs].
  rewrite one_line_app, one_line_digits. now destruct s.
Qed.

Lemma one_line_fixed_digits (fd : nat) (n : Z) :
  one_line (fixed_digits fd n) = true.
Proof.
  unfold fixed_digits. destruct fd as [|fd]; [apply one_line_digits|].
  one_line_parts.
Qed.

Lemma one_line_toFixed (fd : nat) (x : number) : one_line (toFixed fd x) = true.
Proof.
  unfold toFixed.
  pose proof (one_line_Number_toString x) as Hs.
  destruct (Prim2SF x) as [| | |s m e]; try exact Hs.
  - apply one_line_fixed_digits.
  - cbv zeta. destruct (_ <=? _); [exact Hs|].
    rewrite one_line_app, one_line_fixed_digits. now destruct s.
Qed.

Lemma one_line_date (h : DateFmt.Host) (t : DateFmt.Date) :
  one_line (DateFmt.toLocaleDateString h t) = true.
Proof.
  unfold DateFmt.toLocaleDateString.
  destruct (DateFmt.civil _) as [[y m] d]. one_line_parts.
Qed.

Lemma one_line_time (h : DateFmt.Host) (t : DateFmt.Date) :
  one_line (DateFmt.toLocaleTimeString h t) = true.
Proof. unfold DateFmt.toLocaleTimeString. cbv zeta. one_line_parts. Qed.

End OneLine.

(** How the lines of a text follow from its parts. *)
Section Lines.
Import JS Model.

Lemma text_lines_cons (c : Z) (s : jsstring) :
  text_lines (c :: s)
  = if c =? LF then [] :: text_lines s
    else (c :: hd [] (text_lines s)) :: tl (text_lines s).
Proof.
  change (text_lines (c :: s))
    with (if c =? LF then [] :: text_lines s
          else match text_lines s with
               | l :: rest => (c :: l) :: rest
               | [] => [[c]]
               end).
  destruct (c =? LF); [reflexivity|].
  assert (H : text_lines s <> []).
  { destruct s as [|x s]; [discriminate|].
    change (text_lines (x :: s))
      with (if x =? LF then [] :: text_lines s
            else match text_lines s with
                 | l :: rest => (x :: l) :: rest
                 | [] => [[x]]
                 end).
    destruct (x =? LF); [discriminate|]. now destruct (text_lines s). }
  destruct (text_lines s); [now destruct H|reflexivity].
Qed.

Lemma text_lines_parts (s : jsstring) :
  text_lines s = hd [] (text_lines s) :: inner_lines s.
Proof.
  unfold inner_lines. destruct s as [|c s]; [reflexivity|].
  rewrite text_lines_cons. now destruct (c =? LF).
Qed.

(** A text put in front of another without a line feed lengthens its first
    line. *)
Lemma text_lines_prefix (a b : jsstring) :
  one_line a = true ->
  text_lines (a ++ b) = (a ++ hd [] (text_lines b)) :: inner_lines b.
Proof.
  induction a as [|c a IH]; intros H; [apply text_lines_parts|].
  cbn in H. apply andb_true_iff in H as [Hc Ha].
  apply negb_true_iff in Hc.
  cbn [app]. rewrite text_lines_cons, Hc, (IH Ha). reflexivity.
Qed.

Lemma text_lines_one_line (a : jsstring) :
  one_line a = true -> text_lines a = [a].
Proof.
  intros H. rewrite <- (app_nil_r a) at 1.
  rewrite (text_lines_prefix a [] H). cbn. now rewrite app_nil_r.
Qed.

(** Two texts joined by a line feed have the lines of both. *)
Lemma text_lines_sep (a b : jsstring) :
  text_lines (a ++ LF :: b) = text_lines a ++ text_lines b.
Proof.
  induction a as [|c a IH]; [reflexivity|].
  cbn [app]. rewrite !text_lines_cons, IH.
  destruct (c =? LF); [reflexivity|].
  rewrite (text_lines_parts a). reflexivity.
Qed.

Lemma text_lines_join (p : jsstring) (parts : list jsstring) :
  text_lines (join [LF] (p :: parts)) = concat (map text_lines (p :: parts)).
Proof.
  revert p. induction parts as [|q parts IH]; intros p.
  - cbn. now rewrite app_nil_r.
  - change (join [LF] (p :: q :: parts)) with (p ++ LF :: join [LF] (q :: parts)).
    rewrite text_lines_sep, IH. reflexivity.
Qed.

End Lines.

Ltac one_line_text :=
  repeat first
    [ rewrite one_line_app
    | rewrite one_line_toFixed
    | rewrite one_line_date
    | rewrite one_line_time
    | reflexivity ].

(** Lines that start with "Sieges: ", part by part. *)
Section DayPass.
Import JS Model.
Variable data : TicketData.

Lemma injected_join (p : jsstring) (parts : list jsstring) :
  Forall (seat_lines_are_injected data) (p :: parts) ->
  seat_lines_are_injected data (join [LF] (p :: parts)).
Proof.
  intros H line Hin Hs. rewrite text_lines_join in Hin.
  apply in_concat in Hin as (ls & Hls & Hin).
  apply in_map_iff in Hls as (l & <- & Hl).
  rewrite List.Forall_forall in H. exact (H l Hl line Hin Hs).
Qed.

Lemma injected_fixed (l : jsstring) :
  one_line l = true -> Str.startsWith (lit "Sieges: ") l = false ->
  seat_lines_are_injected data l.
Proof.
  intros H1 H2 line Hin Hs. rewrite (text_lines_one_line l H1) in Hin.
  destruct Hin as [<-|[]]. congruence.
Qed.

Lemma injected_field (prefix field : jsstring) :
  one_line prefix = true ->
  (forall x, Str.startsWith (lit "Sieges: ") (prefix ++ x) = false) ->
  (forall line, In line (inner_lines field) -> from_free_text data line) ->
  seat_lines_are_injected data (prefix ++ field).
Proof.
  intros H1 H2 H3 line Hin Hs. rewrite (text_lines_prefix _ _ H1) in Hin.
  destruct Hin as [<-|Hin]; [|now apply H3]. rewrite H2 in Hs. discriminate.
Qed.

End DayPass.

Ltac injected_lines :=
  repeat first
    [ apply List.Forall_nil
    | apply List.Forall_cons;
        [first [ apply injected_fixed; [solve [one_line_text]|reflexivity]
               | apply injected_field;
                   [reflexivity|intros; reflexivity|unfold from_free_text] ]|]
    | apply List.Forall_app; split
    | match goal with
      | |- Forall _ (Embedded.push_if ?c _) =>
          destruct c; cbn [Embedded.push_if]
      | |- Forall _ (match ?o with Some _ => _ | None => _ end) =>
          destruct o eqn:?
      end ].

Ltac from_the_request :=
  intros line Hin;
  try match goal with
      | E : Model.destinationName _ = _ |- _ => rewrite E
      end;
  auto.

Lemma embedded_daypass_injected (h : DateFmt.Host) (data : Model.TicketData) :
  seat_lines_are_injected data
    (Embedded.generateTicketContent h data (JS.lit "daypass")).
Proof.
  unfold Embedded.generateTicketContent, Embedded.generateTicketLines.
  change (Str.eqb (JS.lit "daypass") (JS.lit "booking")) with false.
  change (Str.eqb (JS.lit "daypass") (JS.lit "daypass")) with true.
  cbv iota zeta.
  unfold Embedded.header, Embedded.footer, Embedded.daypass_lines.
  cbn [app]. apply injected_join.
  injected_lines; from_the_request.
Qed.

Lemma main_daypass_injected (h : DateFmt.Host) (data : Model.TicketData) :
  seat_lines_are_injected data
    (ElectronMain.generateTicketContent h data (JS.lit "daypass")).
Proof.
  unfold ElectronMain.generateTicketContent, ElectronMain.generateTicketLines.
  change (Str.eqb (JS.lit "daypass") (JS.lit "booking")) with false.
  change (Str.eqb (JS.lit "daypass") (JS.lit "daypass")) with true.
  cbv iota zeta.
  unfold Embedded.header, Embedded.footer, ElectronMain.daypass_lines.
  cbn [app]. apply injected_join.
  injected_lines; from_the_request.
Qed.

Lemma no_seat_line_on_one_line (data : Model.TicketData) (content : JS.jsstring) :
  seat_lines_are_injected data content ->
  free_text_on_one_line data = true ->
  Forall (fun line => Str.startsWith (JS.lit "Sieges: ") line = false)
    (text_lines content).
Proof.
  intros H Hone. apply List.Forall_forall. intros line Hin.
  destruct (Str.startsWith (JS.lit "Sieges: ") line) eqn:Hs; [|reflexivity].
  exfalso. specialize (H line Hin Hs).
  unfold free_text_on_one_line in Hone.
  apply andb_true_iff in Hone as [Hone Hagent].
  apply andb_true_iff in Hone as [Hplate Hdest].
  unfold from_free_text, inner_lines in H.
  rewrite (text_lines_one_line _ Hplate), (text_lines_one_line _ Hagent) in H.
  destruct (Model.destinationName data) as [d|];
    [rewrite (text_lines_one_line _ Hdest) in H|]; cbn in H; tauto.
Qed.

(** A day-pass ticket prints no seat count of its own, in
    embeddedPrinterService.ts and in electron/main.ts: a line of the
    content that starts with "Sieges: " is a line that follows a line feed
    inside the plate, the destination or the agent of the request, which are
    copied as they are; when these three have no line feed no line of the
    content starts with "Sieges: "; the content does not depend on the seat
    count of the request; and a plate that ends in a line feed and
    "Sieges: 9" does print the line "Sieges: 9". *)
Theorem daypass_prints_no_seat_count
  (h : DateFmt.Host) (data : Model.TicketData) (seats : option JS.number) :
  (seat_lines_are_injected data
     (Embedded.generateTicketContent h data (JS.lit "daypass"))
   /\ seat_lines_are_injected data
        (ElectronMain.generateTicketContent h data (JS.lit "daypass")))
  /\ (free_text_on_one_line data = true ->
      Forall (fun line => Str.startsWith (JS.lit "Sieges: ") line = false)
        (text_lines (Embedded.generateTicketContent h data (JS.lit "daypass")))
      /\ Forall (fun line => Str.startsWith (JS.lit "Sieges: ") line = false)
           (text_lines
              (ElectronMain.generateTicketContent h data (JS.lit "daypass"))))
  /\ (Embedded.generateTicketContent h (Model.with_seatNumber data seats)
        (JS.lit "daypass")
      = Embedded.generateTicketContent h data (JS.lit "daypass")
      /\ ElectronMain.generateTicketContent h (Model.with_seatNumber data seats)
           (JS.lit "daypass")
         = ElectronMain.generateTicketContent h data (JS.lit "daypass"))
  /\ In (JS.lit "Sieges: 9")
       (text_lines
          (Embedded.generateTicketContent h
             (with_licensePlate data
                (JS.lit "123 TUN 4567" ++ [JS.LF] ++ JS.lit "Sieges: 9"))
             (JS.lit "daypass"))).
Proof.
  pose proof (embedded_daypass_injected h data) as He.
  pose proof (main_daypass_injected h data) as Hm.
  split; [now split|]. split; [|split].
  - intros Hone. split; now apply no_seat_line_on_one_line with (data := data).
  - split; reflexivity.
  - unfold Embedded.generateTicketContent, Embedded.generateTicketLines.
    change (Str.eqb (JS.lit "daypass") (JS.lit "booking")) with false.
    change (Str.eqb (JS.lit "daypass") (JS.lit "daypass")) with true.
    cbv iota zeta.
    unfold Embedded.header, Embedded.footer, Embedded.daypass_lines.
    cbn [app]. rewrite text_lines_join. cbn [map concat].
    do 7 (apply in_or_app; right). apply in_or_app; left.
    cbn [Model.licensePlate with_licensePlate].
    rewrite (text_lines_prefix (JS.lit "Vehicule: ") _ eq_refl).
    right. vm_compute. left. reflexivity.
Qed.

(** [daypass_prints_no_seat_count] at work on the example request. *)
Lemma daypass_prints_no_seat_count_witness :
  Forall (fun line => Str.startsWith (JS.lit "Sieges: ") line = false)
    (text_lines
       (Embedded.generateTicketContent DateFmt.utc example_booking
          (JS.lit "daypass"))).
Proof.
  exact (proj1 (proj1 (proj2 (daypass_prints_no_seat_count DateFmt.utc
                                example_booking None)) eq_refl)).
Defined.

(** [get()] on a newly constructed service: a stored stale host is
    replaced by the default 192.168.192.12:9100, which is returned; any
    other stored configuration is returned as stored; with nothing stored,
    or with text that does not parse, the default is returned. A stored
    value that is no configuration is handled alike: replaced by the
    default when its [ip] is the stale host, returned as it is otherwise. *)
Theorem get_on_new_service (storage : gmap (list Z) ConfigStore.Item) :
  match storage !! ConfigStore.STORAGE_KEY with
  | Some (ConfigStore.Json config) =>
      if Str.eqb (ConfigStore.ip config) (JS.lit "192.168.192.168")
      then ConfigStore.get (ConfigStore.start storage)
           = (ConfigStore.saveConfig (ConfigStore.start storage)
                (ConfigStore.Config
                   {| ConfigStore.ip := JS.lit "192.168.192.12";
                      ConfigStore.port := 9100 |}),
              ConfigStore.Config
                {| ConfigStore.ip := JS.lit "192.168.192.12";
                   ConfigStore.port := 9100 |})
      else ConfigStore.get (ConfigStore.start storage)
           = (ConfigStore.start storage, ConfigStore.Config config)
  | Some (ConfigStore.Other v) =>
      if ConfigStore.is_old_host (ConfigStore.ip_of (ConfigStore.value_of v))
      then ConfigStore.get (ConfigStore.start storage)
           = (ConfigStore.saveConfig (ConfigStore.start storage)
                (ConfigStore.Config
                   {| ConfigStore.ip := JS.lit "192.168.192.12";
                      ConfigStore.port := 9100 |}),
              ConfigStore.Config
                {| ConfigStore.ip := JS.lit "192.168.192.12";
                   ConfigStore.port := 9100 |})
      else ConfigStore.get (ConfigStore.start storage)
           = (ConfigStore.start storage, ConfigStore.value_of v)
  | _ => ConfigStore.get (ConfigStore.start storage)
         = (ConfigStore.start storage,
            ConfigStore.Config
              {| ConfigStore.ip := JS.lit "192.168.192.12";
                 ConfigStore.port := 9100 |})
  end.
Proof.
  exact (get_with_initial_default (ConfigStore.start storage) eq_refl).
Qed.

(** ** Number formatting *)

Lemma fixed_digits_shape (fd : nat) (n : Z) :
  exists whole fraction,
    JS.fixed_digits (S fd) n = whole ++ JS.lit "." ++ fraction
    /\ length fraction = S fd.
Proof.
  unfold JS.fixed_digits.
  set (m' := repeat 48 (S (S fd) - length (JS.digits n)) ++ JS.digits n).
  assert (Hlen : (S (S fd) <= length m')%nat).
  { unfold m'. rewrite length_app, repeat_length. lia. }
  exists (firstn (length m' - S fd) m'), (skipn (length m' - S fd) m').
  split; [reflexivity|]. rewrite length_skipn. lia.
Qed.

(** [toFixed(fd)] with [fd] at least 1 prints exactly [fd] characters after
    the decimal point, for every value it prints in plain form: two for
    [toFixed(2)], three for [toFixed(3)]. *)
Theorem toFixed_decimal_places (fd : nat) (x : JS.number) :
  plain x = true ->
  exists whole fraction,
    JS.toFixed (S fd) x = whole ++ JS.lit "." ++ fraction
    /\ length fraction = S fd.
Proof.
  unfold plain, JS.toFixed. intros Hp.
  destruct (Prim2SF x) as [s|s| |s m e]; try discriminate.
  - apply fixed_digits_shape.
  - apply negb_true_iff in Hp. rewrite Hp.
    destruct (fixed_digits_shape fd
                ((2 * JS.magnitude_num m e * 10 ^ Z.of_nat (S fd)
                  + JS.magnitude_den e) / (2 * JS.magnitude_den e)))
      as (whole & fraction & Heq & Hlen).
    rewrite Heq.
    exists ((if s then JS.lit "-" else []) ++ whole), fraction.
    split; [now rewrite <- app_assoc|assumption].
Qed.

(** [toFixed_decimal_places] at work on the fee of three seats. *)
Lemma toFixed_decimal_places_witness :
  exists whole fraction,
    JS.toFixed 2 (Legacy.fee_per_seat * 3)%float = whole ++ JS.lit "." ++ fraction
    /\ length fraction = 2%nat.
Proof.
  exact (toFixed_decimal_places 1 (Legacy.fee_per_seat * 3)%float eq_refl).
Defined.

(** * Further properties *)

(** ** Outcomes of a delivery *)

Section Outcomes.
Import JS Net.
Variables (ip : jsstring) (port : Z) (data : list Z).

Lemma in_last {A : Type} (x : A) (l : list A) : In x (l ++ [x]).
Proof. apply in_or_app. right. now left. Qed.

Lemma accounted_more (seen : list Event) (ev : Event) (o : Outcome) :
  accounted ip port seen (Some o) -> accounted ip port (seen ++ [ev]) (Some o).
Proof.
  destruct o as [|m]; cbn.
  - intros H. apply in_or_app. now left.
  - unfold explained. intros [H|[[e [H ->]]|[[H ->]|[H ->]]]].
    + left. apply in_or_app. now left.
    + right. left. exists e. split; [apply in_or_app; now left | reflexivity].
    + right. right. left. split; [apply in_or_app; now left | reflexivity].
    + right. right. right. split; [apply in_or_app; now left | reflexivity].
Qed.

Lemma quiet_more (seen : list Event) (ev : Event) :
  Forall (fun ev => quiet ev = true) seen -> quiet ev = true ->
  Forall (fun ev => quiet ev = true) (seen ++ [ev]).
Proof.
  intros H Hq. apply List.Forall_app. split; [exact H|].
  apply List.Forall_cons; [exact Hq | apply List.Forall_nil].
Qed.

Ltac outcome_cases d :=
  let r := fresh "r" in let w := fresh "w" in let s := fresh "s" in
  let t := fresh "t" in
  destruct d as [r w s t ? ? ?]; unfold outcome_inv, result;
  destruct r, w, t; cbn -[lit int_string];
  intros (Hs & Ht & Ha); try (destruct Hs as (Hs & Hw));
  try (exfalso; assert (false = true) by (apply Ht; congruence); discriminate);
  try (subst s; cbn -[lit int_string] in * );
  try (destruct s as [|o s]; [congruence|]; cbn -[lit int_string] in * ).

Ltac outcome_close seen :=
  repeat match goal with
  | |- _ /\ _ => split
  | |- _ :: _ <> [] => discriminate
  | |- [_] <> [] => discriminate
  | |- _ = _ => reflexivity
  | |- _ <> _ -> _ => congruence
  | |- false = true -> _ => discriminate
  | |- true = true -> _ => intros _
  | H : match ?o with Resolved => _ | Rejected _ => _ end
    |- match ?o with Resolved => _ | Rejected _ => _ end =>
      exact (accounted_more seen _ o H)
  | H : Forall _ seen |- Forall _ (seen ++ [_]) =>
      apply quiet_more; [exact H | reflexivity]
  | H : _ -> In ?x seen |- In ?x (seen ++ _) =>
      apply in_or_app; left; apply H; congruence
  | |- In ?x (_ ++ [?x]) => apply in_last
  | |- explained _ _ (_ ++ [WriteDone (Some ?m)]) ?m => left; apply in_last
  | |- explained _ _ (_ ++ [SockError ?e]) _ =>
      right; left; exists e; split; [apply in_last | reflexivity]
  | |- explained _ _ (_ ++ [SockTimeout]) _ =>
      right; right; left; split; [apply in_last | reflexivity]
  | |- explained _ _ (_ ++ [SockClose]) _ =>
      right; right; right; split; [apply in_last | reflexivity]
  end.

Lemma embedded_outcome_step (seen : list Event) (d : Delivery) (ev : Event) :
  outcome_inv ip port seen d ->
  outcome_inv ip port (seen ++ [ev]) (Embedded.step ip port data d ev).
Proof.
  destruct ev as [|[e|]| |m| |]; outcome_cases d; outcome_close seen.

Qed.

Lemma main_outcome_step (seen : list Event) (d : Delivery) (ev : Event) :
  outcome_inv ip port seen d ->
  outcome_inv ip port (seen ++ [ev]) (ElectronMain.step ip port data d ev).
Proof.
  destruct ev as [|[e|]| |m| |]; outcome_cases d; outcome_close seen.
Qed.

Lemma outcome_run (step : Delivery -> Event -> Delivery) :
  (forall seen d ev,
      outcome_inv ip port seen d ->
      outcome_inv ip port (seen ++ [ev]) (step d ev)) ->
  forall evs seen d,
    outcome_inv ip port seen d ->
    outcome_inv ip port (seen ++ evs) (fold_left step evs d).
Proof.
  intros Hstep evs. induction evs as [|ev evs IH]; intros seen d H; cbn.
  - now rewrite app_nil_r.
  - change (ev :: evs) with ([ev] ++ evs). rewrite app_assoc.
    apply IH. now apply Hstep.
Qed.

Lemma outcome_fresh : outcome_inv ip port [] fresh.
Proof. repeat split; cbn; try congruence. apply List.Forall_nil. Qed.

Lemma embedded_accounted (evs : list Event) :
  accounted ip port evs (result (Embedded.sendToPrinter ip port data evs)).
Proof.
  apply (outcome_run (Embedded.step ip port data) embedded_outcome_step evs []
           fresh outcome_fresh).
Qed.

Lemma main_accounted (evs : list Event) :
  accounted ip port evs (result (ElectronMain.sendToPrinter ip port data evs)).
Proof.
  apply (outcome_run (ElectronMain.step ip port data) main_outcome_step evs []
           fresh outcome_fresh).
Qed.

End Outcomes.

Section Copies.
Import JS Net.
Variables (ip : jsstring) (port : Z) (data : list Z).

Lemma settling_step (other : list Z) (a b : Delivery) (ev : Event) :
  same_settling a b ->
  same_settling (Embedded.step ip port data a ev)
    (ElectronMain.step ip port other b ev).
Proof.
  destruct a as [r w s t wi de en], b as [r' w' s' t' wi' de' en'].
  unfold same_settling. cbn. intros (-> & -> & -> & ->).
  destruct ev as [|[e|]| |m| |]; destruct r', w', t'; cbn -[lit int_string];
    repeat split; reflexivity.
Qed.

Lemma settling_run (other : list Z) (evs : list Event) (a b : Delivery) :
  same_settling a b ->
  same_settling (fold_left (Embedded.step ip port data) evs a)
    (fold_left (ElectronMain.step ip port other) evs b).
Proof.
  revert a b. induction evs as [|ev evs IH]; intros a b H; cbn; [exact H|].
  apply IH. now apply settling_step.
Qed.

Lemma result_whatever_the_bytes (other : list Z) (evs : list Event) :
  result (ElectronMain.sendToPrinter ip port other evs)
  = result (Embedded.sendToPrinter ip port data evs).
Proof.
  destruct (settling_run other evs fresh fresh) as (_ & _ & Hs & _).
  { repeat split. }
  unfold result, ElectronMain.sendToPrinter, Embedded.sendToPrinter.
  now rewrite Hs.
Qed.

Lemma copies_step (a b : Delivery) (ev : Event) :
  same_course a b ->
  same_course (Embedded.step ip port data a ev) (ElectronMain.step ip port data b ev).
Proof.
  destruct a as [r w s t wi de en], b as [r' w' s' t' wi' de' en'].
  unfold same_course. cbn. intros (-> & -> & -> & -> & ->).
  destruct ev as [|[e|]| |m| |]; destruct r', w', t'; cbn -[lit int_string];
    repeat split; reflexivity.
Qed.

Lemma copies_run (evs : list Event) (a b : Delivery) :
  same_course a b ->
  same_course (fold_left (Embedded.step ip port data) evs a)
    (fold_left (ElectronMain.step ip port data) evs b).
Proof.
  revert a b. induction evs as [|ev evs IH]; intros a b H; cbn; [exact H|].
  apply IH. now apply copies_step.
Qed.

Lemma legacy_settled_stays (evs : list Event) (d : Delivery) :
  isResolved d = true ->
  settled (fold_left (Legacy.step data) evs d) = settled d.
Proof.
  revert d. induction evs as [|ev evs IH]; intros d H; cbn; [reflexivity|].
  assert (Hstep : isResolved (Legacy.step data d ev) = true
                  /\ settled (Legacy.step data d ev) = settled d).
  { destruct d as [r w s t wi de en]. cbn in H. subst r.
    destruct ev as [|[e|]| |m| |]; cbn; split; reflexivity. }
  destruct Hstep as [Hr Hs]. rewrite (IH _ Hr). exact Hs.
Qed.

Lemma legacy_first_ending (evs : list Event) (d : Delivery) :
  isResolved d = false -> settled d = [] ->
  result (fold_left (Legacy.step data) evs d) = first_ending evs.
Proof.
  revert d. induction evs as [|ev evs IH]; intros d Hr Hs; cbn.
  - unfold result. now rewrite Hs.
  - destruct d as [r w s t wi de en]. cbn in Hr, Hs. subst r s.
    destruct ev as [|[e|]| |m| |]; cbn;
      try (apply IH; reflexivity);
      unfold result; rewrite legacy_settled_stays; reflexivity.
Qed.

End Copies.

(** Whatever the callbacks and their order, in embeddedPrinterService.ts
    and in electron/main.ts: a delivery that settled as a success has had
    its write callback run without an error; one that failed gives the
    error of the write callback, or the text built for an 'error', a
    'timeout' or a 'close' event that did occur; one that is still pending
    has seen none of these events and no failed write. *)
Theorem delivery_outcome_accounted
  (ip : JS.jsstring) (port : Z) (data : list Z) (evs : list Net.Event) :
  accounted ip port evs (Net.result (Embedded.sendToPrinter ip port data evs))
  /\ accounted ip port evs
       (Net.result (ElectronMain.sendToPrinter ip port data evs)).
Proof.
  split; [apply embedded_accounted | apply main_accounted].
Qed.

(** The copy in electron/main.ts ends the socket where the TypeScript
    service destroys it, and waits 200 ms where that one waits 500 ms; on
    every sequence of callbacks the two settle the promise alike and write
    the same chunks. *)
Theorem copies_deliver_alike
  (ip : JS.jsstring) (port : Z) (data : list Z) (evs : list Net.Event) :
  Net.result (ElectronMain.sendToPrinter ip port data evs)
  = Net.result (Embedded.sendToPrinter ip port data evs)
  /\ Net.wire (ElectronMain.sendToPrinter ip port data evs)
     = Net.wire (Embedded.sendToPrinter ip port data evs).
Proof.
  destruct (copies_run ip port data evs Net.fresh Net.fresh) as (_ & _ & Hs & _ & Hw).
  { repeat split. }
  unfold Net.result, ElectronMain.sendToPrinter, Embedded.sendToPrinter.
  now rewrite Hs, Hw.
Qed.

(** In unnamed/part_004 the first of 'error', 'timeout' and 'close'
    decides the delivery: an 'error' rejects with the socket's error, a
    'timeout' rejects with "Printer connection timeout", and a 'close'
    resolves, whether or not anything was connected or written. *)
Theorem legacy_outcome_is_first_ending (data : list Z) (evs : list Net.Event) :
  Net.result (Legacy.sendToPrinter data evs) = first_ending evs.
Proof.
  apply legacy_first_ending; reflexivity.
Qed.

(** ** Answers of the facade *)

Section FacadeMore.
Import JS Model Net.
Variable parseTicket : jsstring -> jsstring + TicketData.
Variable parseReport : jsstring -> jsstring + ReportData.
Variable host : DateFmt.Host.

Lemma awaited_cases (d : Delivery) :
  match Embedded.awaited d with
  | Embedded.Pending => result d = None
  | Embedded.Returned _ => result d = Some Resolved
  | Embedded.Thrown m => result d = Some (Rejected m)
  end.
Proof.
  unfold Embedded.awaited. now destruct (result d) as [[|m]|].
Qed.

Ltac route_cases :=
  repeat match goal with
  | |- context [if ?c then _ else _] => destruct c eqn:?
  | |- context [match parseTicket ?b with _ => _ end] =>
      destruct (parseTicket b) eqn:?
  | |- context [match parseReport ?b with _ => _ end] =>
      destruct (parseReport b) eqn:?
  | |- context [match Embedded.awaited ?d with _ => _ end] =>
      destruct (Embedded.awaited d) eqn:?
  | |- context [match Embedded.testConnection ?d with _ => _ end] =>
      destruct (Embedded.testConnection d) eqn:?
  end.

Lemma embedded_answers (svc : Embedded.Service) (w : Embedded.World)
  (req : Embedded.Request) :
  fst (Embedded.handleRequest parseTicket parseReport host svc w req) = svc
  /\ answered_well
       (snd (Embedded.handleRequest parseTicket parseReport host svc w req)).
Proof.
  unfold Embedded.handleRequest, Embedded.handleRoutes, Embedded.print_route,
    Embedded.ok.
  route_cases; cbn; split; try reflexivity; try exact I;
    unfold well_formed_answer; cbn; auto.
Qed.

Lemma main_answers (svc : Embedded.Service) (w : Embedded.World)
  (req : Embedded.Request) :
  fst (ElectronFacade.handleRequest parseTicket host svc w req) = svc
  /\ answered_well
       (snd (ElectronFacade.handleRequest parseTicket host svc w req)).
Proof.
  unfold ElectronFacade.handleRequest, ElectronFacade.handleRoutes,
    ElectronFacade.print_route, ElectronFacade.failed, Embedded.ok.
  route_cases; cbn; split; try reflexivity; try exact I;
    unfold well_formed_answer; cbn; auto.
Qed.

Lemma startsWith_inv (p s : jsstring) :
  Str.startsWith p s = true -> exists rest, s = p ++ rest.
Proof.
  revert s. induction p as [|c p IH]; intros s H; [now exists s|].
  destruct s as [|y s]; [discriminate|]. cbn in H.
  apply andb_true_iff in H as [Hc Hp]. apply Z.eqb_eq in Hc. subst y.
  destruct (IH s Hp) as [rest ->]. now exists rest.
Qed.

(** A request is on one route only: what the conditions of the routes say
    of its method and path. *)
Ltac route_facts :=
  unfold asks_to_print, asks_for_statistics, Embedded.method_is,
    Embedded.path_is, Embedded.path_under in *;
  repeat match goal with
  | H : _ && _ = true |- _ => apply andb_true_iff in H as [? ?]
  | H : Str.eqb _ _ = true |- _ => apply Str_eqb_eq in H
  | H : Str.startsWith _ _ = true |- _ =>
      apply startsWith_inv in H as [? H]
  end.

Ltac route_clash :=
  route_facts;
  repeat match goal with
  | H : Embedded.method ?r = _, H' : Embedded.method ?r = _ |- _ =>
      rewrite H in H'; vm_compute in H'; discriminate H'
  | H : Embedded.pathname ?r = _, H' : Embedded.pathname ?r = _ |- _ =>
      rewrite H in H'; vm_compute in H'; discriminate H'
  end.

Lemma embedded_success_written (svc : Embedded.Service) (w : Embedded.World)
  (req : Embedded.Request) :
  asks_to_print req = true ->
  reports_success
    (snd (Embedded.handleRequest parseTicket parseReport host svc w req)) = true ->
  In (WriteDone None) (Embedded.socket_events w).
Proof.
  unfold Embedded.handleRequest, Embedded.handleRoutes, Embedded.print_route,
    Embedded.ok, Embedded.printTicket, Embedded.printStatisticsReport.
  intros Hp. route_cases; cbn; intros Hs; try discriminate Hs;
    try (exfalso; now route_clash).
  all: match goal with
       | H : Embedded.awaited ?d = Embedded.Returned _ |- _ =>
           pose proof (awaited_cases d) as Hd; rewrite H in Hd
       end.
  all: match type of Hd with
       | result (Embedded.sendToPrinter ?i ?p ?b ?e) = _ =>
           pose proof (embedded_accounted i p b e) as Ha; rewrite Hd in Ha;
           exact Ha
       end.
Qed.

Lemma main_success_written (svc : Embedded.Service) (w : Embedded.World)
  (req : Embedded.Request) :
  asks_to_print req = true ->
  reports_success
    (snd (ElectronFacade.handleRequest parseTicket host svc w req)) = true ->
  In (WriteDone None) (Embedded.socket_events w).
Proof.
  unfold ElectronFacade.handleRequest, ElectronFacade.handleRoutes,
    ElectronFacade.print_route, ElectronFacade.failed, Embedded.ok,
    ElectronFacade.printTicket.
  intros Hp. route_cases; cbn; intros Hs; try discriminate Hs;
    try (exfalso; now route_clash).
  all: match goal with
       | H : Embedded.awaited ?d = Embedded.Returned _ |- _ =>
           pose proof (awaited_cases d) as Hd; rewrite H in Hd
       end.
  all: match type of Hd with
       | result (ElectronMain.sendToPrinter ?i ?p ?b ?e) = _ =>
           pose proof (main_accounted i p b e) as Ha; rewrite Hd in Ha;
           exact Ha
       end.
Qed.

Lemma awaited_alike (svc : Embedded.Service) (w : Embedded.World)
  (t : TicketData) (type : jsstring) :
  Embedded.awaited (ElectronFacade.printTicket host svc w t type)
  = Embedded.awaited (Embedded.printTicket host svc w t type).
Proof.
  unfold Embedded.awaited, ElectronFacade.printTicket, Embedded.printTicket.
  cbv zeta. now rewrite result_whatever_the_bytes with
    (data := Embedded.convertToESCPOS (Embedded.generateTicketContent host t type)).
Qed.

Lemma reason_has_text (ip : jsstring) (port : Z) (evs : list Event) (m : jsstring) :
  forallb (fun ev => match ev with
                     | WriteDone (Some m) => Str.truthy m
                     | _ => true
                     end) evs = true ->
  explained ip port evs m -> Str.truthy m = true.
Proof.
  intros Hall [H|[[e [_ ->]]|[[_ ->]|[_ ->]]]]; try reflexivity.
  rewrite forallb_forall in Hall. exact (Hall _ H).
Qed.

(** Apart from the statistics route, and as long as every exception
    carries a message, the service of electron/main.ts answers every
    request as the one of embeddedPrinterService.ts does, although the two
    format bookings differently. *)
Theorem facades_answer_alike (svc : Embedded.Service) (w : Embedded.World)
  (req : Embedded.Request) :
  asks_for_statistics req = false ->
  errors_have_text parseTicket w req = true ->
  ElectronFacade.handleRequest parseTicket host svc w req
  = Embedded.handleRequest parseTicket parseReport host svc w req.
Proof.
  unfold ElectronFacade.handleRequest, ElectronFacade.handleRoutes,
    ElectronFacade.print_route, ElectronFacade.failed,
    Embedded.handleRequest, Embedded.handleRoutes, Embedded.print_route,
    asks_for_statistics, errors_have_text.
  intros Hstat Htext. rewrite Hstat.
  apply andb_true_iff in Htext as [Hparse Hwrite].
  repeat match goal with
  | |- context [if ?c then _ else _] => destruct c eqn:?
  | |- context [match parseTicket ?b with _ => _ end] =>
      destruct (parseTicket b) eqn:?
  end; try reflexivity; try discriminate Hparse.
  all: rewrite awaited_alike.
  all: route_cases; try reflexivity.
  all: match goal with
       | H : Embedded.awaited ?d = Embedded.Thrown ?m |- _ =>
           pose proof (awaited_cases d) as Hd; rewrite H in Hd
       end.
  all: unfold Embedded.printTicket in Hd; cbv zeta in Hd.
  all: match type of Hd with
       | result (Embedded.sendToPrinter ?i ?p ?b ?e) = _ =>
           pose proof (embedded_accounted i p b e) as Ha; rewrite Hd in Ha;
           apply (reason_has_text _ _ _ _ Hwrite) in Ha; congruence
       end.
Qed.

Lemma main_has_no_statistics_route (svc : Embedded.Service)
  (w : Embedded.World) (req : Embedded.Request) :
  asks_for_statistics req = true ->
  ElectronFacade.handleRequest parseTicket host svc w req
  = (svc, Some {| Embedded.status := 404;
                  Embedded.payload := Embedded.Error (lit "Not found") |}).
Proof.
  unfold ElectronFacade.handleRequest, ElectronFacade.handleRoutes.
  intros Hs. route_cases; try reflexivity; exfalso; now route_clash.
Qed.

End FacadeMore.

(** Serving a request leaves the service object as it was, in both
    services, and an answer has one of three shapes: a body [{error}] with
    404 and the text "Not found" or with 500 and a text that is never
    empty; the result of a connection test with 200, whose own error text
    is empty when connected and "Could not connect to printer" when not;
    any other body with 200. *)
Theorem facade_answers_are_well_formed
  (parseTicket : JS.jsstring -> JS.jsstring + Model.TicketData)
  (parseReport : JS.jsstring -> JS.jsstring + Model.ReportData)
  (host : DateFmt.Host) (svc : Embedded.Service) (w : Embedded.World)
  (req : Embedded.Request) :
  (fst (Embedded.handleRequest parseTicket parseReport host svc w req) = svc
   /\ answered_well
        (snd (Embedded.handleRequest parseTicket parseReport host svc w req)))
  /\ (fst (ElectronFacade.handleRequest parseTicket host svc w req) = svc
      /\ answered_well
           (snd (ElectronFacade.handleRequest parseTicket host svc w req))).
Proof.
  split; [apply embedded_answers | apply main_answers].
Qed.

(** A print route (POST below /api/printer/print/) of either service
    answers 200 only if the write callback of the socket it opened has run
    without an error. *)
Theorem reported_success_follows_a_completed_write
  (parseTicket : JS.jsstring -> JS.jsstring + Model.TicketData)
  (parseReport : JS.jsstring -> JS.jsstring + Model.ReportData)
  (host : DateFmt.Host) (svc : Embedded.Service) (w : Embedded.World)
  (req : Embedded.Request) :
  asks_to_print req = true ->
  reports_success
    (snd (Embedded.handleRequest parseTicket parseReport host svc w req)) = true
  \/ reports_success
       (snd (ElectronFacade.handleRequest parseTicket host svc w req)) = true ->
  In (Net.WriteDone None) (Embedded.socket_events w).
Proof.
  intros Hp [H|H].
  - exact (embedded_success_written parseTicket parseReport host svc w req Hp H).
  - exact (main_success_written parseTicket host svc w req Hp H).
Qed.

(** [reported_success_follows_a_completed_write] at work: a booking sent
    to a printer that accepts it. *)
Lemma reported_success_follows_a_completed_write_witness :
  In (Net.WriteDone None) (Embedded.socket_events printer_answers).
Proof.
  apply (reported_success_follows_a_completed_write
           (parses_as example_booking) (parses_as_report example_report)
           DateFmt.utc (Embedded.new_service None) printer_answers
           (print_request "booking" [])).
  - reflexivity.
  - left. vm_compute. reflexivity.
Defined.

(** [facades_answer_alike] at work: a booking when no printer listens. *)
Lemma facades_answer_alike_witness :
  ElectronFacade.handleRequest (parses_as example_booking) DateFmt.utc
    (Embedded.new_service None) printer_refuses (print_request "booking" [])
  = Embedded.handleRequest (parses_as example_booking)
      (parses_as_report example_report) DateFmt.utc
      (Embedded.new_service None) printer_refuses (print_request "booking" []).
Proof.
  apply (facades_answer_alike (parses_as example_booking)
           (parses_as_report example_report) DateFmt.utc
           (Embedded.new_service None) printer_refuses
           (print_request "booking" [])); reflexivity.
Defined.

(** electron/main.ts has no statistics route: it answers
    POST /api/printer/print/statistics with 404 "Not found", which
    embeddedPrinterService.ts never does. *)
Theorem main_lacks_the_statistics_route
  (parseTicket : JS.jsstring -> JS.jsstring + Model.TicketData)
  (parseReport : JS.jsstring -> JS.jsstring + Model.ReportData)
  (host : DateFmt.Host) (svc : Embedded.Service) (w : Embedded.World)
  (body : JS.jsstring) :
  ElectronFacade.handleRequest parseTicket host svc w
    (print_request "statistics" body)
  = (svc, Some {| Embedded.status := 404;
                  Embedded.payload := Embedded.Error (JS.lit "Not found") |})
  /\ match snd (Embedded.handleRequest parseTicket parseReport host svc w
                  (print_request "statistics" body)) with
     | Some r => Embedded.status r <> 404
     | None => True
     end.
Proof.
  split.
  - now apply main_has_no_statistics_route.
  - unfold Embedded.handleRequest, Embedded.handleRoutes.
    change (Str.eqb (Embedded.method (print_request "statistics" body))
              (JS.lit "OPTIONS")) with false.
    change (Embedded.path_is (print_request "statistics" body) "/health") with false.
    change (Embedded.path_under (print_request "statistics" body)
              "/api/printer/config/") with false.
    change (Embedded.path_under (print_request "statistics" body)
              "/api/printer/test/") with false.
    change (Embedded.path_is (print_request "statistics" body)
              "/api/printer/print/booking") with false.
    change (Embedded.path_is (print_request "statistics" body)
              "/api/printer/print/daypass") with false.
    change (Embedded.path_is (print_request "statistics" body)
              "/api/printer/print/exitpass") with false.
    change (Embedded.path_is (print_request "statistics" body)
              "/api/printer/print/statistics") with true.
    change (Embedded.method_is (print_request "statistics" body) "POST") with true.
    cbn [andb].
    destruct (parseReport _); [cbn; discriminate|].
    destruct (Embedded.awaited _); cbn; try exact I; discriminate.
Qed.

(** ** Round trips of the address store *)

Section StoreRoundTrips.
Import JS ConfigStore.

Lemma value_of_round_trip (a : Alien) :
  parsed (written (value_of a)) = Some (value_of a).
Proof. now destruct a as [c| |[|i| |] [|s|p|]]. Qed.

(** The three ways of [getConfig]: a parsed value returned as it is, the
    default returned, the default saved and returned. *)
Lemma get_cases (st : State) :
  (exists v, getConfig st = (st, Parsed v)
             /\ parsed (written v) = Some v /\ is_old_host (ip_of v) = false)
  \/ getConfig st = (st, TheDefault)
  \/ getConfig st = (saveConfig st (Config (DEFAULT_CONFIG st)), TheDefault).
Proof.
  unfold getConfig.
  destruct (localStorage st !! STORAGE_KEY) as [[c| |a]|]; auto; cbn [parsed].
  - destruct (is_old_host (ip_of (Config c))) eqn:E; auto.
    left. exists (Config c). auto.
  - destruct (is_old_host (ip_of (value_of a))) eqn:E; auto.
    left. exists (value_of a). split; [reflexivity|].
    split; [apply value_of_round_trip | exact E].
Qed.

Lemma get_after_save (st : State) (v : Value) :
  parsed (written v) = Some v ->
  v = Config (DEFAULT_CONFIG st) \/ is_old_host (ip_of v) = false ->
  get (saveConfig st v) = (saveConfig st v, v).
Proof.
  intros Hv H. unfold get, getConfig.
  change (localStorage (saveConfig st v) !! STORAGE_KEY)
    with (<[STORAGE_KEY := written v]> (localStorage st) !! STORAGE_KEY).
  rewrite lookup_insert_eq, Hv.
  destruct (is_old_host (ip_of v)) eqn:E; [|reflexivity].
  destruct H as [->|H]; [|discriminate].
  unfold saveConfig. cbn [DEFAULT_CONFIG localStorage deref written].
  now rewrite insert_insert_eq.
Qed.

Lemma get_again (st : State) : get (fst (get st)) = get st.
Proof.
  destruct (get_cases st) as [(v & Hg & Hv & Hold)|[Hg|Hg]];
    unfold get at 2 3; rewrite Hg; cbn [fst deref].
  - unfold get. now rewrite Hg.
  - unfold get. now rewrite Hg.
  - change (DEFAULT_CONFIG (saveConfig st (Config (DEFAULT_CONFIG st))))
      with (DEFAULT_CONFIG st).
    apply get_after_save; [reflexivity | now left].
Qed.

Lemma is_old_host_text (x : jsstring) :
  is_old_host (Text x) = Str.eqb x stale_host.
Proof. reflexivity. Qed.

(** What a setter does, by what [getConfig] returned. *)
Ltac setter_cases st :=
  let v := fresh "v" in
  destruct (get_cases st) as [(v & Hg & Hv & Hold)|[Hg|Hg]];
  (let Hget := fresh "Hget" in
   pose proof (eq_refl (get st)) as Hget; unfold get at 2 in Hget;
   rewrite Hg in Hget; cbn [deref DEFAULT_CONFIG saveConfig] in Hget;
   rewrite !Hget);
  unfold setPrinterPort, setPrinterPort_call, setPrinterIp, setPrinterIp_call;
  rewrite Hg;
  [ destruct v as [c|[complaint| |i q]] | | ];
  cbn [assign put_ip put_port fst snd deref DEFAULT_CONFIG saveConfig
       keeps_properties throws_on_assignment].

Lemma setPrinterPort_then_get (st : State) (p : Z) :
  ip_of (snd (get (setPrinterPort st p))) = ip_of (snd (get st))
  /\ port_of (snd (get (setPrinterPort st p)))
     = (if keeps_properties (snd (get st)) then Number p
        else port_of (snd (get st)))
  /\ snd (setPrinterPort_call st p) = throws_on_assignment (snd (get st)).
Proof.
  setter_cases st.
  - rewrite get_after_save; [now repeat split | reflexivity | right; exact Hold].
  - rewrite Hget. now repeat split.
  - rewrite get_after_save; [now repeat split | reflexivity | now right].
  - rewrite get_after_save;
      [ | apply value_of_round_trip
        | right; cbn in Hold; now destruct i as [|s| |] ].
    repeat split; now destruct i as [|s| |].
  - rewrite get_after_save; [now repeat split | reflexivity | now left].
  - rewrite get_after_save; [now repeat split | reflexivity | now left].
Qed.

Lemma setPrinterIp_then_get (st : State) (x : jsstring) :
  Str.eqb x stale_host = false ->
  port_of (snd (get (setPrinterIp st x))) = port_of (snd (get st))
  /\ ip_of (snd (get (setPrinterIp st x)))
     = (if keeps_properties (snd (get st)) then Text x
        else ip_of (snd (get st)))
  /\ snd (setPrinterIp_call st x) = throws_on_assignment (snd (get st)).
Proof.
  intros Hx. setter_cases st.
  - rewrite get_after_save; [now repeat split | reflexivity | right; exact Hx].
  - rewrite Hget. now repeat split.
  - rewrite get_after_save; [now repeat split | reflexivity | now right].
  - rewrite get_after_save;
      [ | apply value_of_round_trip
        | right; destruct q as [|s|p|]; exact Hx ].
    repeat split; now destruct q as [|s|p|].
  - rewrite get_after_save; [now repeat split | reflexivity | right; exact Hx].
  - rewrite get_after_save; [now repeat split | reflexivity | right; exact Hx].
Qed.

Lemma reset_then_get (st : State) :
  snd (get (resetToDefault st)) = Config (DEFAULT_CONFIG st).
Proof.
  unfold resetToDefault.
  rewrite get_after_save; [reflexivity | reflexivity | now left].
Qed.

Lemma reset_after_setPrinterIp (st : State) (x : jsstring) :
  snd (get (resetToDefault (setPrinterIp st x)))
  = match snd (getConfig st) with
    | TheDefault => Config {| ip := x; port := port (DEFAULT_CONFIG st) |}
    | Parsed _ => Config (DEFAULT_CONFIG st)
    end.
Proof.
  rewrite reset_then_get. unfold setPrinterIp, setPrinterIp_call.
  destruct (get_cases st) as [(v & Hg & Hv & Hold)|[Hg|Hg]]; rewrite Hg;
    cbn [snd]; [|reflexivity|reflexivity].
  destruct v as [c|[complaint| |i q]]; reflexivity.
Qed.

Lemma valid_is_not_empty (s : jsstring) :
  isValidIp s = true -> Str.truthy s = true.
Proof. now destruct s. Qed.

End StoreRoundTrips.

(** Reading the stored address twice gives what reading it once gives,
    and leaves the store as the first reading left it, whatever is
    stored. (The branch that replaces the old host may run at both
    readings: it then saves what is stored already.) [getPrinterIp] and
    [getPrinterPort] are the two properties of the value read. *)
Theorem store_reads_are_stable (st : ConfigStore.State) :
  ConfigStore.get (fst (ConfigStore.get st)) = ConfigStore.get st
  /\ ConfigStore.getPrinterIp st
     = (fst (ConfigStore.get st), ConfigStore.ip_of (snd (ConfigStore.get st)))
  /\ ConfigStore.getPrinterPort st
     = (fst (ConfigStore.get st),
        ConfigStore.port_of (snd (ConfigStore.get st))).
Proof.
  split; [apply get_again|].
  unfold ConfigStore.getPrinterIp, ConfigStore.getPrinterPort.
  now destruct (ConfigStore.get st).
Qed.

(** [setPrinterPort(p)], whatever is stored: the host read afterwards is
    the host read before; the port read afterwards is [p], unless the
    stored text parsed to a scalar (the assignment throws and nothing is
    saved) or to an array (the property is not written), when it is what
    it was. The call throws exactly on a scalar. *)
Theorem setPrinterPort_keeps_the_host (st : ConfigStore.State) (p : Z) :
  ConfigStore.ip_of (snd (ConfigStore.get (ConfigStore.setPrinterPort st p)))
  = ConfigStore.ip_of (snd (ConfigStore.get st))
  /\ ConfigStore.port_of
       (snd (ConfigStore.get (ConfigStore.setPrinterPort st p)))
     = (if keeps_properties (snd (ConfigStore.get st))
        then ConfigStore.Number p
        else ConfigStore.port_of (snd (ConfigStore.get st)))
  /\ snd (ConfigStore.setPrinterPort_call st p)
     = throws_on_assignment (snd (ConfigStore.get st)).
Proof. apply setPrinterPort_then_get. Qed.

(** [setPrinterIp(x)] with a host other than "192.168.192.168", whatever
    is stored: the port read afterwards is the port read before; the host
    read afterwards is [x], unless the stored text parsed to a scalar or
    to an array, when it is what it was. The call throws exactly on a
    scalar. *)
Theorem setPrinterIp_keeps_the_port (st : ConfigStore.State) (x : JS.jsstring) :
  Str.eqb x stale_host = false ->
  ConfigStore.port_of (snd (ConfigStore.get (ConfigStore.setPrinterIp st x)))
  = ConfigStore.port_of (snd (ConfigStore.get st))
  /\ ConfigStore.ip_of (snd (ConfigStore.get (ConfigStore.setPrinterIp st x)))
     = (if keeps_properties (snd (ConfigStore.get st))
        then ConfigStore.Text x
        else ConfigStore.ip_of (snd (ConfigStore.get st)))
  /\ snd (ConfigStore.setPrinterIp_call st x)
     = throws_on_assignment (snd (ConfigStore.get st)).
Proof. apply setPrinterIp_then_get. Qed.

(** [setPrinterIp_keeps_the_port] at work on a store that holds the
    number 123. *)
Lemma setPrinterIp_keeps_the_port_witness :
  ConfigStore.port_of
    (snd (ConfigStore.get (ConfigStore.setPrinterIp stored_number (JS.lit "10.0.0.7"))))
  = ConfigStore.port_of (snd (ConfigStore.get stored_number))
  /\ ConfigStore.ip_of
       (snd (ConfigStore.get (ConfigStore.setPrinterIp stored_number (JS.lit "10.0.0.7"))))
     = (if keeps_properties (snd (ConfigStore.get stored_number))
        then ConfigStore.Text (JS.lit "10.0.0.7")
        else ConfigStore.ip_of (snd (ConfigStore.get stored_number)))
  /\ snd (ConfigStore.setPrinterIp_call stored_number (JS.lit "10.0.0.7"))
     = throws_on_assignment (snd (ConfigStore.get stored_number)).
Proof.
  apply (setPrinterIp_keeps_the_port stored_number (JS.lit "10.0.0.7")).
  reflexivity.
Defined.

(** [resetToDefault] stores the default object as it is at that moment.
    After a [setPrinterIp] that found nothing usable in the store (and so
    wrote into the default object), a reset gives back the host just set,
    not the initial default. *)
Theorem reset_restores_the_default_object (st : ConfigStore.State)
  (x : JS.jsstring) :
  snd (ConfigStore.get (ConfigStore.resetToDefault st))
  = ConfigStore.Config (ConfigStore.DEFAULT_CONFIG st)
  /\ snd (ConfigStore.get
            (ConfigStore.resetToDefault (ConfigStore.setPrinterIp st x)))
     = match snd (ConfigStore.getConfig st) with
       | ConfigStore.TheDefault =>
           ConfigStore.Config
             {| ConfigStore.ip := x;
                ConfigStore.port :=
                  ConfigStore.port (ConfigStore.DEFAULT_CONFIG st) |}
       | ConfigStore.Parsed _ =>
           ConfigStore.Config (ConfigStore.DEFAULT_CONFIG st)
       end.
Proof.
  split; [apply reset_then_get | apply reset_after_setPrinterIp].
Qed.

(** The settings dialog with an input whose trimmed text is a valid
    address other than "192.168.192.168", whatever is stored: it calls
    [setPrinterIp] with the trimmed text; it reports the failure when the
    call throws (the stored text parsed to a scalar) and success
    otherwise; the host read afterwards is the trimmed text, unless the
    stored text parsed to a scalar or to an array, when it is what it
    was, and the port read afterwards is the port read before. *)
Theorem handleSaveIp_stores_a_valid_address (st : ConfigStore.State)
  (newIp : JS.jsstring) :
  ConfigStore.isValidIp (Str.trim newIp) = true ->
  Str.eqb (Str.trim newIp) stale_host = false ->
  ConfigStore.handleSaveIp st newIp
  = (ConfigStore.setPrinterIp st (Str.trim newIp),
     match throws_on_assignment (snd (ConfigStore.get st)) with
     | Some err => ConfigStore.Failed (update_failed ++ err)
     | None => ConfigStore.Saved update_succeeded
     end)
  /\ ConfigStore.ip_of (snd (ConfigStore.get (fst (ConfigStore.handleSaveIp st newIp))))
     = (if keeps_properties (snd (ConfigStore.get st))
        then ConfigStore.Text (Str.trim newIp)
        else ConfigStore.ip_of (snd (ConfigStore.get st)))
  /\ ConfigStore.port_of
       (snd (ConfigStore.get (fst (ConfigStore.handleSaveIp st newIp))))
     = ConfigStore.port_of (snd (ConfigStore.get st)).
Proof.
  intros Hv Hs.
  destruct (setPrinterIp_then_get st (Str.trim newIp) Hs) as (Hp & Hi & Ht).
  assert (Hcall : ConfigStore.handleSaveIp st newIp
    = (ConfigStore.setPrinterIp st (Str.trim newIp),
       match throws_on_assignment (snd (ConfigStore.get st)) with
       | Some err => ConfigStore.Failed (update_failed ++ err)
       | None => ConfigStore.Saved update_succeeded
       end)).
  { unfold ConfigStore.handleSaveIp, ConfigStore.setPrinterIp.
    rewrite (valid_is_not_empty _ Hv), Hv. cbn [negb]. rewrite <- Ht.
    destruct (ConfigStore.setPrinterIp_call st (Str.trim newIp)) as [st' [err|]];
      reflexivity. }
  split; [exact Hcall|]. rewrite Hcall. cbn [fst]. now split.
Qed.

(** [handleSaveIp_stores_a_valid_address] at work on an input with
    blanks around the address, over a store that holds an empty array:
    success is reported and no host is stored. *)
Lemma handleSaveIp_stores_a_valid_address_witness :
  ConfigStore.handleSaveIp stored_array (JS.lit "  192.168.1.50 ")
  = (ConfigStore.setPrinterIp stored_array (Str.trim (JS.lit "  192.168.1.50 ")),
     match throws_on_assignment (snd (ConfigStore.get stored_array)) with
     | Some err => ConfigStore.Failed (update_failed ++ err)
     | None => ConfigStore.Saved update_succeeded
     end).
Proof.
  apply (proj1 (handleSaveIp_stores_a_valid_address stored_array
                  (JS.lit "  192.168.1.50 ") eq_refl eq_refl)).
Defined.

(** ** Address validation *)

Section Matcher.
Import JS ConfigStore.

Lemma test_Void (s : jsstring) : test Void s = false.
Proof. induction s; cbn; auto. Qed.

Lemma test_Alt (a b : regex) (s : jsstring) :
  test (Alt a b) s = test a s || test b s.
Proof. revert a b. induction s as [|c s IH]; intros a b; cbn; auto. Qed.

Lemma test_Seq (a b : regex) (s : jsstring) :
  test (Seq a b) s = true <->
  exists s1 s2, s = s1 ++ s2 /\ test a s1 = true /\ test b s2 = true.
Proof.
  revert a b. induction s as [|c s IH]; intros a b.
  - cbn. rewrite andb_true_iff. split.
    + intros [Ha Hb]. now exists [], [].
    + intros (s1 & s2 & Hs & Ha & Hb). symmetry in Hs.
      apply app_eq_nil in Hs as [-> ->]. auto.
  - cbn [test deriv]. destruct (nullable a) eqn:Hn.
    + rewrite test_Alt, orb_true_iff, IH. split.
      * intros [(s1 & s2 & -> & Ha & Hb)|Hb].
        -- exists (c :: s1), s2. auto.
        -- exists [], (c :: s). auto.
      * intros (s1 & s2 & Hs & Ha & Hb). destruct s1 as [|c' s1].
        -- cbn in Hs. subst s2. right. exact Hb.
        -- cbn in Hs. injection Hs as -> ->. left. exists s1, s2. auto.
    + rewrite IH. split.
      * intros (s1 & s2 & -> & Ha & Hb). exists (c :: s1), s2. auto.
      * intros (s1 & s2 & Hs & Ha & Hb). destruct s1 as [|c' s1].
        -- cbn in Ha. congruence.
        -- cbn in Hs. injection Hs as -> ->. exists s1, s2. auto.
Qed.

Lemma dead_not_nullable (r : regex) : dead r = true -> nullable r = false.
Proof.
  induction r; cbn; try discriminate; auto.
  - intros H. now rewrite IHr1.
  - intros H. apply andb_true_iff in H as [H1 H2].
    now rewrite IHr1, IHr2.
Qed.

Lemma dead_deriv (c : Z) (r : regex) : dead r = true -> dead (deriv c r) = true.
Proof.
  induction r; cbn; try discriminate; auto.
  - intros H. rewrite (dead_not_nullable _ H). cbn. auto.
  - intros H. apply andb_true_iff in H as [H1 H2].
    now rewrite IHr1, IHr2.
Qed.

Lemma test_dead (r : regex) (s : jsstring) : dead r = true -> test r s = false.
Proof.
  revert r. induction s as [|c s IH]; intros r H; cbn.
  - now apply dead_not_nullable.
  - apply IH. now apply dead_deriv.
Qed.

Lemma classless_deriv (c : Z) (r : regex) :
  classless r = true -> dead (deriv c r) = true.
Proof.
  induction r; cbn; try discriminate; auto.
  - intros H. apply andb_true_iff in H as [H1 H2].
    destruct (nullable r1); cbn; rewrite ?IHr1, ?IHr2; auto.
  - intros H. apply andb_true_iff in H as [H1 H2]. now rewrite IHr1, IHr2.
Qed.

End Matcher.

Section Octets.
Import JS ConfigStore.

Lemma octet_pattern :
  octet = Alt (Seq (Range 50 50) (Seq (Range 53 53) (Range 48 53)))
            (Alt (Seq (Range 50 50) (Seq (Range 48 52) (Range 48 57)))
                 (Seq (Opt (Range 48 49))
                    (Seq (Range 48 57) (Opt (Range 48 57))))).
Proof. reflexivity. Qed.

(** The classes of characters the octet pattern tells apart. *)
Lemma char_classes (c : Z) :
  c < 48 \/ (48 <= c <= 49) \/ c = 50 \/ (51 <= c <= 52) \/ c = 53
  \/ (54 <= c <= 57) \/ 57 < c.
Proof. lia. Qed.

Ltac decide_tests :=
  repeat match goal with
  | |- context [?x <=? ?y] =>
      first [ replace (x <=? y) with true by (symmetry; apply Z.leb_le; lia)
            | replace (x <=? y) with false by (symmetry; apply Z.leb_gt; lia) ]
  end.

Ltac classify c :=
  destruct (char_classes c) as [?|[?|[?|[?|[?|[?|?]]]]]];
  cbn [test deriv nullable andb orb]; decide_tests;
  cbn [test deriv nullable andb orb].

Lemma test_octet (s : jsstring) : test octet s = decimal_octet s.
Proof.
  rewrite octet_pattern. unfold decimal_octet, decimal_value, digit.
  destruct s as [|a [|b [|c [|d rest]]]]; [reflexivity| | | |].
  - cbn [length forallb fold_left Nat.leb andb]. classify a; reflexivity.
  - cbn [length forallb fold_left Nat.leb andb].
    classify a; try reflexivity; classify b; reflexivity.
  - cbn [length forallb fold_left Nat.leb andb].
    classify a; try reflexivity; classify b; try reflexivity;
      classify c; reflexivity.
  - cbn [length forallb fold_left Nat.leb andb].
    classify a; try (apply test_dead; reflexivity);
      classify b; try (apply test_dead; reflexivity);
      classify c; try (apply test_dead; reflexivity);
      apply test_dead; apply classless_deriv; reflexivity.
Qed.

End Octets.

Section Addresses.
Import JS ConfigStore.

Lemma test_dot (s : jsstring) : test (chr ".") s = true <-> s = lit ".".
Proof.
  change (chr ".") with (Range 46 46). change (lit ".") with [46].
  destruct s as [|c [|d s]]; cbn [test deriv nullable].
  - split; discriminate.
  - destruct (Z.leb_spec 46 c), (Z.leb_spec c 46); cbn;
      split; try discriminate; try (intros [= ->]; lia).
    intros _. f_equal. lia.
  - split; [|discriminate].
    destruct ((46 <=? c) && (c <=? 46)); cbn; now rewrite test_Void.
Qed.

Lemma test_dotted (s : jsstring) :
  test dotted s = true <-> exists a, s = a ++ lit "." /\ decimal_octet a = true.
Proof.
  unfold dotted. rewrite test_Seq. split.
  - intros (a & p & -> & Ha & Hp). apply test_dot in Hp. subst p.
    exists a. now rewrite <- test_octet.
  - intros (a & -> & Ha). exists a, (lit "."). rewrite test_octet.
    split; [reflexivity|]. split; [exact Ha | now apply test_dot].
Qed.

(** [isValidIp] accepts exactly the dotted quads: four groups of one to
    three decimal digits, each denoting at most 255 (leading zeros
    allowed), separated by single dots, and nothing before, between or
    after. *)
Theorem isValidIp_accepts_dotted_quads (s : jsstring) :
  isValidIp s = true <-> dotted_quad s.
Proof.
  unfold isValidIp, ipRegex, dotted_quad. split.
  - intros H.
    apply test_Seq in H as (s1 & r1 & -> & H1 & H).
    apply test_Seq in H as (s2 & r2 & -> & H2 & H).
    apply test_Seq in H as (s3 & d & -> & H3 & H).
    apply test_dotted in H1 as (a & -> & Ha).
    apply test_dotted in H2 as (b & -> & Hb).
    apply test_dotted in H3 as (c & -> & Hc).
    rewrite test_octet in H.
    exists a, b, c, d. rewrite <- !app_assoc. auto.
  - intros (a & b & c & d & -> & Ha & Hb & Hc & Hd).
    apply test_Seq. exists (a ++ lit "."), (b ++ lit "." ++ c ++ lit "." ++ d).
    split; [now rewrite <- app_assoc|].
    split; [apply test_dotted; eauto|].
    apply test_Seq. exists (b ++ lit "."), (c ++ lit "." ++ d).
    split; [now rewrite <- app_assoc|].
    split; [apply test_dotted; eauto|].
    apply test_Seq. exists (c ++ lit "."), d.
    split; [now rewrite <- app_assoc|].
    split; [apply test_dotted; eauto|].
    now rewrite test_octet.
Qed.

End Addresses.

(** ** Bytes of the encoded text *)

Section Utf8Facts.
Import JS.

Lemma lor_disjoint (hi y : Z) (n : nat) :
  forallb (fun k => Z.lor hi (Z.of_nat k) =? hi + Z.of_nat k) (seq 0 n) = true ->
  0 <= y < Z.of_nat n -> Z.lor hi y = hi + y.
Proof.
  intros Hall Hy. rewrite forallb_forall in Hall.
  specialize (Hall (Z.to_nat y)). rewrite Z2Nat.id in Hall by lia.
  apply Z.eqb_eq, Hall, in_seq. lia.
Qed.

Lemma cont_range (x : Z) : 128 <= cont x <= 191.
Proof.
  unfold cont. change 0x3F with (Z.ones 6). rewrite Z.land_ones by lia.
  pose proof (Z.mod_pos_bound x (2 ^ 6) ltac:(lia)) as Hm.
  rewrite (lor_disjoint 0x80 _ 64); [lia | reflexivity | lia].
Qed.

Lemma lead_range (hi cp : Z) (k : Z) (n : nat) :
  forallb (fun k => Z.lor hi (Z.of_nat k) =? hi + Z.of_nat k) (seq 0 n) = true ->
  0 <= k -> 0 <= cp < Z.of_nat n * 2 ^ k ->
  hi <= Z.lor hi (Z.shiftr cp k) < hi + Z.of_nat n.
Proof.
  intros Hall Hk Hcp. rewrite Z.shiftr_div_pow2 by lia.
  assert (0 <= cp / 2 ^ k < Z.of_nat n).
  { split; [apply Z.div_pos; lia|]. apply Z.div_lt_upper_bound; lia. }
  rewrite (lor_disjoint hi _ n Hall); lia.
Qed.

Lemma utf8_scalar_high (cp : Z) :
  0x80 <= cp < 0x110000 -> Forall (fun b => 128 <= b <= 255) (utf8_scalar cp).
Proof.
  intros Hcp. unfold utf8_scalar.
  destruct (Z.ltb_spec cp 0x80); [lia|].
  destruct (Z.ltb_spec cp 0x800); [|destruct (Z.ltb_spec cp 0x10000)].
  - pose proof (lead_range 0xC0 cp 6 32 eq_refl ltac:(lia) ltac:(lia)).
    pose proof (cont_range cp).
    repeat constructor; lia.
  - pose proof (lead_range 0xE0 cp 12 16 eq_refl ltac:(lia) ltac:(lia)).
    pose proof (cont_range cp). pose proof (cont_range (Z.shiftr cp 6)).
    repeat constructor; lia.
  - pose proof (lead_range 0xF0 cp 18 8 eq_refl ltac:(lia) ltac:(lia)).
    pose proof (cont_range cp). pose proof (cont_range (Z.shiftr cp 6)).
    pose proof (cont_range (Z.shiftr cp 12)).
    repeat constructor; lia.
Qed.

Lemma code_point_range (c d : Z) :
  is_high_surrogate c = true -> is_low_surrogate d = true ->
  0x80 <= code_point c d < 0x110000.
Proof.
  unfold is_high_surrogate, is_low_surrogate, code_point.
  rewrite !andb_true_iff, !Z.leb_le, Z.shiftl_mul_pow2 by lia. lia.
Qed.

Lemma byte_of_high (s : jsstring) (l : list Z) :
  Forall (fun b => 128 <= b <= 255) l -> Forall (byte_of s) l.
Proof.
  apply List.Forall_impl. intros b Hb. split; [lia|]. intros; lia.
Qed.

Lemma byte_of_more (c : Z) (s : jsstring) (l : list Z) :
  Forall (byte_of s) l -> Forall (byte_of (c :: s)) l.
Proof.
  apply List.Forall_impl. intros b [Hb Hin]. split; [exact Hb|].
  intros H. right. auto.
Qed.

Lemma utf8_bytes_bounded (n : nat) (s : jsstring) :
  (length s <= n)%nat -> code_units s -> Forall (byte_of s) (utf8 s).
Proof.
  revert s. induction n as [|n IH]; intros s Hn Hs.
  - destruct s; [apply List.Forall_nil | cbn in Hn; lia].
  - destruct s as [|c rest]; [apply List.Forall_nil|].
    apply List.Forall_cons_iff in Hs as [Hc Hrest]. cbn in Hn.
    destruct (is_high_surrogate c) eqn:Hh.
    + destruct rest as [|d rest'].
      * rewrite utf8_high_last by exact Hh.
        apply byte_of_high. repeat constructor; lia.
      * destruct (is_low_surrogate d) eqn:Hl.
        -- rewrite utf8_pair by assumption.
           apply List.Forall_app. split.
           ++ apply byte_of_high, utf8_scalar_high.
              now apply code_point_range.
           ++ apply List.Forall_cons_iff in Hrest as [_ Hrest'].
              apply byte_of_more, byte_of_more, IH; [cbn in Hn; lia | exact Hrest'].
        -- rewrite utf8_unpaired by assumption.
           apply List.Forall_app. split.
           ++ apply byte_of_high. repeat constructor; lia.
           ++ apply byte_of_more, IH; [lia | exact Hrest].
    + rewrite utf8_low_head by exact Hh.
      apply List.Forall_app. split.
      * destruct (is_low_surrogate c).
        -- apply byte_of_high. repeat constructor; lia.
        -- unfold utf8_scalar. destruct (Z.ltb_spec c 0x80).
           ++ apply List.Forall_cons; [|apply List.Forall_nil].
              split; [lia|]. intros _. now left.
           ++ apply byte_of_high.
              pose proof (utf8_scalar_high c ltac:(lia)) as H'.
              unfold utf8_scalar in H'.
              destruct (Z.ltb_spec c 0x80); [lia | exact H'].
      * apply byte_of_more, IH; [lia | exact Hrest].
Qed.

Lemma utf8_ascii (s : jsstring) :
  Forall (fun c => 0 <= c < 128) s -> utf8 s = s.
Proof.
  induction s as [|c s IH]; intros H; [reflexivity|].
  apply List.Forall_cons_iff in H as [Hc Hs].
  rewrite utf8_low_head.
  - unfold is_low_surrogate, utf8_scalar.
    destruct (Z.leb_spec 0xDC00 c); [lia|]. cbn [andb].
    destruct (Z.ltb_spec c 0x80); [|lia]. cbn. now rewrite IH.
  - unfold is_high_surrogate. destruct (Z.leb_spec 0xD800 c); [lia|]. reflexivity.
Qed.

End Utf8Facts.

(** The text part of an encoded buffer consists of bytes, and each of
    them below 0x80 is a character of the text: the encoder adds no
    command byte (ESC, GS) or line feed that the text does not contain.
    ASCII text is sent as it is. *)
Theorem encoded_text_bytes (content : JS.jsstring) :
  code_units content ->
  exists text,
    Embedded.convertToESCPOS content
    = Embedded.ESC_init ++ Embedded.ESC_charset ++ Embedded.ESC_center
      ++ text ++ Embedded.ESC_left ++ Embedded.feed ++ Embedded.GS_cut
    /\ Forall (byte_of content) text
    /\ (Forall (fun c => 0 <= c < 128) content -> text = content).
Proof.
  intros H. exists (JS.utf8 content). split; [|split].
  - unfold Embedded.convertToESCPOS. cbv zeta. now rewrite <- !app_assoc.
  - now apply (utf8_bytes_bounded (length content)).
  - apply utf8_ascii.
Qed.

(** [encoded_text_bytes] at work on a word with an accented letter. *)
Lemma encoded_text_bytes_witness :
  exists text,
    Embedded.convertToESCPOS [83; 105; 232; 103; 101]
    = Embedded.ESC_init ++ Embedded.ESC_charset ++ Embedded.ESC_center
      ++ text ++ Embedded.ESC_left ++ Embedded.feed ++ Embedded.GS_cut
    /\ Forall (byte_of [83; 105; 232; 103; 101]) text
    /\ (Forall (fun c => 0 <= c < 128) [83; 105; 232; 103; 101]
        -> text = [83; 105; 232; 103; 101]).
Proof.
  apply (encoded_text_bytes [83; 105; 232; 103; 101]).
  unfold code_units. repeat constructor; lia.
Defined.

(** ** The printer simulator *)

Section Simulator.
Import JS VirtualPrinter.

Lemma decode_kept (bs rest : list Z) (lines : list jsstring) (text : jsstring) :
  Forall kept bs ->
  decode (bs ++ rest) lines text = decode rest lines (text ++ bs).
Proof.
  revert text. induction bs as [|b bs IH]; intros text H.
  - now rewrite app_nil_r.
  - apply List.Forall_cons_iff in H as [Hb Hbs].
    change ((b :: bs) ++ rest) with (b :: (bs ++ rest)). cbn [decode].
    destruct (Z.eqb_spec b 0x1B) as [->|_]; [unfold kept in Hb; lia|].
    destruct (Z.eqb_spec b 0x1D) as [->|_]; [unfold kept in Hb; lia|].
    destruct (Z.eqb_spec b 0x0A) as [->|_]; [unfold kept in Hb; lia|].
    replace (text ++ b :: bs) with ((text ++ [b]) ++ bs)
      by now rewrite <- app_assoc.
    destruct ((0x20 <=? b) && (b <=? 0x7E)) eqn:E; [now apply IH|].
    destruct (Z.leb_spec 0x80 b); [now apply IH|].
    apply andb_false_iff in E. unfold kept in Hb.
    rewrite !Z.leb_gt in E. lia.
Qed.

Lemma printable_kept (l : jsstring) : printable_line l -> Forall kept (utf8 l).
Proof.
  intros (Hu & Hp & _).
  pose proof (utf8_bytes_bounded (length l) l (le_n _) Hu) as Hb.
  rewrite List.Forall_forall in *. intros b Hin.
  destruct (Hb b Hin) as [Hr Hl]. unfold kept.
  destruct (Z.lt_ge_cases b 128) as [Hlt|Hge]; [|right; lia].
  left. specialize (Hp b (Hl Hlt)). lia.
Qed.

Lemma decode_LF (rest : list Z) (lines : list jsstring) (text : jsstring) :
  decode (LF :: rest) lines text
  = if Str.truthy (Str.trim text)
    then decode rest (lines ++ [text] ++ [[]]) []
    else decode rest (lines ++ [[]]) text.
Proof. reflexivity. Qed.

Lemma decode_align (a : Z) (rest : list Z) (lines : list jsstring)
  (text : jsstring) :
  decode (0x1B :: 0x61 :: a :: rest) lines text
  = decode rest (lines ++ [alignment (Some a)]) text.
Proof. reflexivity. Qed.

Lemma decode_cut (m : Z) (lines : list jsstring) (text : jsstring) :
  decode [0x1D; 0x56; m] lines text
  = finish (lines ++ [lit "[GS V - Cut Paper]"]) text.
Proof. reflexivity. Qed.

Lemma decode_line (l : jsstring) (rest : list Z) (lines : list jsstring) :
  printable_line l ->
  decode (utf8 l ++ [LF] ++ rest) lines [] = decode rest (lines ++ shown l) [].
Proof.
  intros Hl. rewrite decode_kept by now apply printable_kept.
  change ([LF] ++ rest) with (LF :: rest). rewrite decode_LF. unfold shown.
  change ([] ++ utf8 l) with (utf8 l).
  destruct (Str.truthy (Str.trim (utf8 l))) eqn:E; [reflexivity|].
  destruct Hl as (_ & _ & [->|Ht]); [reflexivity | congruence].
Qed.

Lemma decode_lines (ls : list jsstring) (l : jsstring) (tail : list Z)
  (lines : list jsstring) :
  Forall printable_line (l :: ls) ->
  decode (join [LF] (map utf8 (l :: ls)) ++ tail) lines []
  = decode tail (lines ++ concat (map shown (List.removelast (l :: ls))))
      (utf8 (List.last (l :: ls) [])).
Proof.
  revert l lines. induction ls as [|l' ls IH]; intros l lines H.
  - apply List.Forall_cons_iff in H as [Hl _].
    cbn [map join List.removelast List.last concat].
    rewrite app_nil_r. now apply decode_kept, printable_kept.
  - apply List.Forall_cons_iff in H as [Hl H].
    change (join [LF] (map utf8 (l :: l' :: ls)))
      with (utf8 l ++ [LF] ++ join [LF] (map utf8 (l' :: ls))).
    rewrite <- !app_assoc. rewrite decode_line by exact Hl.
    rewrite (IH l' _ H).
    change (List.removelast (l :: l' :: ls)) with (l :: List.removelast (l' :: ls)).
    change (List.last (l :: l' :: ls) []) with (List.last (l' :: ls) []).
    cbn [map concat]. now rewrite <- app_assoc.
Qed.

Lemma last_printable (ls : list jsstring) :
  Forall printable_line ls -> printable_line (List.last ls []).
Proof.
  intros H. induction H as [|l ls Hl H IH].
  - repeat split; [apply List.Forall_nil | apply List.Forall_nil | now left].
  - destruct ls; [exact Hl | exact IH].
Qed.

(** What the simulator (virtual-printer.cjs) lists for the buffer that
    [convertToESCPOS] makes of printable lines: initialize, code table,
    centre; every line but the last, each followed by an empty entry;
    left alignment, listed before the last line because that line is
    still pending when the command is read; the last line; the remaining
    feeds; the cut. The text of a line is listed byte by byte, one
    character per UTF-8 byte. *)
Theorem simulator_lists_the_job (ls : list jsstring) :
  Forall printable_line ls ->
  decodeESCPOS (Embedded.convertToESCPOS (join [LF] ls))
  = [lit "[ESC @ - Initialize Printer]"; lit "[ESC t - Set Code Table]";
     alignment (Some 1)]
    ++ concat (map shown (List.removelast ls))
    ++ [alignment (Some 0)] ++ shown (List.last ls [])
    ++ [[]; []; []] ++ [lit "[GS V - Cut Paper]"].
Proof.
  intros H. unfold decodeESCPOS, Embedded.convertToESCPOS. cbv zeta.
  rewrite utf8_join.
  unfold Embedded.ESC_init, Embedded.ESC_charset, Embedded.ESC_center.
  rewrite <- !app_assoc.
  change (decode ([0x1B; 0x40] ++ [0x1B; 0x74; 0x02] ++ [0x1B; 0x61; 0x01] ++ ?x)
            [] [])
    with (decode x [lit "[ESC @ - Initialize Printer]";
                    lit "[ESC t - Set Code Table]"; alignment (Some 1)] []).
  pose proof (last_printable ls H) as Hlast.
  set (tail := Embedded.ESC_left ++ Embedded.feed ++ Embedded.GS_cut).
  assert (Htail : forall lines,
    decode (utf8 (List.last ls []) ++ tail) lines []
    = lines ++ [alignment (Some 0)] ++ shown (List.last ls [])
      ++ [[]; []; []] ++ [lit "[GS V - Cut Paper]"]).
  { intros lines. rewrite decode_kept by now apply printable_kept.
    unfold tail, Embedded.ESC_left, Embedded.feed, Embedded.GS_cut.
    change ([0x1B; 0x61; 0x00] ++ [0x0A; 0x0A; 0x0A; 0x0A] ++ [0x1D; 0x56; 0x00])
      with (0x1B :: 0x61 :: 0x00 :: LF :: LF :: LF :: LF :: [0x1D; 0x56; 0x00]).
    change ([] ++ utf8 (List.last ls [])) with (utf8 (List.last ls [])).
    rewrite decode_align, decode_LF. unfold shown.
    destruct (Str.truthy (Str.trim (utf8 (List.last ls [])))) eqn:E.
    - rewrite !decode_LF. change (Str.truthy (Str.trim [])) with false.
      cbv iota. rewrite decode_cut. unfold finish.
      change (Str.truthy (Str.trim [])) with false. cbv iota.
      rewrite <- !app_assoc. reflexivity.
    - destruct Hlast as (_ & _ & [Hl|Ht]); [|congruence].
      rewrite Hl. change (utf8 []) with (@nil Z).
      rewrite !decode_LF. change (Str.truthy (Str.trim [])) with false.
      cbv iota. rewrite decode_cut. unfold finish.
      change (Str.truthy (Str.trim [])) with false. cbv iota.
      rewrite <- !app_assoc. reflexivity. }
  destruct ls as [|l ls].
  - cbn [map join app]. exact (Htail _).
  - rewrite decode_lines by exact H.
    change (utf8 (List.last (l :: ls) []) ) with ([] ++ utf8 (List.last (l :: ls) [])).
    rewrite <- (decode_kept (utf8 (List.last (l :: ls) [])) tail _ [])
      by now apply printable_kept.
    rewrite Htail. now rewrite <- !app_assoc.
Qed.

End Simulator.

(** [simulator_lists_the_job] at work on four lines of a ticket. *)
Lemma simulator_lists_the_job_witness :
  VirtualPrinter.decodeESCPOS
    (Embedded.convertToESCPOS
       (JS.join [JS.LF] [JS.lit "Sieges: 3"; []; JS.lit "Total: 15.45 TND"; []]))
  = [JS.lit "[ESC @ - Initialize Printer]"; JS.lit "[ESC t - Set Code Table]";
     JS.lit "[ESC a - Alignment: CENTER]"]
    ++ concat (map shown
                 (List.removelast
                    [JS.lit "Sieges: 3"; []; JS.lit "Total: 15.45 TND"; []]))
    ++ [JS.lit "[ESC a - Alignment: LEFT]"]
    ++ shown (List.last [JS.lit "Sieges: 3"; []; JS.lit "Total: 15.45 TND"; []] [])
    ++ [[]; []; []] ++ [JS.lit "[GS V - Cut Paper]"].
Proof.
  apply (simulator_lists_the_job
           [JS.lit "Sieges: 3"; []; JS.lit "Total: 15.45 TND"; []]).
  repeat (apply List.Forall_cons || apply List.Forall_nil);
    (split; [|split]);
    try (now left); try (right; reflexivity);
    unfold code_units; cbn [JS.lit];
    repeat (apply List.Forall_cons || apply List.Forall_nil); cbn; lia.
Defined.

(** ** The staff table of a report *)

Section TableFacts.
Import JS Model.

Lemma padStart_length (w : nat) (s : jsstring) :
  length (padStart w s) = Nat.max w (length s).
Proof. unfold padStart. rewrite length_app, repeat_length. lia. Qed.

Lemma padEnd_length (w : nat) (s : jsstring) :
  length (padEnd w s) = Nat.max w (length s).
Proof. unfold padEnd. rewrite length_app, repeat_length. lia. Qed.

Lemma name_cell_length (name : jsstring) :
  length (padEnd 10 (firstn 10 name)) = 10%nat.
Proof.
  rewrite padEnd_length. pose proof (firstn_le_length 10 name).
  rewrite length_firstn. lia.
Qed.

Lemma staff_line_length (staff : StaffRow) :
  length (Embedded.staff_line staff)
  = (25
     + Nat.max 6 (length (Number_toString (or_default (Some (sr_seats staff)) 0%float)))
     + Nat.max 10 (length (toFixed 2 (or_default (Some (sr_seatIncome staff)) 0%float)))
     + Nat.max 6 (length (Number_toString (or_default (Some (sr_dayPasses staff)) 0%float)))
     + Nat.max 10 (length (toFixed 2 (or_default (Some (sr_dayPassIncome staff)) 0%float)))
     + Nat.max 10 (length (toFixed 2 (or_default (Some (sr_income staff)) 0%float))))%nat.
Proof.
  unfold Embedded.staff_line. cbv zeta.
  rewrite !length_app, !padStart_length, name_cell_length.
  change (length (lit " | ")) with 3%nat.
  repeat match goal with
  | |- context [Nat.max ?a (length ?s)] =>
      generalize (Nat.max a (length s)); intros ?
  end.
  lia.
Qed.

Lemma staff_line_name (staff : StaffRow) :
  firstn 13 (Embedded.staff_line staff)
  = padEnd 10 (firstn 10 (sr_name staff)) ++ lit " | ".
Proof.
  unfold Embedded.staff_line. cbv zeta.
  set (name := padEnd 10 (firstn 10 (sr_name staff))).
  pose proof (name_cell_length (sr_name staff)) as Hn. fold name in Hn.
  rewrite firstn_app, Hn. change (13 - 10)%nat with 3%nat.
  rewrite firstn_all2 by lia. reflexivity.
Qed.

End TableFacts.

(** A row of the staff table has at least 67 characters (exactly 67 when
    its numbers fit their columns), more than twice the 32 of the rules
    around it; it starts with the name cut or padded to exactly 10
    characters. *)
Theorem staff_rows_are_wider_than_the_rules (staff : Model.StaffRow) :
  length Embedded.dashes = 32%nat
  /\ (67 <= length (Embedded.staff_line staff))%nat
  /\ (cells_fit staff -> length (Embedded.staff_line staff) = 67%nat)
  /\ firstn 13 (Embedded.staff_line staff)
     = JS.padEnd 10 (firstn 10 (Model.sr_name staff)) ++ JS.lit " | "
  /\ length (JS.padEnd 10 (firstn 10 (Model.sr_name staff))) = 10%nat.
Proof.
  split; [reflexivity|]. rewrite staff_line_length. unfold cells_fit.
  repeat match goal with
  | |- context [length (?f ?a (JS.or_default ?x ?d))] =>
      generalize (length (f a (JS.or_default x d))); intros ?
  | |- context [length (?f (JS.or_default ?x ?d))] =>
      generalize (length (f (JS.or_default x d))); intros ?
  end.
  split; [lia|]. split; [lia|].
  split; [apply staff_line_name | apply name_cell_length].
Qed.

(** ** The client *)

Section ClientFacts.
Import JS Model.
Variable parseTicket : jsstring -> jsstring + TicketData.
Variable parseReport : jsstring -> jsstring + ReportData.
Variable host : DateFmt.Host.

Lemma handle_test (svc : Embedded.Service) (w : Embedded.World) (id body : jsstring) :
  Embedded.handleRequest parseTicket parseReport host svc w
    {| Embedded.method := lit "POST";
       Embedded.pathname := lit "/api/printer/test/" ++ id;
       Embedded.body := body |}
  = (svc,
     match Embedded.testConnection (Embedded.socket_events w) with
     | Embedded.Returned connected =>
         Some {| Embedded.status := 200;
                 Embedded.payload :=
                   Embedded.TestResult connected
                     (if connected then []
                      else lit "Could not connect to printer") |}
     | _ => None
     end).
Proof.
  assert (Hnever : forall evs m, Embedded.testConnection evs <> Embedded.Thrown m).
  { intros evs m. induction evs as [|[| | | | |] evs IH]; cbn; congruence. }
  unfold Embedded.handleRequest, Embedded.handleRoutes, Embedded.path_is,
    Embedded.path_under, Embedded.method_is.
  cbn [Embedded.method Embedded.pathname].
  rewrite startsWith_app.
  change (Str.eqb (lit "POST") (lit "OPTIONS")) with false.
  change (Str.eqb (lit "/api/printer/test/" ++ id) (lit "/health")) with false.
  change (Str.startsWith (lit "/api/printer/config/") (lit "/api/printer/test/" ++ id))
    with false.
  change (Str.eqb (lit "POST") (lit "POST")) with true.
  cbn [andb].
  destruct (Embedded.testConnection (Embedded.socket_events w)) as [|c|m] eqn:E;
    try reflexivity.
  now apply Hnever in E.
Qed.

(** [testPrinterConnection] of the address store, run against the
    service of embeddedPrinterService.ts: whatever address is stored and
    sent with the PUT, the result is the service's own connection test,
    and the store is left as [getConfig] leaves it. *)
Theorem client_test_reports_the_service_probe
  (stringify : Client.BackendConfig -> jsstring) (json_error : jsstring)
  (svc : Embedded.Service) (w : Embedded.World) (st : ConfigStore.State) :
  Client.testPrinterConnection stringify json_error
    (fetch_from_embedded parseTicket parseReport host svc w) st
  = (fst (ConfigStore.get st),
     match Embedded.testConnection (Embedded.socket_events w) with
     | Embedded.Returned c =>
         Some {| Client.connected := c;
                 Client.error := Some (if c then []
                                       else lit "Could not connect to printer") |}
     | _ => None
     end).
Proof.
  unfold Client.testPrinterConnection, fetch_from_embedded.
  destruct (ConfigStore.get st) as [st' config]. cbn [fst].
  change {| Embedded.method := lit "PUT";
            Embedded.pathname := lit "/api/printer/config/printer1";
            Embedded.body := stringify (Client.backendConfig config) |}
    with (put_config (lit "printer1") (stringify (Client.backendConfig config))).
  rewrite handle_put. cbn [snd Client.response_ok Embedded.status negb andb].
  change (lit "/api/printer/test/printer1")
    with (lit "/api/printer/test/" ++ lit "printer1").
  rewrite handle_test. cbn [snd].
  destruct (Embedded.testConnection (Embedded.socket_events w)) as [|c|m];
    reflexivity.
Qed.

Lemma or_else_truthy (a : option jsstring) (b : jsstring) :
  Str.truthy b = true -> Str.truthy (Client.or_else a b) = true.
Proof.
  intros Hb. unfold Client.or_else, Str.or_default.
  destruct a as [s|]; [destruct (Str.truthy s) eqn:E|]; auto.
Qed.

Lemma or_else_kept (s b : jsstring) :
  Str.truthy s = true -> Client.or_else (Some s) b = s.
Proof. intros H. unfold Client.or_else, Str.or_default. now rewrite H. Qed.

Lemma withBranding_branded (b : Client.Branding) : branded (Client.withBranding b).
Proof.
  unfold branded, Client.withBranding.
  cbn [Client.brandName Client.brandLogo Client.companyName Client.companyLogo
       Str.truthy_opt].
  repeat split; repeat apply or_else_truthy; reflexivity.
Qed.

Lemma withBranding_twice (b : Client.Branding) :
  Client.withBranding (Client.withBranding b) = Client.withBranding b.
Proof.
  unfold Client.withBranding.
  cbn [Client.brandName Client.brandLogo Client.companyName Client.companyLogo].
  rewrite !or_else_kept by (repeat apply or_else_truthy; reflexivity).
  reflexivity.
Qed.

End ClientFacts.


(** ** Where the two copies print the same ticket *)

Section CopiesAgree.
Import JS Model.

Lemma at_least_one (n : number) :
  (1 <=? n)%float = true ->
  truthy n = true /\ Math_max 1%float (or_default (Some n) 1%float) = n.
Proof.
  intros H. rewrite FloatAxioms.leb_spec, Prim2SF_one in H.
  assert (Hcases : (is_nan n = false /\ is_zero n = false)
                   /\ ((1 <? n)%float = true \/ n = 1%float)).
  { unfold is_nan, is_zero.
    rewrite !FloatAxioms.eqb_spec, FloatAxioms.ltb_spec, Prim2SF_one.
    change (Prim2SF zero) with (S754_zero false).
    destruct (Prim2SF n) as [s|s| |s m e] eqn:E; try discriminate H.
    - destruct s; [discriminate H|]. split; [split; reflexivity | now left].
    - destruct s; [discriminate H|].
      unfold SFleb, SFltb, SFeqb, SFcompare in *.
      rewrite Z.compare_refl.
      change (Pos.compare_cont Eq m m) with (Pos.compare m m).
      rewrite Pos.compare_refl. split; [split; reflexivity|].
      destruct (Z.compare (-52) e) eqn:He; try discriminate H; [|now left].
      apply Z.compare_eq in He. subst e.
      change (Pos.compare_cont Eq 4503599627370496 m)
        with (Pos.compare 4503599627370496 m) in *.
      destruct (Pos.compare 4503599627370496 m) eqn:Hm;
        try discriminate H; [|now left].
      apply Pos.compare_eq in Hm. subst m. right.
      apply Prim2SF_inj. now rewrite E. }
  destruct Hcases as [[Hn Hz] Hone].
  assert (Ht : truthy n = true) by (unfold truthy; now rewrite Hn, Hz).
  split; [exact Ht|].
  unfold or_default. rewrite Ht. unfold Math_max. rewrite Hn.
  change (is_nan 1%float) with false. cbn [orb].
  destruct Hone as [Hlt| ->]; [now rewrite Hlt | reflexivity].
Qed.

Lemma booking_alike (dateStr timeStr : jsstring) (data : TicketData) (n : number) :
  seatNumber data = Some n -> (1 <=? n)%float = true ->
  Str.truthy_opt (destinationName data) = true ->
  ElectronMain.booking_lines dateStr timeStr data
  = Embedded.booking_lines dateStr timeStr data.
Proof.
  intros Hs Hn Hd. destruct (at_least_one n Hn) as [_ Hmax].
  unfold ElectronMain.booking_lines, Embedded.booking_lines, Embedded.seatCount.
  rewrite Hs, Hmax. cbn [Str.template_num to_number].
  destruct (destinationName data) as [d|]; [|discriminate Hd].
  cbn in Hd. cbn [Str.template Str.or_default]. rewrite Hd. reflexivity.
Qed.

Lemma exitpass_alike (dateStr timeStr : jsstring) (data : TicketData) :
  Str.truthy_opt (destinationName data) = true ->
  ElectronMain.exitpass_lines dateStr timeStr data
  = Embedded.exitpass_lines dateStr timeStr data.
Proof.
  intros Hd. unfold ElectronMain.exitpass_lines, Embedded.exitpass_lines.
  destruct (destinationName data) as [d|]; [|discriminate Hd].
  cbn in Hd. cbn [Str.template Str.or_default]. rewrite Hd. reflexivity.
Qed.

End CopiesAgree.

(** For a request whose seat count is a number of at least 1 and whose
    destination is a non-empty text, electron/main.ts and
    embeddedPrinterService.ts send the same bytes, for every ticket type. *)
Theorem copies_print_the_same_ticket (h : DateFmt.Host) (data : Model.TicketData)
  (type : JS.jsstring) (n : JS.number) :
  Model.seatNumber data = Some n -> (1 <=? n)%float = true ->
  Str.truthy_opt (Model.destinationName data) = true ->
  ElectronMain.convertToESCPOS (ElectronMain.generateTicketContent h data type)
  = Embedded.convertToESCPOS (Embedded.generateTicketContent h data type).
Proof.
  intros Hs Hn Hd.
  unfold ElectronMain.generateTicketContent, Embedded.generateTicketContent,
    ElectronMain.generateTicketLines, Embedded.generateTicketLines.
  cbv zeta. rewrite (booking_alike _ _ data n Hs Hn Hd), (exitpass_alike _ _ data Hd).
  reflexivity.
Qed.

(** [copies_print_the_same_ticket] at work on the example booking. *)
Lemma copies_print_the_same_ticket_witness :
  ElectronMain.convertToESCPOS
    (ElectronMain.generateTicketContent DateFmt.utc example_booking (JS.lit "booking"))
  = Embedded.convertToESCPOS
      (Embedded.generateTicketContent DateFmt.utc example_booking (JS.lit "booking")).
Proof.
  apply (copies_print_the_same_ticket DateFmt.utc example_booking
           (JS.lit "booking") 3%float); reflexivity.
Defined.
